(** * BioScout: the retrieval-augmented question-answering engine

    A shallow embedding of [server/ragSystem.ts] (createEmbedding,
    calculateSimilarity, retrieveRelevantInfo, searchInternet,
    generateResponse, answerWithRAG) and of the part of
    [server/storage.ts] and [server/db.ts] it reads through
    ([MongoDBStorage.getAll*], [getDb]); then of what stands around the
    engine: the other operations of [MongoDBStorage] that the routes
    await, [connectToDatabase] and [startServer], the classifier of
    [server/imageProcessor.ts] ([classMap], [loadModel],
    [identifySpecies]) and the routes of [server/routes.ts]
    ([isAuthenticated], [calculatePoints], and the handlers of the
    registration, of the observations, of the species and of the
    questions).

    Conventions of the model.
    - A JavaScript string is a Rocq [string] whose characters are read as
      UTF-16 code units below 256 (Latin-1).
    - A document of the store is a record with the types of
      [shared/schema.ts].  A stored document of another shape (a species
      whose [commonNames] is not an array, on which [join] throws) is
      outside the model.
    - A JavaScript number is an element of a type with the operations of
      class [JSNumber].  Two instances are given: [float_number], IEEE
      binary64 on the primitive floats, which are the numbers of the
      engine and evaluate; and [ideal_number], the reals extended with
      NaN, in which rounding and overflow are absent.  What depends on
      no law of arithmetic is proved for every instance; the order of
      the result, the behaviour of the zero vector and the symmetry of
      the similarity are proved for both instances.
    - [async]/[await] is sequential composition in the monad [M], which
      threads the list of observable events and may end in a thrown
      error. *)

From Stdlib Require Import ZArith List String Ascii Bool Arith Lia.
From Stdlib Require Import Sorting.Permutation Sorting.Sorted.
From Stdlib Require Import Reals Lra.
From Stdlib Require Import PrimFloat FloatOps FloatAxioms SpecFloat.
Import ListNotations.

#[local] Open Scope string_scope.
#[local] Open Scope list_scope.

(* ================================================================== *)
(** * JavaScript strings *)
(* ================================================================== *)

Module JSString.

Definition charCode (c : ascii) : Z := Z.of_N (N_of_ascii c).

Definition between (lo hi x : Z) : bool := (lo <=? x)%Z && (x <=? hi)%Z.

(** The class [\w] of a regular expression without the [u] and [i]
    flags: [A-Za-z0-9_]. *)
Definition is_word_char (c : ascii) : bool :=
  let n := charCode c in
  between 65 90 n || between 97 122 n || between 48 57 n || (n =? 95)%Z.

(** The class [\s] below code unit 256: TAB, LF, VT, FF, CR, space and
    NO-BREAK SPACE. *)
Definition is_space (c : ascii) : bool :=
  let n := charCode c in
  between 9 13 n || (n =? 32)%Z || (n =? 160)%Z.

(** [String.prototype.toLowerCase] on one Latin-1 code unit: [A-Z] and
    the accented capitals U+00C0..U+00DE (U+00D7, the multiplication
    sign, apart) move up by 32. *)
Definition lower_char (c : ascii) : ascii :=
  let n := charCode c in
  if between 65 90 n || (between 192 222 n && negb (n =? 215)%Z)
  then ascii_of_N (N_of_ascii c + 32)
  else c.

Fixpoint toLowerCase (s : string) : string :=
  match s with
  | EmptyString => EmptyString
  | String c s' => String (lower_char c) (toLowerCase s')
  end.

(** [s.replace(/[^\w\s]/g, '')]. *)
Fixpoint strip_non_word (s : string) : string :=
  match s with
  | EmptyString => EmptyString
  | String c s' =>
      if is_word_char c || is_space c
      then String c (strip_non_word s')
      else strip_non_word s'
  end.

(** [s.split(/\s+/)]: the pieces between maximal runs of white space.
    [cur] is the piece being read, [in_run] says that the previous
    character was white space.  A run at the very start yields a
    leading empty piece and a run at the very end a trailing one; the
    empty string splits into one empty piece. *)
Fixpoint split_ws_from (cur : string) (in_run : bool) (s : string)
  : list string :=
  match s with
  | EmptyString => [cur]
  | String c s' =>
      if is_space c
      then if in_run then split_ws_from EmptyString true s'
           else cur :: split_ws_from EmptyString true s'
      else split_ws_from (cur ++ String c EmptyString) false s'
  end.

Definition split_ws (s : string) : list string :=
  split_ws_from EmptyString false s.

(** [s.startsWith(p)] and [s.includes(sub)]. *)
Fixpoint startsWith (s p : string) : bool :=
  match p, s with
  | EmptyString, _ => true
  | String _ _, EmptyString => false
  | String a p', String b s' => Ascii.eqb a b && startsWith s' p'
  end.

Fixpoint includes (s sub : string) : bool :=
  startsWith s sub ||
  match s with
  | EmptyString => false
  | String _ s' => includes s' sub
  end.

(** [arr.join(sep)] on an array of strings. *)
Fixpoint join (sep : string) (l : list string) : string :=
  match l with
  | [] => ""
  | [x] => x
  | x :: l' => x ++ sep ++ join sep l'
  end.

(** [arr.includes(x)] on an array of strings. *)
Definition mem (x : string) (l : list string) : bool :=
  existsb (String.eqb x) l.

Definition chars (s : string) : list ascii := list_ascii_of_string s.

End JSString.

(* ================================================================== *)
(** * JavaScript numbers *)
(* ================================================================== *)

(** The operations on numbers that the engine uses.  [num_truthy] is
    ToBoolean, [num_gt a b] is [a > b]. *)
Class JSNumber (num : Type) : Type := {
  num_zero : num;
  num_one : num;
  num_NaN : num;
  num_0_2 : num;                       (* the literal 0.2 *)
  num_0_6 : num;                       (* the literal 0.6 *)
  num_add : num -> num -> num;
  num_sub : num -> num -> num;
  num_mul : num -> num -> num;
  num_div : num -> num -> num;
  num_sqrt : num -> num;
  num_gt : num -> num -> bool;
  num_truthy : num -> bool
}.

(** IEEE 754 binary64, the numbers of a JavaScript engine. *)
#[export] Instance float_number : JSNumber float := {
  num_zero := 0%float;
  num_one := 1%float;
  num_NaN := PrimFloat.nan;
  num_0_2 := 0x1.999999999999ap-3%float;     (* the double nearest to 0.2 *)
  num_0_6 := 0x1.3333333333333p-1%float;     (* the double nearest to 0.6 *)
  num_add := PrimFloat.add;
  num_sub := PrimFloat.sub;
  num_mul := PrimFloat.mul;
  num_div := PrimFloat.div;
  num_sqrt := PrimFloat.sqrt;
  num_gt := fun a b => PrimFloat.ltb b a;
  num_truthy := fun a => negb (PrimFloat.eqb a 0%float) && PrimFloat.eqb a a
}.

(** The reals extended with NaN.  There is no infinity: the engine
    divides only by a magnitude it has tested to be positive, so the
    quotient by zero (an infinity or NaN in JavaScript) is never
    formed; the model gives it NaN. *)
Inductive ideal : Type :=
| NaN : ideal
| Real (r : R) : ideal.

Definition ideal_lift2 (f : R -> R -> R) (a b : ideal) : ideal :=
  match a, b with
  | Real x, Real y => Real (f x y)
  | _, _ => NaN
  end.

Definition ideal_div (a b : ideal) : ideal :=
  match a, b with
  | Real x, Real y => if Req_dec_T y 0 then NaN else Real (x / y)
  | _, _ => NaN
  end.

Definition ideal_sqrt (a : ideal) : ideal :=
  match a with
  | Real x => if Rlt_dec x 0 then NaN else Real (R_sqrt.sqrt x)
  | NaN => NaN
  end.

Definition ideal_gt (a b : ideal) : bool :=
  match a, b with
  | Real x, Real y => if Rlt_dec y x then true else false
  | _, _ => false
  end.

Definition ideal_truthy (a : ideal) : bool :=
  match a with
  | Real x => if Req_dec_T x 0 then false else true
  | NaN => false
  end.

#[export] Instance ideal_number : JSNumber ideal := {
  num_zero := Real 0;
  num_one := Real 1;
  num_NaN := NaN;
  num_0_2 := Real (2 / 10);
  num_0_6 := Real (6 / 10);
  num_add := ideal_lift2 Rplus;
  num_sub := ideal_lift2 Rminus;
  num_mul := ideal_lift2 Rmult;
  num_div := ideal_div;
  num_sqrt := ideal_sqrt;
  num_gt := ideal_gt;
  num_truthy := ideal_truthy
}.

(* ================================================================== *)
(** * JavaScript values that reach the embedding vector *)
(* ================================================================== *)

(** [createEmbedding] is typed over numbers, but it keeps its word
    counts in a plain object literal, whose reads go through
    [Object.prototype].  The values that can flow through it are:
    - [JUndefined]: a property that is absent;
    - [JNum x]: a number;
    - [JObject]: an object inherited from the prototype (the function
      [Object] under the key "constructor", [Object.prototype] itself
      under the accessor "__proto__");
    - [JText]: a string that is not a numeric literal.  The only strings
      that arise are built by [+] from the string form of such an
      object ("function Object() { [native code] }", "[object Object]"),
      whose exact text is left to the engine; all of them convert to NaN
      under ToNumber and are truthy. *)
Inductive jsval (num : Type) : Type :=
| JUndefined
| JNum (x : num)
| JText
| JObject.

Arguments JUndefined {num}.
Arguments JNum {num} x.
Arguments JText {num}.
Arguments JObject {num}.

Section JSValue.
Context {num : Type} `{JSNumber num}.

Definition ToNumber (v : jsval num) : num :=
  match v with
  | JNum x => x
  | JUndefined | JText | JObject => num_NaN
  end.

Definition ToBoolean (v : jsval num) : bool :=
  match v with
  | JUndefined => false
  | JNum x => num_truthy x
  | JText | JObject => true
  end.

(** [a || b]. *)
Definition js_or (a b : jsval num) : jsval num :=
  if ToBoolean a then a else b.

(** ToPrimitive turns an object into its string form. *)
Definition is_stringlike (v : jsval num) : bool :=
  match v with
  | JText | JObject => true
  | JUndefined | JNum _ => false
  end.

(** [a + b]: concatenation as soon as one side is a string, the sum of
    the ToNumber images otherwise. *)
Definition js_plus (a b : jsval num) : jsval num :=
  if is_stringlike a || is_stringlike b then JText
  else JNum (num_add (ToNumber a) (ToNumber b)).

(** [a * b] and [a / b] convert both sides with ToNumber. *)
Definition js_times (a b : jsval num) : num :=
  num_mul (ToNumber a) (ToNumber b).

Definition js_divide (a b : jsval num) : num :=
  num_div (ToNumber a) (ToNumber b).

(** ** Arrays *)

(** [arr[i]]: [undefined] outside the array. *)
Definition array_get (arr : list (jsval num)) (i : nat) : jsval num :=
  nth i arr JUndefined.

Fixpoint array_update (arr : list (jsval num)) (i : nat) (v : jsval num)
  : list (jsval num) :=
  match arr, i with
  | [], _ => []
  | _ :: arr', O => v :: arr'
  | x :: arr', S i' => x :: array_update arr' i' v
  end.

(** [arr[i] = v]: inside the array the slot is overwritten; outside,
    JavaScript grows the array up to index [i] (the slots in between
    are holes, read back as [undefined]). *)
Definition array_set (arr : list (jsval num)) (i : nat) (v : jsval num)
  : list (jsval num) :=
  if (i <? List.length arr)%nat then array_update arr i v
  else arr ++ repeat JUndefined (i - List.length arr) ++ [v].

(** ** Plain objects used as string-keyed maps *)

(** The own properties of an object created by [{}], in creation
    order. *)
Definition props : Type := list (string * jsval num).

Fixpoint own_get (o : props) (key : string) : option (jsval num) :=
  match o with
  | [] => None
  | (k, v) :: o' => if String.eqb k key then Some v else own_get o' key
  end.

Fixpoint own_put (o : props) (key : string) (v : jsval num) : props :=
  match o with
  | [] => [(key, v)]
  | (k, w) :: o' =>
      if String.eqb k key then (k, v) :: o' else (k, w) :: own_put o' key v
  end.

(** [o[key]]: an own property, else what [Object.prototype] holds.
    Of the names on [Object.prototype] only "constructor" and
    "__proto__" are spelled in [a-z0-9_], which is all a key of
    [createEmbedding] can contain; the others (toString, valueOf,
    hasOwnProperty, ...) have a capital letter and are left out. *)
Definition object_get (o : props) (key : string) : jsval num :=
  match own_get o key with
  | Some v => v
  | None =>
      if String.eqb key "constructor" then JObject
      else if String.eqb key "__proto__" then JObject
      else JUndefined
  end.

(** [o[key] = v].  "__proto__" is an accessor of [Object.prototype]:
    its setter ignores a value that is neither an object nor null and
    creates no own property; an object would replace the prototype,
    which [createEmbedding] never does (it assigns the result of a
    [+]).  Every other key becomes, or updates, an own property. *)
Definition object_set (o : props) (key : string) (v : jsval num) : props :=
  if String.eqb key "__proto__" then o else own_put o key v.

End JSValue.

(** ** The order of [Object.entries] *)

Module ObjectKeys.

Definition is_digit (c : ascii) : bool :=
  JSString.between 48 57 (JSString.charCode c).

Fixpoint digits_value (acc : Z) (s : string) : Z :=
  match s with
  | EmptyString => acc
  | String c s' => digits_value (10 * acc + (JSString.charCode c - 48)) s'
  end.

Fixpoint all_digits (s : string) : bool :=
  match s with
  | EmptyString => true
  | String c s' => is_digit c && all_digits s'
  end.

(** An array index: the canonical decimal form of an integer in
    [0, 2^32 - 2]. *)
Definition array_index (key : string) : option Z :=
  match key with
  | EmptyString => None
  | String c rest =>
      if all_digits key
         && (negb (Ascii.eqb c "0"%char) || String.eqb rest "")
         && (digits_value 0 key <=? 4294967294)%Z
      then Some (digits_value 0 key)
      else None
  end.

Section Entries.
Context {V : Type}.

Fixpoint insert_index (i : Z) (e : string * V) (l : list (Z * (string * V)))
  : list (Z * (string * V)) :=
  match l with
  | [] => [(i, e)]
  | (j, f) :: l' =>
      if (i <? j)%Z then (i, e) :: l else (j, f) :: insert_index i e l'
  end.

Fixpoint split_keys (o : list (string * V))
  : list (Z * (string * V)) * list (string * V) :=
  match o with
  | [] => ([], [])
  | (k, v) :: o' =>
      let '(idx, names) := split_keys o' in
      match array_index k with
      | Some i => (insert_index i (k, v) idx, names)
      | None => (idx, (k, v) :: names)
      end
  end.

(** [Object.entries(o)]: the array-index keys in ascending numeric
    order, then the other keys in creation order. *)
Definition entries (o : list (string * V)) : list (string * V) :=
  let '(idx, names) := split_keys o in map snd idx ++ names.
End Entries.

End ObjectKeys.

(* ================================================================== *)
(** * Effects: events, thrown errors, [async] functions *)
(* ================================================================== *)

(** A thrown value: [new Error(message)]. *)
Record JSError : Type := mkError { message : string }.

Inductive Outcome (A : Type) : Type :=
| Returned (a : A)
| Thrown (e : JSError).

Arguments Returned {A} a.
Arguments Thrown {A} e.

(** What a run leaves behind: the asynchronous calls it awaited, by
    function name and string argument, and the lines it wrote with
    [console.error]. *)
Inductive Event : Type :=
| Awaited (fn : string) (arg : string)
| ConsoleError (label : string) (e : JSError).

Definition M (A : Type) : Type := list Event -> Outcome A * list Event.

Definition ret {A} (a : A) : M A := fun log => (Returned a, log).

Definition bind {A B} (m : M A) (k : A -> M B) : M B :=
  fun log =>
    match m log with
    | (Returned a, log') => k a log'
    | (Thrown e, log') => (Thrown e, log')
    end.

Definition throw {A} (e : JSError) : M A := fun log => (Thrown e, log).

(** [try { body } catch (error) { handler }]: what the body logged
    before it threw stays logged. *)
Definition try_catch {A} (body : M A) (handler : JSError -> M A) : M A :=
  fun log =>
    match body log with
    | (Returned a, log') => (Returned a, log')
    | (Thrown e, log') => handler e log'
    end.

Definition emit (ev : Event) : M unit := fun log => (Returned tt, log ++ [ev]).

Definition console_error (label : string) (e : JSError) : M unit :=
  emit (ConsoleError label e).

(** A synchronous call that may throw, inside an [async] body. *)
Definition lift {A} (o : Outcome A) : M A := fun log => (o, log).

Declare Scope js_scope.
Delimit Scope js_scope with js.
Notation "x <- m ;; k" := (bind m (fun x => k))
  (at level 61, m at next level, right associativity) : js_scope.
Notation "m ;;; k" := (bind m (fun _ => k))
  (at level 61, right associativity) : js_scope.

#[local] Open Scope js_scope.

(** [for (const x of l) { s = body(s, x) }] with the loop-carried state
    [s]; a throw in the body leaves the loop. *)
Fixpoint for_of {A S} (l : list A) (body : S -> A -> M S) (s : S) : M S :=
  match l with
  | [] => ret s
  | x :: l' => s' <- body s x ;; for_of l' body s'
  end.

(** What a run from the log [log] ends in. *)
Definition result {A} (m : M A) (log : list Event) : Outcome A := fst (m log).


(** [await f(arg)]: the call is recorded, then the callee runs. *)
Definition await_call {A} (fn arg : string) (callee : M A) : M A :=
  emit (Awaited fn arg) ;;; callee.

(* ================================================================== *)
(** * The documents of the store ([shared/schema.ts]) *)
(* ================================================================== *)

(** Only the fields that the engine reads are kept, and [createdAt],
    the time of insertion in milliseconds. *)

Module Knowledge.
Record t : Type := mk {
  title : string;
  content : string;
  source : option string;            (* z.string().optional() *)
  createdAt : Z
}.
End Knowledge.

Module Species.
Inductive kind : Type := plant | animal | fungi | other.

Definition kind_name (k : kind) : string :=
  match k with
  | plant => "plant"
  | animal => "animal"
  | fungi => "fungi"
  | other => "other"
  end.

Record t : Type := mk {
  scientificName : string;
  commonNames : list string;
  type : kind;
  description : string;
  habitat : string;
  createdAt : Z
}.
End Species.

Module Observation.
Record t (num : Type) : Type := mk {
  speciesName : string;
  coordinates : num * num;            (* location.coordinates: [longitude, latitude] *)
  description : option string;        (* z.string().optional() *)
  createdAt : Z
}.
Arguments mk {num}.
Arguments speciesName {num}.
Arguments coordinates {num}.
Arguments description {num}.
Arguments createdAt {num}.
End Observation.

(** [interface RetrievalResult] and [interface AnswerResult]. *)
Module RetrievalResult.
Record t (num : Type) : Type := mk {
  text : string;
  source : string;
  score : num
}.
Arguments mk {num}.
Arguments text {num}.
Arguments source {num}.
Arguments score {num}.
End RetrievalResult.

Module AnswerResult.
Record t : Type := mk {
  text : string;
  sources : list string;
  relatedObservationIds : option (list string);
  relatedSpeciesIds : option (list string)
}.
End AnswerResult.

(* ================================================================== *)
(** * The store ([server/db.ts], [server/storage.ts]) *)
(* ================================================================== *)

(** The three read operations of [interface IStorage] that the engine
    awaits. *)
Record IStorage (num : Type) : Type := {
  getAllKnowledge : M (list Knowledge.t);
  getAllSpecies : M (list Species.t);
  getAllObservations : M (list (Observation.t num))
}.
Arguments getAllKnowledge {num}.
Arguments getAllSpecies {num}.
Arguments getAllObservations {num}.

(** What [db.collection(name).find({}).toArray()] yields for each
    collection: the documents in the collection's natural order, or a
    rejection.  The driver is outside the repository; its answer is a
    datum of the model. *)
Record Db (num : Type) : Type := {
  knowledge_docs : Outcome (list Knowledge.t);
  species_docs : Outcome (list Species.t);
  observations_docs : Outcome (list (Observation.t num))
}.
Arguments knowledge_docs {num}.
Arguments species_docs {num}.
Arguments observations_docs {num}.

(** The module variable [let db: Db] of db.ts: unset until
    [connectToDatabase] has run. *)
Definition DbHandle (num : Type) : Type := option (Db num).

Section Storage.
Context {num : Type}.

Definition getDb (db : DbHandle num) : Outcome (Db num) :=
  match db with
  | None =>
      Thrown (mkError
        "Database not initialized. Please call connectToDatabase first.")
  | Some d => Returned d
  end.

(** [class MongoDBStorage]: each reader catches every failure, logs it
    and answers with the empty array. *)
Definition MongoDBStorage_getAllObservations (db : DbHandle num)
  : M (list (Observation.t num)) :=
  try_catch
    (d <- lift (getDb db) ;;
     observations <- await_call "find.toArray" "observations"
                       (lift (observations_docs d)) ;;
     ret observations)
    (fun error =>
       console_error "Error getting all observations:" error ;;; ret []).

Definition MongoDBStorage_getAllSpecies (db : DbHandle num) : M (list Species.t) :=
  try_catch
    (d <- lift (getDb db) ;;
     species <- await_call "find.toArray" "species" (lift (species_docs d)) ;;
     ret species)
    (fun error =>
       console_error "Error getting all species:" error ;;; ret []).

Definition MongoDBStorage_getAllKnowledge (db : DbHandle num)
  : M (list Knowledge.t) :=
  try_catch
    (d <- lift (getDb db) ;;
     knowledge <- await_call "find.toArray" "knowledge"
                    (lift (knowledge_docs d)) ;;
     ret knowledge)
    (fun error =>
       console_error "Error getting all knowledge:" error ;;; ret []).

(** [export const storage = new MongoDBStorage()]. *)
Definition MongoDBStorage (db : DbHandle num) : IStorage num := {|
  getAllKnowledge := MongoDBStorage_getAllKnowledge db;
  getAllSpecies := MongoDBStorage_getAllSpecies db;
  getAllObservations := MongoDBStorage_getAllObservations db
|}.

End Storage.

(* ================================================================== *)
(** * The engine ([server/ragSystem.ts]) *)
(* ================================================================== *)

Definition nl : string := String (ascii_of_nat 10) EmptyString.
Definition dquote : string := String (ascii_of_nat 34) EmptyString.

(** ** The word hash *)

(** ToInt32: the integer modulo 2^32, read as a signed 32-bit value. *)
Definition ToInt32 (z : Z) : Z := ((z + 2 ^ 31) mod 2 ^ 32 - 2 ^ 31)%Z.

(** [a << k] for [0 <= k < 32]. *)
Definition shift_left (a k : Z) : Z := ToInt32 (Z.shiftl (ToInt32 a) k).

(** [(hash, char) => ((hash << 5) - hash) + char.charCodeAt(0)].  Only
    the shift wraps to 32 bits; the subtraction and the sum are those of
    doubles.  They are exact as long as the magnitude stays below 2^53,
    and it grows by less than 2^32 per character ([hash_step_bound]
    below), so the integers of [Z] are exact for every word of less than
    two million characters. *)
Definition hash_step (hash : Z) (char : ascii) : Z :=
  (shift_left hash 5 - hash + JSString.charCode char)%Z.

Definition hashCode (word : string) : Z :=
  fold_left hash_step (JSString.chars word) 0%Z.

Definition VECTOR_SIZE : nat := 128.

(** [Math.abs(hashCode) % VECTOR_SIZE]; [%] is the truncated remainder. *)
Definition position_of (word : string) : nat :=
  Z.to_nat (Z.rem (Z.abs (hashCode word)) (Z.of_nat VECTOR_SIZE)).

Section Rag.
Context {num : Type} `{JSNumber num}.
#[local] Open Scope string_scope.

(** [Number.prototype.toString], as used by the template literal over
    the coordinates; every statement below holds whatever it prints. *)
Variable Number_toString : num -> string.

(** ** createEmbedding *)

Definition tokenize (text : string) : list string :=
  JSString.split_ws (JSString.strip_non_word (JSString.toLowerCase text)).

(** [if (word.length > 2) wordFreq[word] = (wordFreq[word] || 0) + 1]. *)
Definition count_word (wordFreq : props) (word : string) : props :=
  if (2 <? String.length word)%nat
  then object_set wordFreq word
         (js_plus (js_or (object_get wordFreq word) (JNum num_zero))
                  (JNum num_one))
  else wordFreq.

Definition word_frequencies (text : string) : props :=
  fold_left count_word (tokenize text) [].

(** [embedding[position] += freq]. *)
Definition add_entry (embedding : list (jsval num)) (e : string * jsval num)
  : list (jsval num) :=
  let '(word, freq) := e in
  let position := position_of word in
  array_set embedding position (js_plus (array_get embedding position) freq).

Definition fill (wordFreq : props) : list (jsval num) :=
  fold_left add_entry (ObjectKeys.entries wordFreq)
            (repeat (JNum num_zero) VECTOR_SIZE).

(** [Math.sqrt(embedding.reduce((sum, val) => sum + val * val, 0))]. *)
Definition magnitude_of (embedding : list (jsval num)) : num :=
  num_sqrt (fold_left (fun sum val => num_add sum (js_times val val))
                      embedding num_zero).

Definition createEmbedding (text : string) : list (jsval num) :=
  let embedding := fill (word_frequencies text) in
  let magnitude := magnitude_of embedding in
  if num_gt magnitude num_zero
  then map (fun val => JNum (js_divide val (JNum magnitude))) embedding
  else embedding.

(** ** calculateSimilarity *)

Definition calculateSimilarity (embedding1 embedding2 : list (jsval num))
  : Outcome num :=
  if negb (List.length embedding1 =? List.length embedding2)%nat
  then Thrown (mkError "Embeddings must have the same dimensions")
  else Returned
         (fold_left
            (fun dotProduct i =>
               num_add dotProduct
                 (js_times (array_get embedding1 i) (array_get embedding2 i)))
            (seq 0 (List.length embedding1)) num_zero).

(** ** Array.prototype.sort and slice *)

(** [arr.sort(compareFn)]: the stable sort that every engine computes
    when [compareFn] is a consistent comparator, written as insertion
    from the right.  An element moves behind another only when
    [compareFn] of the two is positive. *)
Fixpoint insert_sorted {A} (compareFn : A -> A -> num) (x : A) (l : list A)
  : list A :=
  match l with
  | [] => [x]
  | y :: l' =>
      if num_gt (compareFn x y) num_zero
      then y :: insert_sorted compareFn x l'
      else x :: l
  end.

Definition Array_sort {A} (compareFn : A -> A -> num) (l : list A) : list A :=
  fold_right (insert_sorted compareFn) [] l.

(** [arr.slice(start, end)] for [0 <= start <= end]. *)
Definition Array_slice {A} (l : list A) (first last : nat) : list A :=
  firstn (last - first) (skipn first l).

(** ** retrieveRelevantInfo *)

Definition knowledge_text (entry : Knowledge.t) : string :=
  Knowledge.title entry ++ " " ++ Knowledge.content entry.

(** [entry.source || 'Internal Knowledge Base']: an absent and an empty
    source are both falsy. *)
Definition knowledge_source (entry : Knowledge.t) : string :=
  match Knowledge.source entry with
  | Some s => if String.eqb s "" then "Internal Knowledge Base" else s
  | None => "Internal Knowledge Base"
  end.

Definition species_text (specie : Species.t) : string :=
  Species.scientificName specie ++ " ("
  ++ JSString.join ", " (Species.commonNames specie) ++ "): "
  ++ Species.description specie ++ ". Habitat: "
  ++ Species.habitat specie ++ ". Type: "
  ++ Species.kind_name (Species.type specie) ++ ".".

Definition observation_text (observation : Observation.t num) : string :=
  "Observation of " ++ Observation.speciesName observation
  ++ " at coordinates ["
  ++ JSString.join ", "
       [Number_toString (fst (Observation.coordinates observation));
        Number_toString (snd (Observation.coordinates observation))]
  ++ "]. "
  ++ match Observation.description observation with
     | Some d => d
     | None => ""
     end.

(** One turn of each scoring loop: embed the text, compare with the
    query, and push the document when the similarity exceeds 0.2. *)
Definition score_and_push (queryEmbedding : list (jsval num))
  (text_to_embed text source : string)
  (results : list (RetrievalResult.t num)) : M (list (RetrievalResult.t num)) :=
  let embedding := createEmbedding text_to_embed in
  similarity <- lift (calculateSimilarity queryEmbedding embedding) ;;
  ret (if num_gt similarity num_0_2
       then (results ++ [RetrievalResult.mk text source similarity])%list
       else results).

(** [(a, b) => b.score - a.score]. *)
Definition by_score_descending (a b : RetrievalResult.t num) : num :=
  num_sub (RetrievalResult.score b) (RetrievalResult.score a).

Definition retrieveRelevantInfo (storage : IStorage num) (query : string)
  : M (list (RetrievalResult.t num)) :=
  let queryEmbedding := createEmbedding query in
  try_catch
    (knowledgeEntries <- await_call "storage.getAllKnowledge" ""
                           (getAllKnowledge storage) ;;
     results <- for_of knowledgeEntries
       (fun results entry =>
          score_and_push queryEmbedding (knowledge_text entry)
            (Knowledge.content entry) (knowledge_source entry) results) [] ;;
     species <- await_call "storage.getAllSpecies" ""
                  (getAllSpecies storage) ;;
     results <- for_of species
       (fun results specie =>
          let speciesText := species_text specie in
          score_and_push queryEmbedding speciesText speciesText
            ("Species Database: " ++ Species.scientificName specie) results)
       results ;;
     observations <- await_call "storage.getAllObservations" ""
                       (getAllObservations storage) ;;
     let recentObservations := Array_slice observations 0 50 in
     results <- for_of recentObservations
       (fun results observation =>
          let obsText := observation_text observation in
          score_and_push queryEmbedding obsText obsText
            ("User Observation: " ++ Observation.speciesName observation)
            results)
       results ;;
     ret (Array_slice (Array_sort by_score_descending results) 0 5))
    (fun error =>
       console_error "Error retrieving information:" error ;;; ret []).

(** ** searchInternet *)

Definition internet_text (query : string) : string :=
  "Information about " ++ query
  ++ " in Islamabad region could be found in local guidebooks or by contacting the Islamabad Wildlife Management Board. The Margalla Hills National Park is home to diverse wildlife including various bird species, monkeys, and occasionally leopards.".

Definition internet_source : string :=
  "Internet Search Result (Note: Without internet access, this is general information)".

(** The search is simulated: the function waits on a 500 ms timer and
    returns one canned document.  [searchQuery] is built and not used. *)
Definition searchInternet (query : string) : M (list (RetrievalResult.t num)) :=
  try_catch
    (let searchQuery :=
       query ++ " Islamabad Pakistan biodiversity flora fauna" in
     await_call "setTimeout" "500" (ret tt) ;;;
     ret [RetrievalResult.mk (internet_text query) internet_source num_0_6])
    (fun error =>
       console_error "Error searching internet:" error ;;; ret []).

(** ** generateResponse *)

Definition no_information_message (query : string) : string :=
  "I don't have specific information about " ++ query
  ++ ". You might want to consult local experts or biodiversity guides specific to the Islamabad region.".

Definition apology_message (query : string) : string :=
  "I found some information about " ++ query
  ++ ", but couldn't generate a proper response. Please try asking in a different way.".

Definition species_words : list string :=
  ["what"; "species"; "animal"; "plant"; "describe"; "identify"].
Definition location_words : list string :=
  ["where"; "habitat"; "found"; "live"; "location"; "area"; "region"].
Definition sighting_words : list string :=
  ["seen"; "spotted"; "observed"; "sighting"; "reported"; "found"].

(** [queryTerms.some(term => words.includes(term))]. *)
Definition some_term_in (words queryTerms : list string) : bool :=
  existsb (fun term => JSString.mem term words) queryTerms.

(** [retrievedInfo[0].text]: reading [text] of [undefined] throws a
    TypeError. *)
Definition first_text (retrievedInfo : list (RetrievalResult.t num))
  : Outcome string :=
  match retrievedInfo with
  | info :: _ => Returned (RetrievalResult.text info)
  | [] => Thrown (mkError "Cannot read properties of undefined (reading 'text')")
  end.

(** The opening sentence, by the first intent that matches. *)
Definition opening (query : string) (queryTerms : list string)
  (retrievedInfo : list (RetrievalResult.t num)) : string :=
  let isSpeciesQuery := some_term_in species_words queryTerms in
  let isLocationQuery := some_term_in location_words queryTerms in
  let isSightingQuery := some_term_in sighting_words queryTerms in
  if isSpeciesQuery then
    match find (fun info =>
                  JSString.includes (RetrievalResult.source info)
                                    "Species Database") retrievedInfo with
    | Some speciesInfo =>
        "Based on our information: " ++ RetrievalResult.text speciesInfo
        ++ nl ++ nl
    | None =>
        "I found some information that might help answer your question about species in Islamabad:"
        ++ nl ++ nl
    end
  else if isLocationQuery then
    "Regarding the habitat and location in Islamabad region:" ++ nl ++ nl
  else if isSightingQuery then
    let observations :=
      filter (fun info =>
                JSString.includes (RetrievalResult.source info)
                                  "User Observation") retrievedInfo in
    if (0 <? List.length observations)%nat then
      "Here are some relevant observations from our community:" ++ nl ++ nl
      ++ JSString.join nl
           (map (fun obs => "- " ++ RetrievalResult.text obs) observations)
      ++ nl ++ nl
    else
      "I couldn't find specific observations matching your query, but here's what I know:"
      ++ nl ++ nl
  else
    "Here's what I found about " ++ dquote ++ query ++ dquote
    ++ " related to Islamabad's biodiversity:" ++ nl ++ nl.

Definition generateResponse (query : string)
  (retrievedInfo : list (RetrievalResult.t num)) : M string :=
  if (List.length retrievedInfo =? 0)%nat then
    ret (no_information_message query)
  else
    let context :=
      JSString.join (nl ++ nl) (map RetrievalResult.text retrievedInfo) in
    try_catch
      (let queryTerms := JSString.split_ws (JSString.toLowerCase query) in
       let keyTerms :=
         filter (fun term => (3 <? String.length term)%nat) queryTerms in
       let response := opening query queryTerms retrievedInfo in
       top <- lift (first_text retrievedInfo) ;;
       let response :=
         if negb (JSString.includes response top)
         then response ++ top ++ nl ++ nl
         else response in
       let response :=
         if (1 <? List.length retrievedInfo)%nat
         then fold_left
                (fun response info =>
                   response ++ "- " ++ RetrievalResult.text info ++ nl)
                (Array_slice retrievedInfo 1 3)
                (response ++ "Additional information:" ++ nl)
         else response in
       ret response)
      (fun error =>
         console_error "Error generating response:" error ;;;
         ret (apology_message query)).

(** ** answerWithRAG *)

Definition error_answer : AnswerResult.t :=
  AnswerResult.mk
    "Sorry, I encountered an error while processing your question. Please try again later."
    ["System Error"] None None.

(** The orchestrator over the three functions it calls.  Each may be any
    computation, so that a failure that reaches the orchestrator from
    one of them can be stated. *)
Definition answerWithRAG_with
  (retrieve search : string -> M (list (RetrievalResult.t num)))
  (compose : string -> list (RetrievalResult.t num) -> M string)
  (query : string) : M AnswerResult.t :=
  try_catch
    (retrievalResults <- await_call "retrieveRelevantInfo" query
                           (retrieve query) ;;
     retrievalResults <-
       (if (List.length retrievalResults <? 2)%nat
        then internetResults <- await_call "searchInternet" query
                                  (search query) ;;
             ret (retrievalResults ++ internetResults)%list
        else ret retrievalResults) ;;
     answerText <- compose query retrievalResults ;;
     let sources := map RetrievalResult.source retrievalResults in
     let relatedObservationIds : list string := [] in
     let relatedSpeciesIds : list string := [] in
     ret (AnswerResult.mk answerText sources
            (Some relatedObservationIds) (Some relatedSpeciesIds)))
    (fun error =>
       console_error "Error in RAG system:" error ;;; ret error_answer).

(** [export async function answerWithRAG(query)], over the store it
    imports. *)
Definition answerWithRAG (storage : IStorage num) (query : string)
  : M AnswerResult.t :=
  answerWithRAG_with (retrieveRelevantInfo storage) searchInternet
                     generateResponse query.

End Rag.

(* ================================================================== *)
(** * The store, continued: the operations that the routes await *)
(* ================================================================== *)

(** [querySchema]: the document that the ask route logs. *)
Module Query.
Record t : Type := mk {
  userId : option string;            (* z.string().optional() *)
  question : string;
  answer : string;
  relatedObservationIds : list string;
  relatedSpeciesIds : list string;
  sourcesUsed : list string
}.
End Query.

(** What the route of registration hands to [createUser]: the three
    fields that it reads off the body, each of which may be absent. *)
Module User.
Record t : Type := mk {
  username : option string;
  email : option string;
  password : option string
}.
End User.

(** What the route of the observations hands to [createObservation]
    and to [createSpecies]. *)
Module ObservationData.
Record t (num : Type) : Type := mk {
  userId : string;
  speciesName : string;
  commonNames : list string;
  location : num * num;              (* { type: 'Point', coordinates } *)
  imageUrl : string;
  description : string;
  identificationConfidence : num;
  pointsAwarded : num
}.
Arguments mk {num}.
Arguments userId {num}.
Arguments speciesName {num}.
Arguments commonNames {num}.
Arguments location {num}.
Arguments imageUrl {num}.
Arguments description {num}.
Arguments identificationConfidence {num}.
Arguments pointsAwarded {num}.
End ObservationData.

Module SpeciesData.
Record t : Type := mk {
  scientificName : string;
  commonNames : list string;
  type : Species.kind;
  description : string;
  habitat : string;
  imageUrls : list string
}.
End SpeciesData.

(** What an insertion resolves to:
    [{ ...data, createdAt: now, updatedAt: now, _id: result.insertedId }];
    a logged query has no [updatedAt]. *)
Module Inserted.
Record t (A : Type) : Type := mk {
  data : A;
  createdAt : Z;
  updatedAt : option Z;
  _id : string
}.
Arguments mk {A}.
Arguments data {A}.
Arguments createdAt {A}.
Arguments updatedAt {A}.
Arguments _id {A}.
End Inserted.

(** The operations of [interface IStorage] that the routes below await
    beside the three readers of the engine. *)
Record IStorageOps (num : Type) : Type := {
  getUserByEmail : option string -> M (option (Inserted.t User.t));
  createUser : User.t -> M (Inserted.t User.t);
  updateUserPoints : string -> num -> M (option (Inserted.t User.t));
  getObservation : string -> M (option (Observation.t num));
  getObservationsNearLocation :
    num -> num -> num -> M (list (Observation.t num));
  createObservation :
    ObservationData.t num -> M (Inserted.t (ObservationData.t num));
  getSpecies : string -> M (option Species.t);
  getSpeciesByCommonName : string -> M (option Species.t);
  createSpecies : SpeciesData.t -> M (Inserted.t SpeciesData.t);
  createQuery : Query.t -> M (Inserted.t Query.t)
}.
Arguments getUserByEmail {num}.
Arguments createUser {num}.
Arguments updateUserPoints {num}.
Arguments getObservation {num}.
Arguments getObservationsNearLocation {num}.
Arguments createObservation {num}.
Arguments getSpecies {num}.
Arguments getSpeciesByCommonName {num}.
Arguments createSpecies {num}.
Arguments createQuery {num}.

(** The answers of the driver to the filtered queries, to the update
    and to the insertions, as functions of the database:
    [findOne({ email })], [insertOne] and
    [findOneAndUpdate({ _id }, { $inc: { points }, $set: { updatedAt } })]
    on the users, the last one with what [result.value] then reads;
    [findOne({ _id })], [find({ location: { $near: ... } }).toArray()]
    and [insertOne] on the observations; [findOne({ scientificName })],
    [findOne({ commonNames: commonName })] and [insertOne] on the
    species; [insertOne] on the queries.  An insertion yields the
    inserted id; the last argument of an insertion and of the update is
    the date that the store has read.  [ObjectId_new] is
    [new ObjectId(id)], which throws on a string that is no identifier.
    As for [find({})], the answers are data of the model. *)
Record Driver (num : Type) : Type := {
  ObjectId_new : string -> Outcome string;
  users_findOne_email :
    Db num -> option string -> Outcome (option (Inserted.t User.t));
  users_insertOne : Db num -> User.t -> Z -> Outcome string;
  users_findOneAndUpdate_points :
    Db num -> string -> num -> Z -> Outcome (option (Inserted.t User.t));
  observations_findOne_id :
    Db num -> string -> Outcome (option (Observation.t num));
  observations_find_near :
    Db num -> num -> num -> num -> Outcome (list (Observation.t num));
  observations_insertOne :
    Db num -> ObservationData.t num -> Z -> Outcome string;
  species_findOne_scientificName :
    Db num -> string -> Outcome (option Species.t);
  species_findOne_commonNames :
    Db num -> string -> Outcome (option Species.t);
  species_insertOne : Db num -> SpeciesData.t -> Z -> Outcome string;
  queries_insertOne : Db num -> Query.t -> Z -> Outcome string
}.
Arguments ObjectId_new {num}.
Arguments users_findOne_email {num}.
Arguments users_insertOne {num}.
Arguments users_findOneAndUpdate_points {num}.
Arguments observations_findOne_id {num}.
Arguments observations_find_near {num}.
Arguments observations_insertOne {num}.
Arguments species_findOne_scientificName {num}.
Arguments species_findOne_commonNames {num}.
Arguments species_insertOne {num}.
Arguments queries_insertOne {num}.

Section StorageOps.
Context {num : Type}.
Variable driver : Driver num.

(** The lookups catch every failure, log it and answer [null] or the
    empty array. *)
Definition MongoDBStorage_getUserByEmail (db : DbHandle num)
  (email : option string) : M (option (Inserted.t User.t)) :=
  try_catch
    (d <- lift (getDb db) ;;
     user <- await_call "findOne" "users"
               (lift (users_findOne_email driver d email)) ;;
     ret user)
    (fun error =>
       console_error "Error getting user by email:" error ;;; ret None).

(** [updateUserPoints]: the id is built inside the [try], so that an
    id that is no [ObjectId] is a failure like another; [null] is
    returned and the points are not added. *)
Definition MongoDBStorage_updateUserPoints (now : Z) (db : DbHandle num)
  (userId : string) (pointsToAdd : num) : M (option (Inserted.t User.t)) :=
  try_catch
    (d <- lift (getDb db) ;;
     _id <- lift (ObjectId_new driver userId) ;;
     value <- await_call "findOneAndUpdate" "users"
                (lift (users_findOneAndUpdate_points driver d _id pointsToAdd
                         now)) ;;
     ret value)
    (fun error =>
       console_error "Error updating user points:" error ;;; ret None).

Definition MongoDBStorage_getObservation (db : DbHandle num) (id : string)
  : M (option (Observation.t num)) :=
  try_catch
    (d <- lift (getDb db) ;;
     _id <- lift (ObjectId_new driver id) ;;
     observation <- await_call "findOne" "observations"
                      (lift (observations_findOne_id driver d _id)) ;;
     ret observation)
    (fun error => console_error "Error getting observation:" error ;;; ret None).

Definition MongoDBStorage_getSpecies (db : DbHandle num)
  (scientificName : string) : M (option Species.t) :=
  try_catch
    (d <- lift (getDb db) ;;
     species <- await_call "findOne" "species"
                  (lift (species_findOne_scientificName driver d
                           scientificName)) ;;
     ret species)
    (fun error => console_error "Error getting species:" error ;;; ret None).

Definition MongoDBStorage_getSpeciesByCommonName (db : DbHandle num)
  (commonName : string) : M (option Species.t) :=
  try_catch
    (d <- lift (getDb db) ;;
     species <- await_call "findOne" "species"
                  (lift (species_findOne_commonNames driver d commonName)) ;;
     ret species)
    (fun error =>
       console_error "Error getting species by common name:" error ;;;
       ret None).

Definition MongoDBStorage_getObservationsNearLocation (db : DbHandle num)
  (longitude latitude maxDistanceInMeters : num)
  : M (list (Observation.t num)) :=
  try_catch
    (d <- lift (getDb db) ;;
     observations <- await_call "find.toArray" "observations"
                       (lift (observations_find_near driver d longitude
                                latitude maxDistanceInMeters)) ;;
     ret observations)
    (fun error =>
       console_error "Error getting observations near location:" error ;;;
       ret []).

(** The insertions log a failure and throw it again.  [now] is what
    [new Date()] reads. *)
Definition MongoDBStorage_createUser (now : Z) (db : DbHandle num)
  (userData : User.t) : M (Inserted.t User.t) :=
  try_catch
    (d <- lift (getDb db) ;;
     insertedId <- await_call "insertOne" "users"
                     (lift (users_insertOne driver d userData now)) ;;
     ret (Inserted.mk userData now (Some now) insertedId))
    (fun error => console_error "Error creating user:" error ;;; throw error).

Definition MongoDBStorage_createObservation (now : Z) (db : DbHandle num)
  (observationData : ObservationData.t num)
  : M (Inserted.t (ObservationData.t num)) :=
  try_catch
    (d <- lift (getDb db) ;;
     insertedId <- await_call "insertOne" "observations"
                     (lift (observations_insertOne driver d observationData
                              now)) ;;
     ret (Inserted.mk observationData now (Some now) insertedId))
    (fun error =>
       console_error "Error creating observation:" error ;;; throw error).

Definition MongoDBStorage_createSpecies (now : Z) (db : DbHandle num)
  (speciesData : SpeciesData.t) : M (Inserted.t SpeciesData.t) :=
  try_catch
    (d <- lift (getDb db) ;;
     insertedId <- await_call "insertOne" "species"
                     (lift (species_insertOne driver d speciesData now)) ;;
     ret (Inserted.mk speciesData now (Some now) insertedId))
    (fun error => console_error "Error creating species:" error ;;; throw error).

Definition MongoDBStorage_createQuery (now : Z) (db : DbHandle num)
  (queryData : Query.t) : M (Inserted.t Query.t) :=
  try_catch
    (d <- lift (getDb db) ;;
     insertedId <- await_call "insertOne" "queries"
                     (lift (queries_insertOne driver d queryData now)) ;;
     ret (Inserted.mk queryData now None insertedId))
    (fun error => console_error "Error creating query:" error ;;; throw error).

Definition MongoDBStorageOps (now : Z) (db : DbHandle num) : IStorageOps num := {|
  getUserByEmail := MongoDBStorage_getUserByEmail db;
  createUser := MongoDBStorage_createUser now db;
  updateUserPoints := MongoDBStorage_updateUserPoints now db;
  getObservation := MongoDBStorage_getObservation db;
  getObservationsNearLocation := MongoDBStorage_getObservationsNearLocation db;
  createObservation := MongoDBStorage_createObservation now db;
  getSpecies := MongoDBStorage_getSpecies db;
  getSpeciesByCommonName := MongoDBStorage_getSpeciesByCommonName db;
  createSpecies := MongoDBStorage_createSpecies now db;
  createQuery := MongoDBStorage_createQuery now db
|}.

End StorageOps.

(* ================================================================== *)
(** * Opening the database ([server/db.ts]) *)
(* ================================================================== *)

(** The client of the driver: whether [client.connect()] resolves, the
    database that [client.db("bioscout")] hands over, and whether the
    creation of the geospatial index on the observations resolves. *)
Record MongoClient (num : Type) : Type := {
  client_connect : Outcome unit;
  client_db : Db num;
  observations_createIndex : Outcome string
}.
Arguments client_connect {num}.
Arguments client_db {num}.
Arguments observations_createIndex {num}.

(** [connectToDatabase] assigns the module variable [db]; the state of
    that variable after the call is returned beside the outcome, since
    an assignment made before a throw stays. *)
Definition connectToDatabase {num} (client : MongoClient num)
  (db : DbHandle num) (log : list Event)
  : Outcome (Db num) * DbHandle num * list Event :=
  let log := (log ++ [Awaited "client.connect" ""])%list in
  match client_connect client with
  | Thrown error =>
      (Thrown error, db,
       (log ++ [ConsoleError "Error connecting to MongoDB:" error])%list)
  | Returned _ =>
      let db := Some (client_db client) in
      let log := (log ++ [Awaited "createIndex" "observations"])%list in
      match observations_createIndex client with
      | Thrown error =>
          (Thrown error, db,
           (log ++ [ConsoleError "Error connecting to MongoDB:" error])%list)
      | Returned _ => (Returned (client_db client), db, log)
      end
  end.

(** ** Starting the server ([server/index.ts]) *)




(* ================================================================== *)
(** * The image classifier ([server/imageProcessor.ts]) *)
(* ================================================================== *)

Module ImageProcessor.

Record MappedClass : Type := mkClass { type : Species.kind; name : string }.

Definition default_class : MappedClass :=
  mkClass Species.other "Unidentified Organism".

(** [classMap], in the order of the object literal, which is the order
    in which [for ... in] visits its keys (none is an array index). *)
Definition classMap : list (string * MappedClass) :=
  [ ("tiger cat", mkClass Species.animal "Domestic Cat");
    ("tabby", mkClass Species.animal "Domestic Cat");
    ("Egyptian cat", mkClass Species.animal "Domestic Cat");
    ("Persian cat", mkClass Species.animal "Domestic Cat");
    ("dog", mkClass Species.animal "Domestic Dog");
    ("fox", mkClass Species.animal "Red Fox");
    ("squirrel", mkClass Species.animal "Squirrel");
    ("rabbit", mkClass Species.animal "Wild Rabbit");
    ("hare", mkClass Species.animal "Wild Hare");
    ("hamster", mkClass Species.animal "Hamster");
    ("mongoose", mkClass Species.animal "Mongoose");
    ("red panda", mkClass Species.animal "Red Panda");
    ("monkey", mkClass Species.animal "Monkey");
    ("macaque", mkClass Species.animal "Macaque");
    ("baboon", mkClass Species.animal "Baboon");
    ("bee", mkClass Species.animal "Honey Bee");
    ("ant", mkClass Species.animal "Ant");
    ("butterfly", mkClass Species.animal "Butterfly");
    ("dragonfly", mkClass Species.animal "Dragonfly");
    ("ladybug", mkClass Species.animal "Ladybug");
    ("fly", mkClass Species.animal "Common Fly");
    ("grasshopper", mkClass Species.animal "Grasshopper");
    ("cricket", mkClass Species.animal "Cricket");
    ("mantis", mkClass Species.animal "Praying Mantis");
    ("lizard", mkClass Species.animal "Common Lizard");
    ("snake", mkClass Species.animal "Snake");
    ("bird", mkClass Species.animal "Bird");
    ("magpie", mkClass Species.animal "Magpie");
    ("chickadee", mkClass Species.animal "Chickadee");
    ("vulture", mkClass Species.animal "Vulture");
    ("eagle", mkClass Species.animal "Eagle");
    ("owl", mkClass Species.animal "Owl");
    ("bulbul", mkClass Species.animal "Bulbul");
    ("peacock", mkClass Species.animal "Peacock");
    ("sparrow", mkClass Species.animal "House Sparrow");
    ("frog", mkClass Species.animal "Frog");
    ("toad", mkClass Species.animal "Toad");
    ("turtle", mkClass Species.animal "Turtle");
    ("daisy", mkClass Species.plant "Daisy");
    ("dandelion", mkClass Species.plant "Dandelion");
    ("rose", mkClass Species.plant "Rose");
    ("sunflower", mkClass Species.plant "Sunflower");
    ("tulip", mkClass Species.plant "Tulip");
    ("poppy", mkClass Species.plant "Poppy");
    ("acorn", mkClass Species.plant "Oak Tree");
    ("buckeye", mkClass Species.plant "Buckeye Tree");
    ("corn", mkClass Species.plant "Corn");
    ("wheat", mkClass Species.plant "Wheat");
    ("broccoli", mkClass Species.plant "Broccoli");
    ("cauliflower", mkClass Species.plant "Cauliflower");
    ("cabbage", mkClass Species.plant "Cabbage");
    ("mushroom", mkClass Species.fungi "Mushroom");
    ("default", default_class) ].

Definition plantKeywords : list string :=
  ["plant"; "flower"; "tree"; "bush"; "shrub"; "herb"; "grass";
   "leaf"; "leaves"; "petal"; "stem"; "root"; "seed"; "fruit"; "vegetable"].

Definition animalKeywords : list string :=
  ["animal"; "mammal"; "bird"; "reptile"; "amphibian"; "insect";
   "fish"; "species"; "wildlife"; "creature"; "organism"].

(** The first key of [classMap] that the class name includes:
    [for (const key in classMap) if (className.includes(key)) { ...; break }]. *)
Definition matching_key (className : string) : option (string * MappedClass) :=
  find (fun entry => JSString.includes className (fst entry)) classMap.

(** The class that a lower-cased class name of MobileNet is mapped to:
    the entry of the first matching key, or else a guess from the
    keywords, or else the default entry. *)
Definition map_class (className : string) : MappedClass :=
  match matching_key className with
  | Some (key, mappedClass) => mappedClass
  | None =>
      if existsb (fun keyword => JSString.includes className keyword)
                 plantKeywords
      then mkClass Species.plant "Unidentified Plant"
      else if existsb (fun keyword => JSString.includes className keyword)
                      animalKeywords
      then mkClass Species.animal "Unidentified Animal"
      else default_class
  end.

(** One prediction of [model.classify]. *)
Record Prediction : Type := mkPrediction {
  className : string;
  probability : float
}.

(** What [identifySpecies] resolves to: [{ species, confidence, type }]. *)
Record Identification : Type := mkIdentification {
  species : string;
  confidence : float;
  kind : Species.kind
}.

(** [{ species: 'Unknown Species', confidence: 0.1, type: 'other' }]. *)
Definition unknown_species : Identification :=
  mkIdentification "Unknown Species" 0x1.999999999999ap-4%float Species.other.

(** What the function reaches outside the repository: the loading of
    the network, the file system, the decoding of the image, the
    classification (which may hand over [null]) and the release of the
    tensor.  Each may fail. *)
Record Runtime (Model Buffer Tensor : Type) : Type := {
  mobilenet_load : M Model;
  fs_readFileSync : string -> Outcome Buffer;
  tf_decodeImage : Buffer -> Outcome Tensor;
  model_classify : Model -> Tensor -> M (option (list Prediction));
  tensor_dispose : Tensor -> Outcome unit
}.
Arguments mobilenet_load {Model Buffer Tensor}.
Arguments fs_readFileSync {Model Buffer Tensor}.
Arguments tf_decodeImage {Model Buffer Tensor}.
Arguments model_classify {Model Buffer Tensor}.
Arguments tensor_dispose {Model Buffer Tensor}.

Section Identify.
Context {Model Buffer Tensor : Type}.
Variable runtime : Runtime Model Buffer Tensor.

(** [model] is the module variable at the time of the call; the
    assignment to it is not tracked beyond the call. *)
Definition loadModel (model : option Model) : M Model :=
  try_catch
    (match model with
     | None =>
         loaded <- await_call "mobilenet.load" "" (mobilenet_load runtime) ;;
         ret loaded
     | Some loaded => ret loaded
     end)
    (fun error =>
       console_error "Error loading MobileNet model:" error ;;;
       throw (mkError "Failed to load image recognition model")).

Definition identifySpecies (model : option Model) (imagePath : string)
  : M Identification :=
  try_catch
    (model <- match model with
              | None => await_call "loadModel" "" (loadModel None)
              | Some loaded => ret loaded
              end ;;
     imageBuffer <- lift (fs_readFileSync runtime imagePath) ;;
     tfImage <- lift (tf_decodeImage runtime imageBuffer) ;;
     predictions <- await_call "model.classify" ""
                      (model_classify runtime model tfImage) ;;
     lift (tensor_dispose runtime tfImage) ;;;
     match predictions with
     | None | Some [] => ret unknown_species
     | Some (topPrediction :: _) =>
         let className := JSString.toLowerCase (className topPrediction) in
         let mappedClass := map_class className in
         ret (mkIdentification (name mappedClass)
                               (probability topPrediction)
                               (type mappedClass))
     end)
    (fun error =>
       console_error "Error identifying species:" error ;;;
       ret unknown_species).

End Identify.

End ImageProcessor.

(* ================================================================== *)
(** * The routes ([server/routes.ts]) *)
(* ================================================================== *)

(** What a handler sends: [res.status(status).json(body)]. *)
Module Http.
Inductive Body (num : Type) : Type :=
| Message (message : string)
| UserBody (username email : option string) (createdAt : Z)
           (updatedAt : option Z) (_id : string)
| ObservationBody (observation : Observation.t num)
| ObservationsBody (observations : list (Observation.t num))
| ObservationCreated (stored : Inserted.t (ObservationData.t num))
                     (message : string)
| SpeciesBody (species : Species.t)
| AnswerBody (question answer : string) (sources : list string).
Arguments Message {num}.
Arguments UserBody {num}.
Arguments ObservationBody {num}.
Arguments ObservationsBody {num}.
Arguments ObservationCreated {num}.
Arguments SpeciesBody {num}.
Arguments AnswerBody {num}.

Record Response (num : Type) : Type := respond {
  status : nat;
  body : Body num
}.
Arguments respond {num}.
Arguments status {num}.
Arguments body {num}.
End Http.

(** [!value] on a header or a field that is a string or absent: absent
    and empty are falsy. *)
Definition absent_or_empty (value : option string) : bool :=
  match value with
  | None => true
  | Some s => String.eqb s ""
  end.

(** The middleware [isAuthenticated]: without an [Authorization] header
    the request is answered 401 and [next] is not called. *)
Definition isAuthenticated {num} (authorization : option string)
  (next : M (Http.Response num)) : M (Http.Response num) :=
  if absent_or_empty authorization
  then ret (Http.respond 401 (Http.Message "Unauthorized"))
  else next.

(** [calculatePoints]: 10 points for any observation, 25 more for a
    species that the store does not know, 15 more for a known species
    without observation of the same name, whatever the case of its
    letters, within 1000 m. *)
Definition calculatePoints (storage : IStorageOps float) (speciesName : string)
  (location : float * float) : M float :=
  let points := 10%float in
  try_catch
    (species <- await_call "storage.getSpecies" speciesName
                  (getSpecies storage speciesName) ;;
     match species with
     | None => ret (points + 25)%float
     | Some _ =>
         nearbyObservations <-
           await_call "storage.getObservationsNearLocation" ""
             (getObservationsNearLocation storage (fst location)
                (snd location) 1000%float) ;;
         let sameSpeciesNearby :=
           filter (fun obs =>
                     String.eqb
                       (JSString.toLowerCase (Observation.speciesName obs))
                       (JSString.toLowerCase speciesName))
                  nearbyObservations in
         ret (if (List.length sameSpeciesNearby =? 0)%nat
              then (points + 15)%float
              else points)
     end)
    (fun error =>
       console_error "Error calculating points:" error ;;; ret 10%float).

Section Routes.
Context {num : Type} `{JSNumber num}.
Variable Number_toString : num -> string.
Variable storage : IStorage num.
Variable storageOps : IStorageOps num.

(** [POST /api/users/register]: the new user is sent back without its
    password. *)
Definition post_users_register (username email password : option string)
  : M (Http.Response num) :=
  try_catch
    (existingUser <- await_call "storage.getUserByEmail" ""
                       (getUserByEmail storageOps email) ;;
     match existingUser with
     | Some _ =>
         ret (Http.respond 400
                (Http.Message "User with this email already exists"))
     | None =>
         newUser <- await_call "storage.createUser" ""
                      (createUser storageOps
                         (User.mk username email password)) ;;
         ret (Http.respond 201
                (Http.UserBody (User.username (Inserted.data newUser))
                   (User.email (Inserted.data newUser))
                   (Inserted.createdAt newUser) (Inserted.updatedAt newUser)
                   (Inserted._id newUser)))
     end)
    (fun error =>
       console_error "Error registering user:" error ;;;
       ret (Http.respond 500 (Http.Message "Error registering user"))).

(** [GET /api/observations]. *)
Definition get_observations : M (Http.Response num) :=
  try_catch
    (observations <- await_call "storage.getAllObservations" ""
                       (getAllObservations storage) ;;
     ret (Http.respond 200 (Http.ObservationsBody observations)))
    (fun error =>
       console_error "Error getting observations:" error ;;;
       ret (Http.respond 500 (Http.Message "Error getting observations"))).

(** [GET /api/observations/:id]. *)
Definition get_observation_by_id (id : string) : M (Http.Response num) :=
  try_catch
    (observation <- await_call "storage.getObservation" id
                      (getObservation storageOps id) ;;
     match observation with
     | None => ret (Http.respond 404 (Http.Message "Observation not found"))
     | Some found => ret (Http.respond 200 (Http.ObservationBody found))
     end)
    (fun error =>
       console_error "Error getting observation:" error ;;;
       ret (Http.respond 500 (Http.Message "Error getting observation"))).

(** [GET /api/species/:name]: by scientific name first, then by common
    name. *)
Definition get_species_by_name (name : string) : M (Http.Response num) :=
  try_catch
    (species <- await_call "storage.getSpecies" name
                  (getSpecies storageOps name) ;;
     species <- match species with
                | None =>
                    await_call "storage.getSpeciesByCommonName" name
                      (getSpeciesByCommonName storageOps name)
                | Some found => ret (Some found)
                end ;;
     match species with
     | None => ret (Http.respond 404 (Http.Message "Species not found"))
     | Some found => ret (Http.respond 200 (Http.SpeciesBody found))
     end)
    (fun error =>
       console_error "Error getting species:" error ;;;
       ret (Http.respond 500 (Http.Message "Error getting species"))).

(** [POST /api/rag/ask], for a body whose [question] is a string or
    absent.  [authorization] is the header that the handler takes for
    the user's id. *)
Definition post_rag_ask (authorization question : option string)
  : M (Http.Response num) :=
  try_catch
    (let userId := authorization in
     if absent_or_empty question
     then ret (Http.respond 400 (Http.Message "Question is required"))
     else
       let question := match question with Some q => q | None => "" end in
       answer <- await_call "answerWithRAG" question
                   (answerWithRAG Number_toString storage question) ;;
       await_call "storage.createQuery" ""
         (createQuery storageOps
            (Query.mk userId question (AnswerResult.text answer)
               (match AnswerResult.relatedObservationIds answer with
                | Some ids => ids
                | None => []
                end)
               (match AnswerResult.relatedSpeciesIds answer with
                | Some ids => ids
                | None => []
                end)
               (AnswerResult.sources answer))) ;;;
       ret (Http.respond 200
              (Http.AnswerBody question (AnswerResult.text answer)
                 (AnswerResult.sources answer))))
    (fun error =>
       console_error "Error processing RAG query:" error ;;;
       ret (Http.respond 500 (Http.Message "Error processing your question"))).

(** The routes as they are mounted: [app.use(path, isAuthenticated)]
    runs before the handlers under [/api/observations], [/api/species]
    and [/api/rag]. *)
Definition observations_route (authorization : option string)
  : M (Http.Response num) :=
  isAuthenticated authorization get_observations.

Definition observation_route (authorization : option string) (id : string)
  : M (Http.Response num) :=
  isAuthenticated authorization (get_observation_by_id id).

Definition species_route (authorization : option string) (name : string)
  : M (Http.Response num) :=
  isAuthenticated authorization (get_species_by_name name).

Definition rag_ask_route (authorization question : option string)
  : M (Http.Response num) :=
  isAuthenticated authorization (post_rag_ask authorization question).

End Routes.

(** [POST /api/observations], behind [isAuthenticated] and
    [upload.single('image')].  [file] is [req.file], with its path and
    its name in the upload directory; the fields of the multipart body
    are strings or absent.  [parseFloat] and [JSON.parse] are the
    built-in functions; the common names, when they parse, are taken to
    be an array of strings. *)
Section ObservationRoute.
Context {Model Buffer Tensor : Type}.
Variable runtime : ImageProcessor.Runtime Model Buffer Tensor.
Variable model : option Model.
Variable parseFloat : option string -> float.
Variable JSON_parse : string -> Outcome (list string).
Variable Number_toString : float -> string.
Variable storageOps : IStorageOps float.
#[local] Open Scope string_scope.

(** [commonNames ? JSON.parse(commonNames) : []]. *)
Definition parse_commonNames (commonNames : option string)
  : Outcome (list string) :=
  if absent_or_empty commonNames
  then Returned []
  else JSON_parse (match commonNames with Some names => names | None => "" end).

Definition post_observations (userId : string)
  (file : option (string * string))
  (speciesName commonNames description latitude longitude : option string)
  : M (Http.Response float) :=
  try_catch
    (match file with
     | None => ret (Http.respond 400 (Http.Message "No image uploaded"))
     | Some (file_path, file_filename) =>
         identified <-
           (if absent_or_empty speciesName
            then result <- await_call "identifySpecies" file_path
                             (ImageProcessor.identifySpecies runtime model
                                file_path) ;;
                 ret (ImageProcessor.species result,
                      ImageProcessor.confidence result)
            else ret (match speciesName with Some name => name | None => "" end,
                      0x1.6666666666666p-1%float)) ;;
         let '(identifiedSpecies, confidence) := identified in
         let location := (parseFloat longitude, parseFloat latitude) in
         points <- await_call "calculatePoints" identifiedSpecies
                     (calculatePoints storageOps identifiedSpecies location) ;;
         names <- lift (parse_commonNames commonNames) ;;
         newObservation <-
           await_call "storage.createObservation" ""
             (createObservation storageOps
                (ObservationData.mk userId identifiedSpecies names location
                   ("/uploads/" ++ file_filename)
                   (if absent_or_empty description
                    then ""
                    else match description with Some d => d | None => "" end)
                   confidence points)) ;;
         await_call "storage.updateUserPoints" userId
           (updateUserPoints storageOps userId points) ;;;
         existingSpecies <- await_call "storage.getSpecies" identifiedSpecies
                              (getSpecies storageOps identifiedSpecies) ;;
         match existingSpecies with
         | Some _ => ret tt
         | None =>
             names <- lift (parse_commonNames commonNames) ;;
             await_call "storage.createSpecies" ""
               (createSpecies storageOps
                  (SpeciesData.mk identifiedSpecies names Species.other
                     (if absent_or_empty description
                      then "Observed in Islamabad area"
                      else match description with Some d => d | None => "" end)
                     "Islamabad region" ["/uploads/" ++ file_filename])) ;;;
             ret tt
         end ;;;
         ret (Http.respond 201
                (Http.ObservationCreated newObservation
                   ("Observation recorded successfully! You earned "
                    ++ Number_toString points ++ " points.")))
     end)
    (fun error =>
       console_error "Error creating observation:" error ;;;
       ret (Http.respond 500 (Http.Message "Error creating observation"))).

Definition post_observations_route (authorization : option string)
  (file : option (string * string))
  (speciesName commonNames description latitude longitude : option string)
  : M (Http.Response float) :=
  isAuthenticated authorization
    (post_observations
       (match authorization with Some userId => userId | None => "" end)
       file speciesName commonNames description latitude longitude).

End ObservationRoute.

(* ================================================================== *)
(** * Vocabulary of the statements *)
(* ================================================================== *)

(** [returns_with m Q]: whatever was logged before, [m] returns (it
    does not throw) and its value satisfies [Q]. *)
Definition returns_with {A} (m : M A) (Q : A -> Prop) : Prop :=
  forall log, exists a log', m log = (Returned a, log') /\ Q a.

(** [if_returns m Q]: a value that [m] returns satisfies [Q]; used for
    bodies of [try] blocks, which may throw. *)
Definition if_returns {A} (m : M A) (Q : A -> Prop) : Prop :=
  forall log a log', m log = (Returned a, log') -> Q a.

(** The ways in which a failure reaches the orchestrator: the
    retrieval throws; or it returns fewer than two documents and the
    fallback search throws; or the composition throws on the documents
    in hand.  [log] is the log at entry of [answerWithRAG]. *)
Inductive failure_reaches_orchestrator {num : Type}
  (retrieve search : string -> M (list (RetrievalResult.t num)))
  (compose : string -> list (RetrievalResult.t num) -> M string)
  (query : string) (log : list Event) (e : JSError) : Prop :=
| retrieval_fails :
    result (await_call "retrieveRelevantInfo" query (retrieve query)) log
      = Thrown e ->
    failure_reaches_orchestrator retrieve search compose query log e
| search_fails local log1 :
    await_call "retrieveRelevantInfo" query (retrieve query) log
      = (Returned local, log1) ->
    (List.length local < 2)%nat ->
    result (await_call "searchInternet" query (search query)) log1
      = Thrown e ->
    failure_reaches_orchestrator retrieve search compose query log e
| composition_fails local log1 external log2 :
    await_call "retrieveRelevantInfo" query (retrieve query) log
      = (Returned local, log1) ->
    (if (List.length local <? 2)%nat
     then await_call "searchInternet" query (search query) log1
          = (Returned external, log2)
     else external = [] /\ log2 = log1) ->
    result (compose query (local ++ external)) log2 = Thrown e ->
    failure_reaches_orchestrator retrieve search compose query log e.

(** A retrieval that throws, to exercise the orchestrator. *)
Definition failing_retrieve {num : Type} (query : string)
  : M (list (RetrievalResult.t num)) :=
  throw (mkError "text.toLowerCase is not a function").

(** The dot product of two arrays, by pairs. *)
Definition dot_product {num : Type} `{JSNumber num}
  (a b : list (jsval num)) : num :=
  fold_left (fun acc p => num_add acc (js_times (fst p) (snd p)))
            (combine a b) num_zero.

(** The document's score exceeds the threshold: [score > 0.2]. *)
Definition above_threshold {num : Type} `{JSNumber num}
  (d : RetrievalResult.t num) : Prop :=
  num_gt (RetrievalResult.score d) num_0_2 = true.

(** No token of the text is retained: all have at most two characters. *)
Definition no_retained_token (text : string) : Prop :=
  Forall (fun token => (String.length token <= 2)%nat) (tokenize text).

(** The all-zero vector of the embedding's dimension. *)
Definition zero_vector {num : Type} `{JSNumber num} : list (jsval num) :=
  repeat (JNum num_zero) VECTOR_SIZE.

(** The spec's words for the slice that should be scored: the [n] most
    recent observations, latest first (by [createdAt]). *)
Fixpoint insert_latest_first {num} (o : Observation.t num)
  (l : list (Observation.t num)) : list (Observation.t num) :=
  match l with
  | [] => [o]
  | p :: l' =>
      if (Observation.createdAt p <? Observation.createdAt o)%Z
      then o :: l
      else p :: insert_latest_first o l'
  end.

Definition most_recent {num} (n : nat) (observations : list (Observation.t num))
  : list (Observation.t num) :=
  firstn n (fold_right insert_latest_first [] observations).

(** A store of 51 observations in the order in which they were
    inserted, one per millisecond: fifty sparrows, then one leopard.
    [find({}).toArray()] hands a collection over in its natural order,
    which is the order of insertion. *)
Definition sighting (speciesName : string) (createdAt : Z)
  : Observation.t float :=
  Observation.mk speciesName (73%float, 33%float) None createdAt.

Definition fifty_one_observations : list (Observation.t float) :=
  map (fun i => sighting "sparrow" (Z.of_nat i)) (seq 1 50)
  ++ [sighting "leopard" 51].

Definition observations_only (observations : list (Observation.t float))
  : IStorage float :=
  MongoDBStorage
    (Some {| knowledge_docs := Returned [];
             species_docs := Returned [];
             observations_docs := Returned observations |}).

(** [Number.prototype.toString] on the two coordinates of the store
    above: 73 prints as "73" and 33 as "33". *)
Definition print_coordinate (x : float) : string :=
  if PrimFloat.eqb x 73%float then "73" else "33".

(** The store whose [getAllObservations] is cut to its first [n]
    documents. *)
Definition first_observations {num} (n : nat) (storage : IStorage num)
  : IStorage num := {|
  getAllKnowledge := getAllKnowledge storage;
  getAllSpecies := getAllSpecies storage;
  getAllObservations :=
    bind (getAllObservations storage)
         (fun observations => ret (firstn n observations))
|}.

(** The values that a sum of products by zero can take.  On the ideal
    numbers: 0 or NaN.  On the doubles: a zero of either sign or NaN,
    read off the specification image [Prim2SF] of the double. *)
Definition ideal_vanishing (s : ideal) : Prop := s = Real 0 \/ s = NaN.

Definition float_vanishing (s : float) : Prop :=
  match Prim2SF s with
  | S754_zero _ | S754_nan => True
  | S754_infinity _ | S754_finite _ _ _ => False
  end.

(** What a query without retained token does, in an arithmetic whose
    vanishing values are given: its embedding is the zero vector; its
    similarity with the embedding of any text vanishes and does not
    exceed 0.2; the retrieval returns the empty array; the orchestrator
    awaits the fallback search and the answer's only source is the
    internet label. *)
Definition short_query_behaviour {num : Type} `{JSNumber num}
  (vanishing : num -> Prop) (Number_toString : num -> string)
  (storage : IStorage num) (query : string) (log : list Event) : Prop :=
  createEmbedding query = repeat (JNum num_zero) 128 /\
  (forall text,
     exists s,
       calculateSimilarity (createEmbedding query) (createEmbedding text)
         = Returned s /\
       vanishing s /\
       num_gt s num_0_2 = false) /\
  (exists log1,
     retrieveRelevantInfo Number_toString storage query log
       = (Returned [], log1)) /\
  (exists answerText log1,
     answerWithRAG Number_toString storage query log
     = (Returned
          (AnswerResult.mk answerText
             ["Internet Search Result (Note: Without internet access, this is general information)"]
             (Some []) (Some [])),
        log1 ++ [Awaited "searchInternet" query;
                 Awaited "setTimeout" "500"])).

(** Descending order of two documents for an order [le] of the scores:
    the later document scores at most as much as the earlier one. *)
Definition descending_by {num : Type} (le : num -> num -> Prop)
  (earlier later : RetrievalResult.t num) : Prop :=
  le (RetrievalResult.score later) (RetrievalResult.score earlier).

(** The order of the ideal numbers: both are reals, in order. *)
Definition ideal_le (x y : ideal) : Prop :=
  match x, y with
  | Real a, Real b => (a <= b)%R
  | _, _ => False
  end.

Definition ideal_real (x : ideal) : Prop := exists r, x = Real r.

(** Positive doubles: finite and positive, or plus infinity, read off
    the specification image of the double. *)
Definition sf_positive (x : spec_float) : Prop :=
  match x with
  | S754_finite false _ _ | S754_infinity false => True
  | _ => False
  end.

Definition float_positive (s : float) : Prop := sf_positive (Prim2SF s).

(** The order of the doubles: [x <= y] as the engine computes it. *)
Definition float_le (x y : float) : Prop := PrimFloat.leb x y = true.

(** The score of the document is one of [ok]. *)
Definition score_in {num : Type} (ok : num -> Prop)
  (d : RetrievalResult.t num) : Prop :=
  ok (RetrievalResult.score d).

(** The least exponent of a double. *)
#[local] Abbreviation emin64 := (SpecFloat.emin prec emax).

(** The stores of the worked examples: one species record, and nothing
    at all. *)
Definition tawny_eagle : Species.t :=
  Species.mk "Aquila rapax" ["Tawny Eagle"] Species.animal
    "A large bird of prey found in Margalla Hills" "Margalla Hills" 0.

Definition one_species_store : IStorage float :=
  MongoDBStorage
    (Some {| knowledge_docs := Returned [];
             species_docs := Returned [tawny_eagle];
             observations_docs := Returned [] |}).

Definition empty_store : IStorage float :=
  MongoDBStorage
    (Some {| knowledge_docs := Returned [];
             species_docs := Returned [];
             observations_docs := Returned [] |}).

(** The document is neither a species record nor a user observation,
    by its source label. *)
Definition plain_source {num : Type} (info : RetrievalResult.t num) : Prop :=
  JSString.includes (RetrievalResult.source info) "Species Database" = false /\
  JSString.includes (RetrievalResult.source info) "User Observation" = false.

(** The words of the query as the composer reads them. *)
Definition query_terms (query : string) : list string :=
  JSString.split_ws (JSString.toLowerCase query).

(** The three reads of the engine fail on this handle: it is unset, or
    the driver rejects each of the three [find({}).toArray()]. *)
Definition reads_fail {num : Type} (db : DbHandle num) : Prop :=
  match db with
  | None => True
  | Some d =>
      (exists e, knowledge_docs d = Thrown e) /\
      (exists e, species_docs d = Thrown e) /\
      (exists e, observations_docs d = Thrown e)
  end.

(** The lookup of a species by scientific name fails on this handle. *)
Definition species_lookup_fails {num : Type} (driver : Driver num)
  (db : DbHandle num) (scientificName : string) : Prop :=
  match db with
  | None => True
  | Some d =>
      exists e,
        species_findOne_scientificName driver d scientificName = Thrown e
  end.

(** No query can be inserted on this handle. *)
Definition insertion_fails {num : Type} (driver : Driver num)
  (db : DbHandle num) : Prop :=
  match db with
  | None => True
  | Some d =>
      forall queryData now,
        exists e, queries_insertOne driver d queryData now = Thrown e
  end.

(** The line that the [catch] of [calculatePoints] writes. *)
Definition points_error_line (ev : Event) : Prop :=
  exists e, ev = ConsoleError "Error calculating points:" e.

(** Drivers for the examples: the lookups find nothing or are
    rejected, the insertions and the update are accepted or rejected,
    and an id is an [ObjectId] when it has 24 characters. *)
Definition sample_driver (lookups_answer insertions_answer : bool)
  : Driver float :=
  let rejected {A} : Outcome A := Thrown (mkError "connection closed") in
  let found {A} (nothing : A) : Outcome A :=
    if lookups_answer then Returned nothing else rejected in
  let inserted (_id : string) : Outcome string :=
    if insertions_answer then Returned _id else rejected in
  {|
    ObjectId_new := fun id =>
      if (String.length id =? 24)%nat then Returned id
      else Thrown (mkError "input must be a 24 character hex string");
    users_findOne_email := fun _ _ => found None;
    users_insertOne := fun _ _ _ => inserted "65f0c0ffee0000000000000a";
    users_findOneAndUpdate_points := fun _ _ _ _ =>
      if insertions_answer then Returned None else rejected;
    observations_findOne_id := fun _ _ => found None;
    observations_find_near := fun _ _ _ _ => found [];
    observations_insertOne := fun _ _ _ => inserted "65f0c0ffee0000000000000b";
    species_findOne_scientificName := fun _ _ => found None;
    species_findOne_commonNames := fun _ _ => found None;
    species_insertOne := fun _ _ _ => inserted "65f0c0ffee0000000000000c";
    queries_insertOne := fun _ _ _ => inserted "65f0c0ffee0000000000000d"
  |}.

Definition quiet_driver : Driver float := sample_driver true true.
Definition failing_driver : Driver float := sample_driver false false.
Definition blind_driver : Driver float := sample_driver false true.

Definition empty_database : Db float := {|
  knowledge_docs := Returned [];
  species_docs := Returned [];
  observations_docs := Returned []
|}.

(** A client whose connection is accepted and whose index creation is
    rejected. *)
Definition client_without_index : MongoClient float := {|
  client_connect := Returned tt;
  client_db := empty_database;
  observations_createIndex := Thrown (mkError "not authorized to create index")
|}.

(** The documents that a reader of [MongoDBStorage] hands over: those
    of the collection, or none when the handle is unset or the read is
    rejected. *)
Definition readable {num A : Type} (docs : Db num -> Outcome (list A))
  (db : DbHandle num) : list A :=
  match db with
  | Some d =>
      match docs d with
      | Returned found => found
      | Thrown _ => []
      end
  | None => []
  end.

(** A candidate of the retrieval: the text that is embedded, and the
    text and the source label of the document that is returned. *)
Record Candidate : Type := mkCandidate {
  embedded : string;
  shown : string;
  label : string
}.

Section Pipeline.
Context {num : Type} `{JSNumber num}.
Variable Number_toString : num -> string.
#[local] Open Scope string_scope.

(** The candidates in the order in which the three loops score them:
    the knowledge entries, the species, the first fifty observations. *)
Definition candidates (db : DbHandle num) : list Candidate :=
  (map (fun entry =>
          mkCandidate (knowledge_text entry) (Knowledge.content entry)
                      (knowledge_source entry))
       (readable knowledge_docs db)
   ++ map (fun specie =>
             mkCandidate (species_text specie) (species_text specie)
                         ("Species Database: " ++ Species.scientificName specie))
          (readable species_docs db)
   ++ map (fun observation =>
             mkCandidate (observation_text Number_toString observation)
                         (observation_text Number_toString observation)
                         ("User Observation: "
                          ++ Observation.speciesName observation))
          (firstn 50 (readable observations_docs db)))%list.

(** The document of a candidate, when its similarity with the query
    exceeds 0.2. *)
Definition relevant (query : string) (c : Candidate)
  : list (RetrievalResult.t num) :=
  match calculateSimilarity (createEmbedding query)
                            (createEmbedding (embedded c)) with
  | Returned similarity =>
      if num_gt similarity num_0_2
      then [RetrievalResult.mk (shown c) (label c) similarity]
      else []
  | Thrown _ => []
  end.

End Pipeline.


(** The driver whose construction of ids and whose update of the
    points of a user are replaced. *)
Definition with_update {num : Type} (driver : Driver num)
  (new_id : string -> Outcome string)
  (update : Db num -> string -> num -> Z -> Outcome (option (Inserted.t User.t)))
  : Driver num := {|
  ObjectId_new := new_id;
  users_findOne_email := users_findOne_email driver;
  users_insertOne := users_insertOne driver;
  users_findOneAndUpdate_points := update;
  observations_findOne_id := observations_findOne_id driver;
  observations_find_near := observations_find_near driver;
  observations_insertOne := observations_insertOne driver;
  species_findOne_scientificName := species_findOne_scientificName driver;
  species_findOne_commonNames := species_findOne_commonNames driver;
  species_insertOne := species_insertOne driver;
  queries_insertOne := queries_insertOne driver
|}.

(** For the examples: a classifier whose network cannot be loaded;
    [parseFloat] on the two fields of the example, the longitude
    "73.0479" and the latitude "33.6844" of Islamabad; [JSON.parse] on
    a text that holds no common name; and the printing of the three
    awards. *)
Definition no_network : ImageProcessor.Runtime unit unit unit := {|
  ImageProcessor.mobilenet_load := throw (mkError "fetch failed");
  ImageProcessor.fs_readFileSync := fun _ => Returned tt;
  ImageProcessor.tf_decodeImage := fun _ => Returned tt;
  ImageProcessor.model_classify := fun _ _ => ret None;
  ImageProcessor.tensor_dispose := fun _ => Returned tt
|}.

Definition islamabad (field : option string) : float :=
  match field with
  | Some "73.0479" => 0x1.24310cb295e9ep+6%float
  | _ => 0x1.0d79a6b50b0f2p+5%float
  end.

Definition no_names (text : string) : Outcome (list string) := Returned [].

Definition print_points (points : float) : string :=
  if PrimFloat.eqb points 35%float then "35"
  else if PrimFloat.eqb points 25%float then "25"
  else "10".

(* ================================================================== *)
(** * Reasoning about runs *)
(* ================================================================== *)

Lemma if_returns_ret {A} (a : A) (Q : A -> Prop) :
  Q a -> if_returns (ret a) Q.
Proof.
  intros Ha log b log' E. unfold ret in E. inversion E; subst; exact Ha.
Qed.

Lemma if_returns_bind {A B} (m : M A) (k : A -> M B) (P : A -> Prop)
  (Q : B -> Prop) :
  if_returns m P -> (forall a, P a -> if_returns (k a) Q) ->
  if_returns (bind m k) Q.
Proof.
  intros Hm Hk log b log' E. unfold bind in E.
  destruct (m log) as [[a | e] l1] eqn:Em.
  - eapply Hk; [eapply Hm; exact Em | exact E].
  - discriminate.
Qed.

Lemma if_returns_any {A} (m : M A) : if_returns m (fun _ => True).
Proof. intros log a log' _. exact I. Qed.

Lemma if_returns_for_of {A S} (body : S -> A -> M S) (I : S -> Prop) :
  (forall s x, I s -> if_returns (body s x) I) ->
  forall l s, I s -> if_returns (for_of l body s) I.
Proof.
  intros Hbody l. induction l as [| x l IH]; intros s Hs; simpl.
  - apply if_returns_ret. exact Hs.
  - eapply if_returns_bind.
    + apply Hbody. exact Hs.
    + intros s' Hs'. apply IH. exact Hs'.
Qed.

Lemma returns_with_try_catch {A} (body : M A) (handler : JSError -> M A)
  (Q : A -> Prop) :
  if_returns body Q -> (forall e, returns_with (handler e) Q) ->
  returns_with (try_catch body handler) Q.
Proof.
  intros Hb Hh log. unfold try_catch.
  destruct (body log) as [[a | e] l1] eqn:Eb.
  - exists a, l1. split; [reflexivity | eapply Hb; exact Eb].
  - apply Hh.
Qed.

Lemma returns_with_log_then_ret {A} label e (a : A) (Q : A -> Prop) :
  Q a -> returns_with (console_error label e ;;; ret a) Q.
Proof.
  intros Ha log. exists a, (log ++ [ConsoleError label e]).
  split; [reflexivity | exact Ha].
Qed.

(** ** Substrings *)

Lemma startsWith_prefix (p s : string) :
  JSString.startsWith (p ++ s) p = true.
Proof.
  induction p as [| c p IH]; simpl.
  - destruct s; reflexivity.
  - rewrite Ascii.eqb_refl. exact IH.
Qed.

Lemma includes_startsWith (s sub : string) :
  JSString.startsWith s sub = true -> JSString.includes s sub = true.
Proof.
  intros Hs. destruct s; cbn [JSString.includes]; rewrite Hs; reflexivity.
Qed.

Lemma includes_prefix (p s : string) : JSString.includes (p ++ s) p = true.
Proof. apply includes_startsWith, startsWith_prefix. Qed.

Lemma includes_append_right (a b sub : string) :
  JSString.includes b sub = true -> JSString.includes (a ++ b) sub = true.
Proof.
  intros Hb. induction a as [| c a IH]; [exact Hb |].
  cbn [append JSString.includes]. rewrite IH. apply orb_true_r.
Qed.

(* ================================================================== *)
(** * The composer, the fallback search and the orchestrator *)
(* ================================================================== *)

Section Orchestration.
Context {num : Type} `{JSNumber num}.
Variable Number_toString : num -> string.

(** After the emptiness test the composer's [try] block cannot throw:
    the composer returns a text and logs nothing. *)
Lemma generateResponse_returns (query : string)
  (retrievedInfo : list (RetrievalResult.t num)) (log : list Event) :
  exists answerText,
    generateResponse query retrievedInfo log = (Returned answerText, log).
Proof.
  unfold generateResponse.
  destruct retrievedInfo as [| info rest].
  - simpl. eexists. reflexivity.
  - cbn [List.length Nat.eqb]. unfold try_catch, bind, lift, first_text, ret.
    eexists. reflexivity.
Qed.

(** C9.  For every query, [generateResponse] on the empty array returns
    (it neither throws nor logs an error) the fixed message, which
    quotes the query and suggests to consult local experts. *)
Theorem generateResponse_empty :
  forall (query : string) (log : list Event),
    let message :=
      ("I don't have specific information about " ++ query
       ++ ". You might want to consult local experts or biodiversity guides specific to the Islamabad region.")%string in
    generateResponse (num := num) query [] log = (Returned message, log) /\
    JSString.includes message query = true /\
    JSString.includes message "consult local experts" = true.
Proof.
  intros query log message. split; [reflexivity |]. split.
  - apply includes_append_right, includes_prefix.
  - unfold message. do 2 apply includes_append_right. reflexivity.
Qed.

(** C10.  For every query and whatever happened before,
    [searchInternet] returns exactly one document: its score is the
    literal 0.6, its source is the internet-search label and its text is
    the fixed template around the query.  It never returns the empty
    array and never throws; its only effect is the wait on the 500 ms
    timer, no search service is called, and the document does not
    depend on what was logged before. *)
Theorem searchInternet_one_canned_document :
  forall (query : string) (log : list Event),
    let text :=
      ("Information about " ++ query
       ++ " in Islamabad region could be found in local guidebooks or by contacting the Islamabad Wildlife Management Board. The Margalla Hills National Park is home to diverse wildlife including various bird species, monkeys, and occasionally leopards.")%string in
    searchInternet query log =
      (Returned
         [RetrievalResult.mk text
            "Internet Search Result (Note: Without internet access, this is general information)"
            num_0_6],
       log ++ [Awaited "setTimeout" "500"]) /\
    JSString.includes text query = true /\
    (forall log', result (searchInternet (num := num) query) log'
                  = result (searchInternet query) log).
Proof.
  intros query log text. split; [reflexivity |]. split.
  - apply includes_append_right, includes_prefix.
  - intros log'. reflexivity.
Qed.

(** The orchestrator's [catch] turns every throw of its body into the
    fixed error answer. *)
Lemma answerWithRAG_with_returns
  (retrieve search : string -> M (list (RetrievalResult.t num)))
  (compose : string -> list (RetrievalResult.t num) -> M string)
  (query : string) (log : list Event) :
  exists answer log',
    answerWithRAG_with retrieve search compose query log
      = (Returned answer, log').
Proof.
  unfold answerWithRAG_with, try_catch.
  match goal with |- context [match ?b log with _ => _ end] =>
    destruct (b log) as [[a | e] l1] end.
  - exists a, l1. reflexivity.
  - eexists _, _. reflexivity.
Qed.

(** C5.  Whatever the three callees do, the orchestrator returns an
    answer and never throws; when a failure of the retrieval, of the
    fallback search or of the composition reaches it, the answer is the
    fixed one: the generic failure text with the sources
    ['System Error'].  In particular [answerWithRAG], over any store,
    returns an answer for every query. *)
Theorem answerWithRAG_last_line_of_defense :
  forall (retrieve search : string -> M (list (RetrievalResult.t num)))
         (compose : string -> list (RetrievalResult.t num) -> M string)
         (query : string) (log : list Event),
    (exists answer,
       result (answerWithRAG_with retrieve search compose query) log
         = Returned answer) /\
    (forall e,
       failure_reaches_orchestrator retrieve search compose query log e ->
       result (answerWithRAG_with retrieve search compose query) log
         = Returned
             (AnswerResult.mk
                "Sorry, I encountered an error while processing your question. Please try again later."
                ["System Error"] None None)) /\
    (forall storage : IStorage num,
     exists answer,
       result (answerWithRAG Number_toString storage query) log
         = Returned answer).
Proof.
  intros retrieve search compose query log. split; [| split].
  - destruct (answerWithRAG_with_returns retrieve search compose query log)
      as (answer & log' & E).
    exists answer. unfold result. rewrite E. reflexivity.
  - intros e Hfail. unfold result, answerWithRAG_with, try_catch.
    destruct Hfail as [Hr | local log1 Hr Hlen Hs
                       | local log1 external log2 Hr Hs Hc].
    + unfold result in Hr. unfold bind at 1.
      destruct (await_call "retrieveRelevantInfo" query (retrieve query) log)
        as [[a | e'] l1]; simpl in Hr; [discriminate |].
      inversion Hr; subst. reflexivity.
    + unfold bind at 1. rewrite Hr.
      apply Nat.ltb_lt in Hlen. rewrite Hlen.
      unfold result in Hs. unfold bind at 1. unfold bind at 1.
      destruct (await_call "searchInternet" query (search query) log1)
        as [[a | e'] l2]; simpl in Hs; [discriminate |].
      inversion Hs; subst. reflexivity.
    + unfold bind at 1. rewrite Hr.
      unfold result in Hc.
      destruct (List.length local <? 2)%nat.
      * unfold bind at 1. unfold bind at 1. rewrite Hs.
        unfold ret at 1. unfold bind at 1.
        destruct (compose query (local ++ external) log2) as [[a | e'] l3];
          simpl in Hc; [discriminate |].
        inversion Hc; subst. reflexivity.
      * destruct Hs as [-> ->]. rewrite app_nil_r in Hc.
        unfold bind at 1. unfold ret at 1. unfold bind at 1.
        destruct (compose query local log1) as [[a | e'] l3];
          simpl in Hc; [discriminate |].
        inversion Hc; subst. reflexivity.
  - intros storage. unfold answerWithRAG.
    destruct (answerWithRAG_with_returns
                (retrieveRelevantInfo Number_toString storage)
                searchInternet generateResponse query log)
      as (answer & log' & E).
    exists answer. unfold result. rewrite E. reflexivity.
Qed.

(** The retrieval never throws: its [catch] answers with the empty
    array. *)
Lemma retrieveRelevantInfo_returns (storage : IStorage num) (query : string)
  (log : list Event) :
  exists local log1,
    retrieveRelevantInfo Number_toString storage query log
      = (Returned local, log1).
Proof.
  unfold retrieveRelevantInfo, try_catch.
  match goal with |- context [match ?b log with _ => _ end] =>
    destruct (b log) as [[a | e] l1] end.
  - exists a, l1. reflexivity.
  - eexists _, _. reflexivity.
Qed.

(** The two paths of the orchestrator after a retrieval that returned
    [local]: with fewer than two documents the fallback search is
    awaited and its document appended; otherwise nothing is awaited. *)
Lemma answerWithRAG_with_fallback (storage : IStorage num) (query : string)
  (log log1 : list Event) (local : list (RetrievalResult.t num)) :
  retrieveRelevantInfo Number_toString storage query
      (log ++ [Awaited "retrieveRelevantInfo" query])
    = (Returned local, log1) ->
  (List.length local < 2)%nat ->
  let external :=
    [RetrievalResult.mk (internet_text query) internet_source num_0_6] in
  let events :=
    [Awaited "searchInternet" query; Awaited "setTimeout" "500"] in
  exists answerText,
    generateResponse query (local ++ external) (log1 ++ events)
      = (Returned answerText, log1 ++ events) /\
    answerWithRAG Number_toString storage query log =
      (Returned
         (AnswerResult.mk answerText
            (map RetrievalResult.source local ++ [internet_source])
            (Some []) (Some [])),
       log1 ++ events).
Proof.
  intros Er Hlen external events.
  destruct (generateResponse_returns query (local ++ external)
              (log1 ++ events)) as (answerText & Eg).
  exists answerText. split; [exact Eg |].
  apply Nat.ltb_lt in Hlen.
  unfold answerWithRAG, answerWithRAG_with, try_catch.
  unfold bind at 1. unfold await_call at 1. unfold bind at 1.
  unfold emit at 1. rewrite Er. rewrite Hlen.
  unfold bind at 1. unfold bind at 1.
  unfold await_call at 1. unfold bind at 1. unfold emit at 1.
  replace (searchInternet query (log1 ++ [Awaited "searchInternet" query]))
    with (Returned external, log1 ++ events).
  - unfold ret at 1. unfold bind at 1. rewrite Eg.
    unfold ret. rewrite map_app. reflexivity.
  - unfold searchInternet, try_catch, await_call, bind, emit, ret, events.
    rewrite <- app_assoc. reflexivity.
Qed.

Lemma answerWithRAG_without_fallback (storage : IStorage num) (query : string)
  (log log1 : list Event) (local : list (RetrievalResult.t num)) :
  retrieveRelevantInfo Number_toString storage query
      (log ++ [Awaited "retrieveRelevantInfo" query])
    = (Returned local, log1) ->
  (2 <= List.length local)%nat ->
  exists answerText,
    generateResponse query local log1 = (Returned answerText, log1) /\
    answerWithRAG Number_toString storage query log =
      (Returned
         (AnswerResult.mk answerText (map RetrievalResult.source local)
            (Some []) (Some [])),
       log1).
Proof.
  intros Er Hlen.
  destruct (generateResponse_returns query local log1) as (answerText & Eg).
  exists answerText. split; [exact Eg |].
  apply Nat.ltb_ge in Hlen.
  unfold answerWithRAG, answerWithRAG_with, try_catch.
  unfold bind at 1. unfold await_call at 1. unfold bind at 1.
  unfold emit at 1. rewrite Er. rewrite Hlen.
  unfold bind at 1. unfold ret at 1. unfold bind at 1.
  rewrite Eg. reflexivity.
Qed.

(** C1.  For every store and query, let [local] be what the retrieval
    returns to the orchestrator.  The orchestrator awaits
    [searchInternet] exactly when [local] has fewer than two documents;
    the documents handed to the composer are then [local] followed by
    the external ones, in that order and without sorting, so that the
    sources of the answer are the local labels followed by the external
    ones.  With two local documents or more nothing is awaited after
    the retrieval and the sources are the local labels alone. *)
Theorem answerWithRAG_fallback_iff_fewer_than_two :
  forall (storage : IStorage num) (query : string) (log : list Event),
  exists local log1 external events answerText,
    retrieveRelevantInfo Number_toString storage query
        (log ++ [Awaited "retrieveRelevantInfo" query])
      = (Returned local, log1) /\
    (In (Awaited "searchInternet" query) events <->
     (List.length local < 2)%nat) /\
    external =
      (if (List.length local <? 2)%nat
       then [RetrievalResult.mk (internet_text query) internet_source num_0_6]
       else []) /\
    events =
      (if (List.length local <? 2)%nat
       then [Awaited "searchInternet" query; Awaited "setTimeout" "500"]
       else []) /\
    generateResponse query (local ++ external) (log1 ++ events)
      = (Returned answerText, log1 ++ events) /\
    answerWithRAG Number_toString storage query log =
      (Returned
         (AnswerResult.mk answerText
            (map RetrievalResult.source local
             ++ map RetrievalResult.source external)
            (Some []) (Some [])),
       log1 ++ events).
Proof.
  intros storage query log.
  destruct (retrieveRelevantInfo_returns storage query
              (log ++ [Awaited "retrieveRelevantInfo" query]))
    as (local & log1 & Er).
  exists local, log1.
  destruct (List.length local <? 2)%nat eqn:Elen.
  - apply Nat.ltb_lt in Elen.
    destruct (answerWithRAG_with_fallback storage query log log1 local
                Er Elen) as (answerText & Eg & Ea).
    eexists _, _, answerText.
    split; [exact Er |]. split; [| split; [reflexivity |
      split; [reflexivity | split; [exact Eg | exact Ea]]]].
    split; [intros _; exact Elen | intros _; left; reflexivity].
  - apply Nat.ltb_ge in Elen.
    destruct (answerWithRAG_without_fallback storage query log log1 local
                Er Elen) as (answerText & Eg & Ea).
    eexists _, _, answerText.
    split; [exact Er |]. split; [| split; [reflexivity |
      split; [reflexivity | split]]].
    + split; [intros [] | intros Hlt; lia].
    + rewrite !app_nil_r. exact Eg.
    + rewrite !app_nil_r. exact Ea.
Qed.

End Orchestration.

(** The retrieval throws (as it does when the question is not a
    string): the failure reaches the orchestrator, which answers with
    the fixed error result. *)
Lemma answerWithRAG_last_line_of_defense_witness :
  result (answerWithRAG_with (num := float) failing_retrieve
            searchInternet generateResponse "5") []
    = Returned
        (AnswerResult.mk
           "Sorry, I encountered an error while processing your question. Please try again later."
           ["System Error"] None None).
Proof.
  apply (proj1 (proj2 (answerWithRAG_last_line_of_defense
                         (fun _ : float => "0")
                         failing_retrieve searchInternet generateResponse
                         "5" []))
               (mkError "text.toLowerCase is not a function")).
  apply retrieval_fails. reflexivity.
Defined.

(* ================================================================== *)
(** * Arrays, sorting and slicing *)
(* ================================================================== *)

Section Arrays.
Context {num : Type} `{JSNumber num}.

Lemma array_update_length (arr : list (jsval num)) i v :
  List.length (array_update arr i v) = List.length arr.
Proof.
  revert i. induction arr as [| x arr IH]; intros [| i]; simpl; auto.
Qed.

Lemma array_set_length_in_range (arr : list (jsval num)) i v :
  (i < List.length arr)%nat ->
  List.length (array_set arr i v) = List.length arr.
Proof.
  intros Hi. unfold array_set.
  apply Nat.ltb_lt in Hi. rewrite Hi. apply array_update_length.
Qed.

Lemma insert_sorted_perm {A} (compareFn : A -> A -> num) x l :
  Permutation (insert_sorted compareFn x l) (x :: l).
Proof.
  induction l as [| y l IH]; simpl.
  - apply Permutation_refl.
  - destruct (num_gt (compareFn x y) num_zero).
    + eapply perm_trans; [apply perm_skip; exact IH | apply perm_swap].
    + apply Permutation_refl.
Qed.

Lemma Array_sort_perm {A} (compareFn : A -> A -> num) l :
  Permutation (Array_sort compareFn l) l.
Proof.
  induction l as [| x l IH]; simpl.
  - apply perm_nil.
  - eapply perm_trans; [apply insert_sorted_perm |].
    apply perm_skip. exact IH.
Qed.

Lemma Forall_firstn_of {A} (P : A -> Prop) n (l : list A) :
  Forall P l -> Forall P (firstn n l).
Proof.
  revert l. induction n as [| n IH]; intros [| x l] Hl; simpl;
    try constructor; inversion Hl; subst; auto.
Qed.

Lemma Forall_skipn_of {A} (P : A -> Prop) n (l : list A) :
  Forall P l -> Forall P (skipn n l).
Proof.
  revert l. induction n as [| n IH]; intros [| x l] Hl; simpl; auto.
  inversion Hl; subst; auto.
Qed.

Lemma Array_slice_Forall {A} (P : A -> Prop) (l : list A) first last :
  Forall P l -> Forall P (Array_slice l first last).
Proof.
  intros Hl. unfold Array_slice.
  apply Forall_firstn_of, Forall_skipn_of, Hl.
Qed.

Lemma fold_left_over_map {A B C} (f : A -> B -> A) (g : C -> B) l a :
  fold_left f (map g l) a = fold_left (fun a x => f a (g x)) l a.
Proof.
  revert a. induction l as [| x l IH]; intros a; simpl; [reflexivity |].
  apply IH.
Qed.

Lemma Array_slice_length {A} (l : list A) first last :
  (List.length (Array_slice l first last) <= last - first)%nat.
Proof. unfold Array_slice. apply firstn_le_length. Qed.

End Arrays.

(* ================================================================== *)
(** * The embedding has 128 slots; the similarity is the dot product *)
(* ================================================================== *)

Lemma position_of_lt (word : string) : (position_of word < VECTOR_SIZE)%nat.
Proof.
  unfold position_of, VECTOR_SIZE.
  assert (Hb : (0 <= Z.rem (Z.abs (hashCode word)) (Z.of_nat 128) < 128)%Z).
  { change (Z.of_nat 128) with 128%Z.
    apply Z.rem_bound_pos; [apply Z.abs_nonneg | lia]. }
  lia.
Qed.

(** The bound behind the use of [Z] for the hash: each character adds
    less than 2^32 to the magnitude. *)
Lemma ToInt32_range (z : Z) : (- 2 ^ 31 <= ToInt32 z < 2 ^ 31)%Z.
Proof.
  unfold ToInt32.
  pose proof (Z.mod_pos_bound (z + 2 ^ 31) (2 ^ 32) ltac:(lia)). lia.
Qed.

Lemma hash_step_bound (hash : Z) (char : ascii) :
  (Z.abs (hash_step hash char) < Z.abs hash + 2 ^ 32)%Z.
Proof.
  unfold hash_step, shift_left.
  pose proof (ToInt32_range (Z.shiftl (ToInt32 hash) 5)) as Hs.
  assert (Hc : (0 <= JSString.charCode char < 256)%Z).
  { unfold JSString.charCode.
    pose proof (N_ascii_bounded char). lia. }
  lia.
Qed.

(** X6.  The hash of a word stays below 2^32 times its length in
    magnitude, hence below 2^53 (where doubles stop being exact
    integers) for every word of less than 2^21 characters. *)
Theorem hashCode_bound (word : string) :
  (Z.abs (hashCode word) <= Z.of_nat (String.length word) * 2 ^ 32)%Z.
Proof.
  unfold hashCode, JSString.chars.
  assert (G : forall s h,
             (Z.abs (fold_left hash_step (list_ascii_of_string s) h)
              <= Z.abs h + Z.of_nat (String.length s) * 2 ^ 32)%Z).
  { induction s as [| c s IH]; intros h; simpl String.length;
      simpl list_ascii_of_string; simpl fold_left.
    - lia.
    - specialize (IH (hash_step h c)).
      pose proof (hash_step_bound h c). lia. }
  specialize (G word 0%Z). simpl Z.abs in G. lia.
Qed.

Section Embedding.
Context {num : Type} `{JSNumber num}.

Lemma add_entry_length (embedding : list (jsval num)) e :
  List.length embedding = VECTOR_SIZE ->
  List.length (add_entry embedding e) = VECTOR_SIZE.
Proof.
  intros Hl. destruct e as [word freq]. unfold add_entry.
  rewrite array_set_length_in_range; [exact Hl |].
  rewrite Hl. apply position_of_lt.
Qed.

Lemma fill_length (wordFreq : props) :
  List.length (fill wordFreq) = VECTOR_SIZE.
Proof.
  unfold fill.
  assert (G : forall es (v : list (jsval num)),
             List.length v = VECTOR_SIZE ->
             List.length (fold_left add_entry es v) = VECTOR_SIZE).
  { induction es as [| e es IH]; intros v Hv; simpl; [exact Hv |].
    apply IH, add_entry_length, Hv. }
  apply G. apply repeat_length.
Qed.

Lemma createEmbedding_length (text : string) :
  List.length (createEmbedding text) = 128%nat.
Proof.
  unfold createEmbedding.
  destruct (num_gt _ num_zero); [rewrite length_map |]; apply fill_length.
Qed.

(** The indexed loop of [calculateSimilarity] computes the dot product
    by pairs. *)
Lemma indexed_loop_is_dot_product (a b : list (jsval num)) :
  List.length a = List.length b ->
  forall acc,
    fold_left
      (fun dotProduct i =>
         num_add dotProduct (js_times (array_get a i) (array_get b i)))
      (seq 0 (List.length a)) acc
    = fold_left (fun acc p => num_add acc (js_times (fst p) (snd p)))
                (combine a b) acc.
Proof.
  revert b. induction a as [| x a IH]; intros [| y b] Hlen acc;
    simpl in Hlen; try discriminate; [reflexivity |].
  injection Hlen as Hlen.
  cbn [List.length seq combine fold_left].
  rewrite <- seq_shift, fold_left_over_map.
  cbn [array_get nth fst snd].
  apply (IH b Hlen).
Qed.

Lemma calculateSimilarity_equal_lengths (a b : list (jsval num)) :
  List.length a = List.length b ->
  calculateSimilarity a b = Returned (dot_product a b).
Proof.
  intros Hlen. unfold calculateSimilarity, dot_product.
  rewrite (proj2 (Nat.eqb_eq _ _) Hlen). cbn [negb].
  rewrite (indexed_loop_is_dot_product a b Hlen). reflexivity.
Qed.

Lemma calculateSimilarity_embeddings (query text : string) :
  calculateSimilarity (createEmbedding query) (createEmbedding text)
  = Returned (dot_product (createEmbedding query) (createEmbedding text)).
Proof.
  apply calculateSimilarity_equal_lengths.
  rewrite !createEmbedding_length. reflexivity.
Qed.

(** One turn of a scoring loop on an embedded query: no throw, no log,
    and the array grows by at most the scored document. *)
Lemma score_and_push_run (query text_to_embed text source : string)
  (results : list (RetrievalResult.t num)) (log : list Event) :
  score_and_push (createEmbedding query) text_to_embed text source results log
  = (Returned
       (let similarity :=
          dot_product (createEmbedding query) (createEmbedding text_to_embed) in
        if num_gt similarity num_0_2
        then results ++ [RetrievalResult.mk text source similarity]
        else results),
     log).
Proof.
  unfold score_and_push, bind, lift.
  rewrite calculateSimilarity_embeddings. reflexivity.
Qed.


End Embedding.

(* ================================================================== *)
(** * The retrieval: threshold and bound *)
(* ================================================================== *)

Section Retrieval.
Context {num : Type} `{JSNumber num}.
Variable Number_toString : num -> string.

(** A turn of a scoring loop pushes nothing but documents above the
    threshold, whatever the embedding of the query. *)
Lemma score_and_push_keeps (queryEmbedding : list (jsval num))
  (text_to_embed text source : string)
  (results : list (RetrievalResult.t num)) :
  Forall above_threshold results ->
  if_returns (score_and_push queryEmbedding text_to_embed text source results)
             (Forall above_threshold).
Proof.
  intros Hres log out log' E. unfold score_and_push, bind, lift, ret in E.
  destruct (calculateSimilarity queryEmbedding (createEmbedding text_to_embed))
    as [similarity | e]; [| discriminate].
  inversion E; subst; clear E.
  destruct (num_gt similarity num_0_2) eqn:Hgt; [| exact Hres].
  apply Forall_app. split; [exact Hres |].
  constructor; [exact Hgt | constructor].
Qed.

(** The shape of every proof about the result: an invariant [I] of the
    array [results] that each turn of the scoring loops keeps yields
    [Q] of the result, as soon as [Q] holds of the first five of the
    sorted array and of the empty array that the [catch] returns. *)
Lemma retrieveRelevantInfo_invariant (storage : IStorage num) (query : string)
  (I Q : list (RetrievalResult.t num) -> Prop) :
  I [] ->
  (forall text_to_embed text source results,
     I results ->
     if_returns (score_and_push (createEmbedding query) text_to_embed text
                                source results) I) ->
  (forall results,
     I results ->
     Q (Array_slice (Array_sort by_score_descending results) 0 5)) ->
  Q [] ->
  returns_with (retrieveRelevantInfo Number_toString storage query) Q.
Proof.
  intros Hinit Hstep Hsorted Hnil. unfold retrieveRelevantInfo.
  apply returns_with_try_catch.
  - eapply if_returns_bind; [apply if_returns_any |]. intros knowledgeEntries _.
    eapply if_returns_bind with (P := I).
    { apply if_returns_for_of; [| exact Hinit].
      intros results entry Hres. apply Hstep, Hres. }
    intros results1 H1.
    eapply if_returns_bind; [apply if_returns_any |]. intros species _.
    eapply if_returns_bind with (P := I).
    { apply if_returns_for_of; [| exact H1].
      intros results specie Hres. apply Hstep, Hres. }
    intros results2 H2.
    eapply if_returns_bind; [apply if_returns_any |]. intros observations _.
    eapply if_returns_bind with (P := I).
    { apply if_returns_for_of; [| exact H2].
      intros results observation Hres. apply Hstep, Hres. }
    intros results3 H3.
    apply if_returns_ret. apply Hsorted, H3.
  - intros e. apply returns_with_log_then_ret. exact Hnil.
Qed.

(** What holds of the empty array and of the first five of the sorted
    array of any documents above the threshold holds of every
    result of the retrieval, which never throws. *)
Lemma retrieveRelevantInfo_post (storage : IStorage num) (query : string)
  (Q : list (RetrievalResult.t num) -> Prop) :
  Q [] ->
  (forall results,
     Forall above_threshold results ->
     Q (Array_slice (Array_sort by_score_descending results) 0 5)) ->
  returns_with (retrieveRelevantInfo Number_toString storage query) Q.
Proof.
  intros Hnil Hsorted.
  apply retrieveRelevantInfo_invariant with (I := Forall above_threshold).
  - constructor.
  - intros. apply score_and_push_keeps. assumption.
  - exact Hsorted.
  - exact Hnil.
Qed.

(** C2.  For every store, query and earlier log, [retrieveRelevantInfo]
    returns documents whose score each exceeds 0.2 ([score > 0.2] holds
    of each, in whatever arithmetic the numbers have; on the binary64
    instance this is the comparison of doubles). *)
Theorem retrieveRelevantInfo_above_threshold :
  forall (storage : IStorage num) (query : string) (log : list Event),
  exists documents log',
    retrieveRelevantInfo Number_toString storage query log
      = (Returned documents, log') /\
    Forall (fun d => num_gt (RetrievalResult.score d) num_0_2 = true)
           documents.
Proof.
  intros storage query.
  apply (retrieveRelevantInfo_post storage query (Forall above_threshold)).
  - constructor.
  - intros results Hres. apply Array_slice_Forall.
    eapply Permutation_Forall;
      [apply Permutation_sym, Array_sort_perm | exact Hres].
Qed.

(** At most five documents come back. *)
Lemma retrieveRelevantInfo_at_most_five (storage : IStorage num)
  (query : string) :
  returns_with (retrieveRelevantInfo Number_toString storage query)
               (fun documents => (List.length documents <= 5)%nat).
Proof.
  apply retrieveRelevantInfo_post.
  - simpl. lia.
  - intros results _. apply (Array_slice_length _ 0 5).
Qed.

End Retrieval.

(* ================================================================== *)
(** * The result is sorted *)
(* ================================================================== *)

(** The sort is correct in every arithmetic with an order [le] of the
    scores that can be pushed ([ok]) such that: a score above the
    threshold is [ok]; the comparator [b.score - a.score] is positive
    only if [a] scores at most as much as [b], and is not positive only
    if [b] scores at most as much as [a]; and [le] is transitive.  The
    four facts are assumed here and proved below for the ideal numbers
    and for the doubles. *)
Section SortedResult.
Context {num : Type} `{JSNumber num}.
Variable Number_toString : num -> string.
Variable ok : num -> Prop.
Variable le : num -> num -> Prop.
Hypothesis threshold_ok : forall s, num_gt s num_0_2 = true -> ok s.
Hypothesis positive_difference :
  forall x y, ok x -> ok y ->
              num_gt (num_sub y x) num_zero = true -> le x y.
Hypothesis other_difference :
  forall x y, ok x -> ok y ->
              num_gt (num_sub y x) num_zero = false -> le y x.
Hypothesis le_transitive :
  forall x y z, ok x -> ok y -> ok z -> le x y -> le y z -> le x z.

Lemma insert_sorted_descending (d : RetrievalResult.t num) l :
  score_in ok d -> Forall (score_in ok) l ->
  StronglySorted (descending_by le) l ->
  StronglySorted (descending_by le) (insert_sorted by_score_descending d l).
Proof.
  intros Hd Hok Hsorted.
  induction l as [| e l IH]; cbn [insert_sorted].
  - constructor; constructor.
  - inversion Hok as [| ? ? He Hok']; subst.
    inversion Hsorted as [| ? ? Hsorted' Hall]; subst.
    destruct (num_gt (by_score_descending d e) num_zero) eqn:Hcmp.
    + (* [d] scores less: it goes behind [e] *)
      constructor; [apply IH; assumption |].
      eapply Permutation_Forall;
        [apply Permutation_sym, insert_sorted_perm |].
      constructor; [| exact Hall].
      apply (positive_difference _ _ Hd He Hcmp).
    + (* [d] scores at least as much: it stays in front *)
      assert (Hde : descending_by le d e)
        by apply (other_difference _ _ Hd He Hcmp).
      constructor; [exact Hsorted |].
      constructor; [exact Hde |].
      rewrite Forall_forall in Hall, Hok'. apply Forall_forall.
      intros c Hc. unfold descending_by.
      apply (le_transitive _ (RetrievalResult.score e));
        [apply Hok', Hc | exact He | exact Hd | apply Hall, Hc | exact Hde].
Qed.

Lemma Array_sort_descending (l : list (RetrievalResult.t num)) :
  Forall (score_in ok) l ->
  StronglySorted (descending_by le) (Array_sort by_score_descending l).
Proof.
  induction l as [| d l IH]; intros Hok; simpl.
  - constructor.
  - inversion Hok; subst.
    apply insert_sorted_descending; [assumption | | apply IH; assumption].
    eapply Permutation_Forall;
      [apply Permutation_sym, Array_sort_perm | assumption].
Qed.

Lemma StronglySorted_firstn {A} (R : A -> A -> Prop) n (l : list A) :
  StronglySorted R l -> StronglySorted R (firstn n l).
Proof.
  revert l. induction n as [| n IH]; intros [| x l] Hs; simpl;
    try constructor.
  - inversion Hs; subst. apply IH. assumption.
  - inversion Hs; subst. apply Forall_firstn_of. assumption.
Qed.

Lemma retrieveRelevantInfo_sorted (storage : IStorage num) (query : string) :
  returns_with (retrieveRelevantInfo Number_toString storage query)
    (fun documents =>
       (List.length documents <= 5)%nat /\
       StronglySorted (descending_by le) documents).
Proof.
  apply retrieveRelevantInfo_post.
  - split; [simpl; lia | constructor].
  - intros results Hres. split; [apply (Array_slice_length _ 0 5) |].
    unfold Array_slice. simpl skipn.
    apply StronglySorted_firstn, Array_sort_descending.
    eapply Forall_impl; [| exact Hres].
    intros d Hd. apply threshold_ok, Hd.
Qed.

End SortedResult.

(** ** The four facts on the ideal numbers *)

Lemma ideal_gt_true (a b : ideal) :
  ideal_gt a b = true -> exists x y, a = Real x /\ b = Real y /\ (y < x)%R.
Proof.
  destruct a as [| x], b as [| y]; simpl; try discriminate.
  destruct (Rlt_dec y x) as [Hlt | _]; [| discriminate].
  intros _. exists x, y. auto.
Qed.

Lemma ideal_gt_Real (x y : R) :
  ideal_gt (Real x) (Real y) = true <-> (y < x)%R.
Proof.
  simpl. destruct (Rlt_dec y x); split; auto; discriminate.
Qed.

Lemma ideal_threshold_real (s : ideal) :
  num_gt s num_0_2 = true -> ideal_real s.
Proof.
  intros Hgt. cbn in Hgt. apply ideal_gt_true in Hgt.
  destruct Hgt as (x & y & -> & _). exists x. reflexivity.
Qed.

Lemma ideal_positive_difference (x y : ideal) :
  ideal_real x -> ideal_real y ->
  num_gt (num_sub y x) num_zero = true -> ideal_le x y.
Proof.
  intros [a ->] [b ->] Hgt. cbn in Hgt.
  destruct (Rlt_dec 0 (b - a)); [| discriminate]. simpl. lra.
Qed.

Lemma ideal_other_difference (x y : ideal) :
  ideal_real x -> ideal_real y ->
  num_gt (num_sub y x) num_zero = false -> ideal_le y x.
Proof.
  intros [a ->] [b ->] Hgt. cbn in Hgt.
  destruct (Rlt_dec 0 (b - a)); [discriminate |]. simpl. lra.
Qed.

Lemma ideal_le_transitive (x y z : ideal) :
  ideal_real x -> ideal_real y -> ideal_real z ->
  ideal_le x y -> ideal_le y z -> ideal_le x z.
Proof.
  intros [a ->] [b ->] [c ->]. simpl. lra.
Qed.

(** ** The four facts on the doubles *)

(** They follow from the specification of the primitive operations
    ([Prim2SF] and the functions of [SpecFloat]).  The one that takes
    work is the sign of a rounded difference: the difference of two
    distinct positive doubles is never rounded to zero. *)

#[local] Open Scope Z_scope.

Lemma digits2_pos_bounds (p : positive) :
  2 ^ (Zpos (digits2_pos p) - 1) <= Zpos p < 2 ^ Zpos (digits2_pos p).
Proof.
  induction p as [p IH | p IH |]; cbn [digits2_pos].
  - rewrite Pos2Z.inj_succ.
    replace (Z.succ (Zpos (digits2_pos p)) - 1) with (Zpos (digits2_pos p)) by lia.
    rewrite Z.pow_succ_r by lia.
    assert (E : Zpos (digits2_pos p) = Zpos (digits2_pos p) - 1 + 1) by lia.
    rewrite E at 1. rewrite Z.pow_add_r by lia. lia.
  - rewrite Pos2Z.inj_succ.
    replace (Z.succ (Zpos (digits2_pos p)) - 1) with (Zpos (digits2_pos p)) by lia.
    rewrite Z.pow_succ_r by lia.
    assert (E : Zpos (digits2_pos p) = Zpos (digits2_pos p) - 1 + 1) by lia.
    rewrite E at 1. rewrite Z.pow_add_r by lia. lia.
  - simpl. lia.
Qed.

Lemma iter_pos_nat {A} (f : A -> A) (n : positive) (x : A) :
  iter_pos f n x = Nat.iter (Pos.to_nat n) f x.
Proof.
  revert x. induction n as [n IH | n IH |]; intros x; cbn [iter_pos].
  - rewrite !IH. rewrite Pos2Nat.inj_xI.
    replace (S (2 * Pos.to_nat n))%nat with (Pos.to_nat n + (Pos.to_nat n + 1))%nat by lia.
    rewrite !Nat.iter_add. simpl. reflexivity.
  - rewrite !IH. rewrite Pos2Nat.inj_xO.
    replace (2 * Pos.to_nat n)%nat with (Pos.to_nat n + Pos.to_nat n)%nat by lia.
    rewrite Nat.iter_add. reflexivity.
  - reflexivity.
Qed.

(** Shifting a positive mantissa right by fewer places than it has
    digits leaves a positive mantissa. *)
Lemma shr_1_positive (p : positive) r s :
  (1 < Zpos (digits2_pos p)) ->
  exists q r' s',
    shr_1 (Build_shr_record (Zpos p) r s) = Build_shr_record (Zpos q) r' s' /\
    Zpos (digits2_pos q) = Zpos (digits2_pos p) - 1.
Proof.
  destruct p as [p | p |]; cbn [digits2_pos shr_1]; intros Hd.
  - eexists p, _, _. split; [reflexivity |]. lia.
  - eexists p, _, _. split; [reflexivity |]. lia.
  - lia.
Qed.

Lemma iter_shr_1_positive (n : nat) (p : positive) r s :
  (Z.of_nat n < Zpos (digits2_pos p)) ->
  exists q r' s',
    Nat.iter n shr_1 (Build_shr_record (Zpos p) r s)
      = Build_shr_record (Zpos q) r' s'.
Proof.
  revert p r s. induction n as [| n IH]; intros p r s Hd.
  - exists p, r, s. reflexivity.
  - rewrite Nat.iter_succ_r.
    destruct (shr_1_positive p r s) as (q & r' & s' & E & Hq); [lia |].
    rewrite E. apply IH. lia.
Qed.

Lemma fexp_ge_emin (x : Z) : emin64 <= fexp prec emax x.
Proof. unfold fexp, SpecFloat.emin. lia. Qed.

Lemma shr_fexp_positive (p : positive) (e : Z) (l : location) :
  emin64 <= e ->
  exists q r s e',
    shr_fexp prec emax (Zpos p) e l = (Build_shr_record (Zpos q) r s, e') /\
    emin64 <= e'.
Proof.
  intros He. unfold shr_fexp, shr.
  assert (Hrec : exists r s,
             shr_record_of_loc (Zpos p) l = Build_shr_record (Zpos p) r s).
  { destruct l as [| []]; simpl; eauto. }
  destruct Hrec as (r & s & ->).
  cbn [Zdigits2].
  destruct (fexp prec emax (Zpos (digits2_pos p) + e) - e) as [| n | n] eqn:En.
  - exists p, r, s, e. split; [reflexivity | exact He].
  - rewrite iter_pos_nat.
    destruct (iter_shr_1_positive (Pos.to_nat n) p r s)
      as (q & r' & s' & E).
    + rewrite positive_nat_Z.
      unfold fexp in En. unfold prec in *. lia.
    + rewrite E. exists q, r', s', (e + Zpos n).
      split; [reflexivity |].
      pose proof (fexp_ge_emin (Zpos (digits2_pos p) + e)). lia.
  - exists p, r, s, e. split; [reflexivity | exact He].
Qed.

Lemma round_nearest_even_positive (q : positive) (l : location) :
  exists q', round_nearest_even (Zpos q) l = Zpos q'.
Proof.
  destruct l as [| []]; cbn [round_nearest_even].
  - exists q. reflexivity.
  - destruct (Z.even (Zpos q)); [exists q | exists (q + 1)%positive];
      reflexivity.
  - exists q. reflexivity.
  - exists (q + 1)%positive. reflexivity.
Qed.

(** Rounding a positive integer mantissa at an exponent that is not
    below [emin] never yields zero or NaN. *)
Lemma binary_round_aux_positive (sx : bool) (p : positive) (e : Z)
  (l : location) :
  emin64 <= e ->
  (exists m' e', binary_round_aux prec emax sx (Zpos p) e l
                 = S754_finite sx m' e') \/
  binary_round_aux prec emax sx (Zpos p) e l = S754_infinity sx.
Proof.
  intros He. unfold binary_round_aux.
  destruct (shr_fexp_positive p e l He) as (q & r & s & e' & -> & He').
  cbn [shr_m].
  destruct (round_nearest_even_positive q
              (loc_of_shr_record (Build_shr_record (Zpos q) r s)))
    as (q' & ->).
  destruct (shr_fexp_positive q' e' loc_Exact He')
    as (q'' & r'' & s'' & e'' & -> & He'').
  cbn [shr_m].
  destruct (e'' <=? emax - prec); [left; eauto | right; reflexivity].
Qed.

Lemma shl_align_exponent (m : positive) (e e' : Z) :
  snd (shl_align m e e') = Z.min e e'.
Proof.
  unfold shl_align. destruct (e' - e) eqn:E; cbn [snd].
  all: lia.
Qed.

Lemma binary_round_positive (sx : bool) (p : positive) (e : Z) :
  emin64 <= e ->
  (exists m' e', binary_round prec emax sx p e = S754_finite sx m' e') \/
  binary_round prec emax sx p e = S754_infinity sx.
Proof.
  intros He. unfold binary_round.
  pose proof (shl_align_exponent p e
                (fexp prec emax (Zpos (digits2_pos p) + e))) as Hs.
  destruct (shl_align p e (fexp prec emax (Zpos (digits2_pos p) + e)))
    as [mz ez].
  apply binary_round_aux_positive.
  cbn [snd] in Hs. subst ez.
  pose proof (fexp_ge_emin (Zpos (digits2_pos p) + e)). lia.
Qed.

(** ** The value order of positive doubles *)

Lemma iter_xO_value (m d : positive) :
  Zpos (Pos.iter xO m d) = Zpos m * 2 ^ Zpos d.
Proof.
  induction d as [| d IH] using Pos.peano_ind.
  - simpl. lia.
  - rewrite Pos.iter_succ, Pos2Z.inj_succ, Z.pow_succ_r by lia.
    rewrite Pos2Z.inj_xO, IH. lia.
Qed.

Lemma shl_align_value (m : positive) (e e' : Z) :
  e' <= e -> Zpos (fst (shl_align m e e')) = Zpos m * 2 ^ (e - e').
Proof.
  intros Hle. unfold shl_align.
  destruct (e' - e) as [| d | d] eqn:E; cbn [fst].
  - replace (e - e') with 0 by lia. simpl. lia.
  - lia.
  - rewrite iter_xO_value. f_equal. f_equal. lia.
Qed.

Lemma canonical_exponent (m : positive) (e : Z) :
  bounded prec emax m e = true ->
  emin64 <= e /\
  Zpos (digits2_pos m) <= prec /\
  (emin64 < e -> Zpos (digits2_pos m) = prec).
Proof.
  unfold bounded, canonical_mantissa. intros Hb.
  apply andb_prop in Hb. destruct Hb as [Hc _].
  apply Z.eqb_eq in Hc. unfold fexp, SpecFloat.emin in *. lia.
Qed.

(** A canonical mantissa at a lower exponent is below a canonical
    mantissa at a higher exponent, once both are aligned. *)
Lemma lower_exponent_smaller (mx my : positive) (ex ey : Z) :
  bounded prec emax mx ex = true -> bounded prec emax my ey = true ->
  ex < ey ->
  Zpos mx < Zpos my * 2 ^ (ey - ex).
Proof.
  intros Hx Hy Hlt.
  destruct (canonical_exponent mx ex Hx) as (Hex & Hdx & _).
  destruct (canonical_exponent my ey Hy) as (Hey & _ & Hdy).
  specialize (Hdy ltac:(lia)).
  pose proof (digits2_pos_bounds mx) as [_ Hmx].
  pose proof (digits2_pos_bounds my) as [Hmy _].
  rewrite Hdy in Hmy.
  assert (H1 : 2 ^ Zpos (digits2_pos mx) <= 2 ^ prec)
    by (apply Z.pow_le_mono_r; lia).
  assert (H2 : 2 ^ 1 <= 2 ^ (ey - ex)) by (apply Z.pow_le_mono_r; lia).
  assert (H3 : 2 ^ prec = 2 ^ (prec - 1) * 2 ^ 1)
    by (rewrite <- Z.pow_add_r by (unfold prec; lia); f_equal; lia).
  assert (H4 : 0 < 2 ^ (prec - 1)) by (apply Z.pow_pos_nonneg; unfold prec; lia).
  nia.
Qed.

(** For valid positive doubles the sign of the rounded difference
    [y - x] is the order of [x] and [y]: it is positive exactly when
    [x < y]. *)
Lemma SFsub_positive_iff_lt (x y : spec_float) :
  sf_positive x -> sf_positive y ->
  valid_binary prec emax x = true -> valid_binary prec emax y = true ->
  SFltb (S754_zero false) (SFsub prec emax y x) = SFltb x y.
Proof.
  destruct x as [sx | [|] | | [|] mx ex]; try contradiction;
    destruct y as [sy | [|] | | [|] my ey]; try contradiction;
    intros _ _ Hx Hy; try reflexivity.
  cbn [valid_binary] in Hx, Hy.
  destruct (canonical_exponent mx ex Hx) as (Hex & _ & _).
  destruct (canonical_exponent my ey Hy) as (Hey & _ & _).
  cbn [SFsub cond_Zopp].
  assert (Hmy : Zpos (fst (shl_align my ey (Z.min ey ex)))
                = Zpos my * 2 ^ (ey - Z.min ey ex))
    by (apply shl_align_value; lia).
  assert (Hmx : Zpos (fst (shl_align mx ex (Z.min ey ex)))
                = Zpos mx * 2 ^ (ex - Z.min ey ex))
    by (apply shl_align_value; lia).
  unfold SFltb at 2. cbn [SFcompare].
  destruct (Z.compare_spec ex ey) as [Heq | Hlt | Hgt].
  - (* equal exponents: the mantissas decide *)
    subst ey. rewrite Z.min_id in *. rewrite Z.sub_diag in *.
    change (2 ^ 0) with 1 in *. rewrite Z.mul_1_r in *.
    rewrite Hmy, Hmx.
    change (Pos.compare_cont Eq mx my) with (Pos.compare mx my).
    destruct (Pos.compare_spec mx my) as [E | L | G].
    + subst my. rewrite Z.sub_diag. reflexivity.
    + destruct (Zpos my - Zpos mx) as [| d | d] eqn:Ed; try lia.
      cbn [binary_normalize].
      destruct (binary_round_positive false d ex Hex)
        as [(m' & e' & ->) | ->]; reflexivity.
    + destruct (Zpos my - Zpos mx) as [| d | d] eqn:Ed; try lia.
      cbn [binary_normalize].
      destruct (binary_round_positive true d ex Hex)
        as [(m' & e' & ->) | ->]; reflexivity.
  - (* x has the lower exponent: x < y *)
    pose proof (lower_exponent_smaller mx my ex ey Hx Hy Hlt) as Hval.
    rewrite Z.min_r in * by lia. rewrite Z.sub_diag in Hmx.
    change (2 ^ 0) with 1 in Hmx. rewrite Z.mul_1_r in Hmx.
    rewrite Hmy, Hmx.
    destruct (Zpos my * 2 ^ (ey - ex) - Zpos mx) as [| d | d] eqn:Ed;
      try lia.
    cbn [binary_normalize].
    destruct (binary_round_positive false d ex Hex)
      as [(m' & e' & ->) | ->]; reflexivity.
  - (* y has the lower exponent: y < x *)
    pose proof (lower_exponent_smaller my mx ey ex Hy Hx Hgt) as Hval.
    rewrite Z.min_l in * by lia. rewrite Z.sub_diag in Hmy.
    change (2 ^ 0) with 1 in Hmy. rewrite Z.mul_1_r in Hmy.
    rewrite Hmy, Hmx.
    destruct (Zpos my - Zpos mx * 2 ^ (ex - ey)) as [| d | d] eqn:Ed;
      try lia.
    cbn [binary_normalize].
    destruct (binary_round_positive true d ey Hey)
      as [(m' & e' & ->) | ->]; reflexivity.
Qed.

Lemma SFltb_SFleb (x y : spec_float) : SFltb x y = true -> SFleb x y = true.
Proof.
  unfold SFltb, SFleb. destruct (SFcompare x y) as [[| |] |];
    intros; try discriminate; reflexivity.
Qed.

Lemma SFleb_of_not_lt (x y : spec_float) :
  sf_positive x -> sf_positive y ->
  SFltb x y = false -> SFleb y x = true.
Proof.
  destruct x as [sx | [|] | | [|] mx ex]; try contradiction;
    destruct y as [sy | [|] | | [|] my ey]; try contradiction;
    intros _ _; unfold SFltb, SFleb; cbn [SFcompare];
    try (intros; discriminate); try reflexivity.
  change (Pos.compare_cont Eq mx my) with (Pos.compare mx my).
  change (Pos.compare_cont Eq my mx) with (Pos.compare my mx).
  rewrite (Z.compare_antisym ex ey), (Pos.compare_antisym mx my).
  destruct (ex ?= ey); cbn [CompOpp]; try (intros; discriminate);
    try reflexivity.
  destruct (mx ?= my)%positive; cbn [CompOpp]; intros; try discriminate;
    reflexivity.
Qed.

Lemma SFleb_trans (x y z : spec_float) :
  sf_positive x -> sf_positive y -> sf_positive z ->
  SFleb x y = true -> SFleb y z = true -> SFleb x z = true.
Proof.
  destruct x as [sx | [|] | | [|] mx ex]; try contradiction;
    destruct y as [sy | [|] | | [|] my ey]; try contradiction;
    destruct z as [sz | [|] | | [|] mz ez]; try contradiction;
    intros _ _ _; unfold SFleb; cbn [SFcompare];
    try (intros; discriminate); try reflexivity.
  change (Pos.compare_cont Eq mx my) with (Pos.compare mx my).
  change (Pos.compare_cont Eq my mz) with (Pos.compare my mz).
  change (Pos.compare_cont Eq mx mz) with (Pos.compare mx mz).
  destruct (Z.compare_spec ex ey), (Z.compare_spec ey ez),
    (Z.compare_spec ex ez); try lia; try (intros; discriminate);
    try reflexivity;
    destruct (Pos.compare_spec mx my), (Pos.compare_spec my mz),
      (Pos.compare_spec mx mz); try lia; intros; try discriminate;
      reflexivity.
Qed.

(** ** On the primitive doubles *)

Lemma float_above_threshold_positive (s : float) :
  PrimFloat.ltb 0x1.999999999999ap-3%float s = true -> float_positive s.
Proof.
  rewrite ltb_spec. unfold float_positive.
  destruct (Prim2SF s) as [sx | [|] | | [|] mx ex]; vm_compute;
    intros; try discriminate; exact I.
Qed.

Lemma float_difference_sign (x y : float) :
  float_positive x -> float_positive y ->
  PrimFloat.ltb 0%float (y - x)%float = PrimFloat.ltb x y.
Proof.
  intros Hx Hy. rewrite !ltb_spec, sub_spec.
  change (Prim2SF 0) with (S754_zero false).
  apply SFsub_positive_iff_lt; try assumption; apply Prim2SF_valid.
Qed.

Lemma float_leb_of_lt (x y : float) :
  PrimFloat.ltb x y = true -> PrimFloat.leb x y = true.
Proof. rewrite ltb_spec, leb_spec. apply SFltb_SFleb. Qed.

Lemma float_leb_of_not_lt (x y : float) :
  float_positive x -> float_positive y ->
  PrimFloat.ltb x y = false -> PrimFloat.leb y x = true.
Proof. rewrite ltb_spec, leb_spec. apply SFleb_of_not_lt. Qed.

Lemma float_leb_trans (x y z : float) :
  float_positive x -> float_positive y -> float_positive z ->
  PrimFloat.leb x y = true -> PrimFloat.leb y z = true ->
  PrimFloat.leb x z = true.
Proof. rewrite !leb_spec. apply SFleb_trans. Qed.

#[local] Close Scope Z_scope.

(** C3.  On the ideal numbers and on the doubles alike: for every
    store, query and earlier log, [retrieveRelevantInfo] returns at
    most five documents, in descending order of score (each document
    scores at least as much as every later one). *)
Theorem retrieveRelevantInfo_top5_sorted :
  (forall (Number_toString : ideal -> string) (storage : IStorage ideal)
          (query : string) (log : list Event),
   exists documents log',
     retrieveRelevantInfo Number_toString storage query log
       = (Returned documents, log') /\
     (List.length documents <= 5)%nat /\
     StronglySorted
       (fun earlier later =>
          ideal_le (RetrievalResult.score later)
                   (RetrievalResult.score earlier))
       documents) /\
  (forall (Number_toString : float -> string) (storage : IStorage float)
          (query : string) (log : list Event),
   exists documents log',
     retrieveRelevantInfo Number_toString storage query log
       = (Returned documents, log') /\
     (List.length documents <= 5)%nat /\
     StronglySorted
       (fun earlier later =>
          PrimFloat.leb (RetrievalResult.score later)
                        (RetrievalResult.score earlier) = true)
       documents).
Proof.
  split; intros Number_toString storage query.
  - apply (retrieveRelevantInfo_sorted Number_toString ideal_real ideal_le
             ideal_threshold_real ideal_positive_difference
             ideal_other_difference ideal_le_transitive).
  - apply (retrieveRelevantInfo_sorted Number_toString float_positive float_le).
    + apply float_above_threshold_positive.
    + intros x y Hx Hy Hgt. apply float_leb_of_lt.
      rewrite <- (float_difference_sign x y Hx Hy). exact Hgt.
    + intros x y Hx Hy Hgt. apply float_leb_of_not_lt; try assumption.
      rewrite <- (float_difference_sign x y Hx Hy). exact Hgt.
    + apply float_leb_trans.
Qed.

(* ================================================================== *)
(** * A query without retained tokens *)
(* ================================================================== *)

Section NoToken.
Context {num : Type} `{JSNumber num}.

Lemma count_word_short (wordFreq : props (num := num)) (word : string) :
  (String.length word <= 2)%nat -> count_word wordFreq word = wordFreq.
Proof.
  intros Hlen. unfold count_word.
  apply Nat.ltb_ge in Hlen. rewrite Hlen. reflexivity.
Qed.

Lemma word_frequencies_no_token (text : string) :
  no_retained_token text -> word_frequencies (num := num) text = [].
Proof.
  unfold no_retained_token, word_frequencies.
  generalize (@nil (string * jsval num)) as wordFreq.
  induction (tokenize text) as [| word words IH]; intros wordFreq Hall;
    simpl; [reflexivity |].
  inversion Hall; subst.
  rewrite count_word_short by assumption. apply IH. assumption.
Qed.

Lemma fill_no_entry : fill (num := num) [] = zero_vector.
Proof. reflexivity. Qed.

End NoToken.

(** What follows needs five facts of the arithmetic.  Four are about
    the values that a sum of products by zero can take (the [vanishing]
    values): zero is one; a product of zero by anything is one; a sum
    of two is one; none exceeds 0.2.  The fifth: the zero vector has a
    magnitude that is not positive.  They are assumed here and proved
    below for the ideal numbers and for the doubles. *)
Section ZeroQuery.
Context {num : Type} `{JSNumber num}.
Variable Number_toString : num -> string.
Variable vanishing : num -> Prop.
Hypothesis vanishing_zero : vanishing num_zero.
Hypothesis vanishing_mul : forall x, vanishing (num_mul num_zero x).
Hypothesis vanishing_add :
  forall a b, vanishing a -> vanishing b -> vanishing (num_add a b).
Hypothesis vanishing_below :
  forall a, vanishing a -> num_gt a num_0_2 = false.
Hypothesis zero_magnitude :
  num_gt (magnitude_of (zero_vector (num := num))) num_zero = false.

Lemma createEmbedding_no_count (text : string) :
  word_frequencies (num := num) text = [] ->
  createEmbedding text = zero_vector.
Proof.
  intros E. unfold createEmbedding.
  rewrite E, fill_no_entry, zero_magnitude. reflexivity.
Qed.

Lemma createEmbedding_no_token (text : string) :
  no_retained_token text -> createEmbedding (num := num) text = zero_vector.
Proof.
  intros Hno. apply createEmbedding_no_count, word_frequencies_no_token, Hno.
Qed.

(** The dot product of the zero vector with any array vanishes. *)
Lemma dot_product_zero_vector (b : list (jsval num)) :
  vanishing (dot_product zero_vector b).
Proof.
  unfold dot_product, zero_vector.
  assert (G : forall n b acc,
             vanishing acc ->
             vanishing
               (fold_left
                  (fun acc p => num_add acc (js_times (fst p) (snd p)))
                  (combine (repeat (JNum num_zero) n) b) acc)).
  { clear b. induction n as [| n IH]; intros [| y b] acc Hacc; simpl; auto.
    apply IH. apply vanishing_add; [exact Hacc |].
    unfold js_times. cbn [ToNumber fst snd]. apply vanishing_mul. }
  apply G. exact vanishing_zero.
Qed.

Lemma similarity_no_token (query text : string) :
  no_retained_token query ->
  exists s,
    calculateSimilarity (createEmbedding (num := num) query)
                        (createEmbedding text) = Returned s /\
    vanishing s /\
    num_gt s num_0_2 = false.
Proof.
  intros Hno. rewrite calculateSimilarity_embeddings.
  eexists. split; [reflexivity |].
  rewrite (createEmbedding_no_token query Hno).
  pose proof (dot_product_zero_vector (createEmbedding text)) as Hz.
  split; [exact Hz | apply vanishing_below, Hz].
Qed.

Lemma retrieveRelevantInfo_no_token (storage : IStorage num)
  (query : string) :
  no_retained_token query ->
  returns_with (retrieveRelevantInfo Number_toString storage query)
               (fun documents => documents = []).
Proof.
  intros Hno.
  apply retrieveRelevantInfo_invariant with (I := fun results => results = []).
  - reflexivity.
  - intros text_to_embed text source results -> log out log' E.
    rewrite score_and_push_run in E. cbv zeta in E.
    destruct (similarity_no_token query text_to_embed Hno)
      as (s & Es & _ & Hs).
    rewrite calculateSimilarity_embeddings in Es. injection Es as <-.
    rewrite Hs in E. inversion E. reflexivity.
  - intros results ->. reflexivity.
  - reflexivity.
Qed.

Lemma short_query_behaviour_holds (storage : IStorage num) (query : string)
  (log : list Event) :
  no_retained_token query ->
  short_query_behaviour vanishing Number_toString storage query log.
Proof.
  intros Hno. unfold short_query_behaviour.
  split; [apply (createEmbedding_no_token query Hno) |].
  split; [intros text; apply similarity_no_token, Hno |].
  split.
  - destruct (retrieveRelevantInfo_no_token storage query Hno log)
      as (documents & log1 & E & ->).
    exists log1. exact E.
  - destruct (retrieveRelevantInfo_no_token storage query Hno
                (log ++ [Awaited "retrieveRelevantInfo" query]))
      as (documents & log1 & E & ->).
    destruct (answerWithRAG_with_fallback Number_toString storage query
                log log1 [] E) as (answerText & _ & Ea);
      [simpl; lia |].
    exists answerText, log1. exact Ea.
Qed.

End ZeroQuery.

(** The five facts on the ideal numbers. *)
Lemma ideal_sum_squares_zero (n : nat) :
  fold_left (fun sum val => num_add sum (js_times val val))
            (repeat (JNum (Real 0)) n) (Real 0)
  = Real 0.
Proof.
  induction n as [| n IH]; simpl; [reflexivity |].
  replace (0 + 0 * 0)%R with 0%R by lra. exact IH.
Qed.

Lemma ideal_zero_magnitude :
  num_gt (magnitude_of (zero_vector (num := ideal))) num_zero = false.
Proof.
  unfold magnitude_of, zero_vector.
  change (@num_zero ideal ideal_number) with (Real 0).
  rewrite ideal_sum_squares_zero.
  cbn. destruct (Rlt_dec 0 0) as [Hlt | _]; [lra |].
  rewrite sqrt_0. cbn.
  destruct (Rlt_dec 0 0) as [Hlt | _]; [lra | reflexivity].
Qed.

Lemma ideal_vanishing_mul (x : ideal) :
  ideal_vanishing (num_mul num_zero x).
Proof.
  destruct x as [| r]; cbn; [right; reflexivity |].
  left. f_equal. lra.
Qed.

Lemma ideal_vanishing_add (a b : ideal) :
  ideal_vanishing a -> ideal_vanishing b ->
  ideal_vanishing (num_add a b).
Proof.
  unfold ideal_vanishing.
  intros [-> | ->] [-> | ->]; cbn; try (right; reflexivity).
  left. f_equal. lra.
Qed.

Lemma ideal_vanishing_below (a : ideal) :
  ideal_vanishing a -> num_gt a num_0_2 = false.
Proof.
  intros [-> | ->]; cbn; [| reflexivity].
  destruct (Rlt_dec (2 / 10) 0) as [Hlt | _]; [lra | reflexivity].
Qed.

Lemma createEmbedding_no_token_ideal (text : string) :
  no_retained_token text ->
  createEmbedding (num := ideal) text = zero_vector.
Proof. apply createEmbedding_no_token, ideal_zero_magnitude. Qed.

(** The five facts on the doubles, from the specification of the
    primitive operations. *)
Lemma float_zero_magnitude :
  num_gt (magnitude_of (zero_vector (num := float))) num_zero = false.
Proof. vm_compute. reflexivity. Qed.

Lemma float_vanishing_zero : float_vanishing num_zero.
Proof. vm_compute. exact I. Qed.

Lemma float_vanishing_mul (x : float) :
  float_vanishing (num_mul num_zero x).
Proof.
  unfold float_vanishing. cbn [num_mul num_zero float_number].
  rewrite mul_spec.
  change (Prim2SF 0) with (S754_zero false).
  destruct (Prim2SF x); simpl; exact I.
Qed.

Lemma float_vanishing_add (a b : float) :
  float_vanishing a -> float_vanishing b ->
  float_vanishing (num_add a b).
Proof.
  unfold float_vanishing. cbn [num_add float_number].
  rewrite add_spec.
  destruct (Prim2SF a) as [sa | sa | | sa ma ea];
    destruct (Prim2SF b) as [sb | sb | | sb mb eb];
    try contradiction; intros _ _; simpl; try exact I.
  destruct sa, sb; exact I.
Qed.

Lemma float_vanishing_below (a : float) :
  float_vanishing a -> num_gt a num_0_2 = false.
Proof.
  unfold float_vanishing. cbn [num_gt num_0_2 float_number].
  rewrite ltb_spec.
  destruct (Prim2SF a) as [sa | sa | | sa ma ea]; try contradiction;
    intros _; vm_compute; reflexivity.
Qed.

Lemma createEmbedding_no_token_float (text : string) :
  no_retained_token text ->
  createEmbedding (num := float) text = zero_vector.
Proof. apply createEmbedding_no_token, float_zero_magnitude. Qed.

(** C6.  For a query whose tokens all have at most two characters, on
    the ideal numbers and on the doubles alike: its embedding is the
    zero vector; its similarity with the embedding of any text is a
    zero (or NaN, when that embedding holds a slot that is not a
    number) and so does not exceed 0.2; whatever the store holds or
    does, the retrieval returns the empty array; and the orchestrator
    then awaits the fallback search, whose label is the only source of
    the answer. *)
Theorem short_query_retrieves_nothing :
  forall query : string,
    Forall (fun token => (String.length token <= 2)%nat) (tokenize query) ->
    (forall (Number_toString : ideal -> string) (storage : IStorage ideal)
            (log : list Event),
       short_query_behaviour ideal_vanishing Number_toString storage
                             query log) /\
    (forall (Number_toString : float -> string) (storage : IStorage float)
            (log : list Event),
       short_query_behaviour float_vanishing Number_toString storage
                             query log).
Proof.
  intros query Hno. split; intros Number_toString storage log.
  - apply short_query_behaviour_holds; [| | | | | exact Hno].
    + left. reflexivity.
    + apply ideal_vanishing_mul.
    + apply ideal_vanishing_add.
    + apply ideal_vanishing_below.
    + apply ideal_zero_magnitude.
  - apply short_query_behaviour_holds; [| | | | | exact Hno].
    + apply float_vanishing_zero.
    + apply float_vanishing_mul.
    + apply float_vanishing_add.
    + apply float_vanishing_below.
    + apply float_zero_magnitude.
Qed.

(** The query "x y" against a store that was never connected, on the
    doubles. *)
Lemma short_query_retrieves_nothing_witness :
  short_query_behaviour float_vanishing (fun _ : float => "0")
                        (MongoDBStorage None) "x y" [].
Proof.
  apply (short_query_retrieves_nothing "x y").
  repeat constructor.
Defined.

(* ================================================================== *)
(** * Tokens that name a property of [Object.prototype] *)
(* ================================================================== *)

(** An object without own property has the zero vector as embedding
    (binary64: the closed computation; ideal numbers: as for a text
    without retained token). *)
Lemma createEmbedding_no_count_float (text : string) :
  word_frequencies (num := float) text = [] ->
  createEmbedding (num := float) text = zero_vector.
Proof. apply createEmbedding_no_count, float_zero_magnitude. Qed.

Lemma createEmbedding_no_count_ideal (text : string) :
  word_frequencies (num := ideal) text = [] ->
  createEmbedding (num := ideal) text = zero_vector.
Proof. apply createEmbedding_no_count, ideal_zero_magnitude. Qed.

(** C4, at the text "constructor" (and at "__proto__").  The text has
    one token, of eleven characters, which is retained.  Its count is
    read through the prototype: [wordFreq["constructor"]] is the
    function [Object], so the count becomes a string, slot 6 of the
    vector becomes a string, the magnitude is NaN, the test
    [magnitude > 0] fails and the vector is returned as it is: 127
    zeros and one string, of norm NaN and not 1.  This holds on the
    doubles and on the ideal numbers.  The token "__proto__" is
    retained as well, but its assignment is swallowed by the setter of
    [Object.prototype], and the embedding is the zero vector. *)
Theorem createEmbedding_constructor_not_normalized :
  tokenize "constructor" = ["constructor"] /\
  (2 < String.length "constructor")%nat /\
  createEmbedding (num := float) "constructor"
    = array_update zero_vector 6 JText /\
  PrimFloat.is_nan
    (magnitude_of (createEmbedding (num := float) "constructor")) = true /\
  createEmbedding (num := ideal) "constructor"
    = array_update zero_vector 6 JText /\
  magnitude_of (createEmbedding (num := ideal) "constructor") = NaN /\
  tokenize "__proto__" = ["__proto__"] /\
  (2 < String.length "__proto__")%nat /\
  createEmbedding (num := float) "__proto__" = zero_vector /\
  createEmbedding (num := ideal) "__proto__" = zero_vector.
Proof.
  assert (Hi : createEmbedding (num := ideal) "constructor"
               = array_update zero_vector 6 JText).
  { unfold createEmbedding.
    replace (fill (num := ideal) (word_frequencies "constructor"))
      with (array_update (zero_vector (num := ideal)) 6 JText)
      by (vm_compute; reflexivity).
    replace (magnitude_of (array_update (zero_vector (num := ideal)) 6 JText))
      with NaN by (cbv; reflexivity).
    reflexivity. }
  split; [reflexivity |].
  split; [vm_compute; lia |].
  split; [vm_compute; reflexivity |].
  split; [vm_compute; reflexivity |].
  split; [exact Hi |].
  split; [rewrite Hi; cbv; reflexivity |].
  split; [reflexivity |].
  split; [vm_compute; lia |].
  split; [apply createEmbedding_no_count_float; reflexivity |].
  apply createEmbedding_no_count_ideal; reflexivity.
Qed.

(* ================================================================== *)
(** * Which observations are scored *)
(* ================================================================== *)

Lemma Array_slice_from_zero {A} (l : list A) n :
  Array_slice l 0 n = firstn n l.
Proof. unfold Array_slice. rewrite Nat.sub_0_r. reflexivity. Qed.

Lemma bind_ext {A B} (m : M A) (k k' : A -> M B) (log : list Event) :
  (forall a l, k a l = k' a l) -> bind m k log = bind m k' log.
Proof.
  intros Hk. unfold bind. destruct (m log) as [[a | e] l]; [apply Hk |].
  reflexivity.
Qed.

Lemma bind_assoc {A B C} (m : M A) (f : A -> M B) (k : B -> M C)
  (log : list Event) :
  bind (bind m f) k log = bind m (fun a => bind (f a) k) log.
Proof.
  unfold bind. destruct (m log) as [[a | e] l]; reflexivity.
Qed.

Lemma bind_ret {A B} (a : A) (k : A -> M B) (log : list Event) :
  bind (ret a) k log = k a log.
Proof. reflexivity. Qed.

Lemma try_catch_ext {A} (body body' : M A) (handler : JSError -> M A)
  (log : list Event) :
  body log = body' log ->
  try_catch body handler log = try_catch body' handler log.
Proof. intros E. unfold try_catch. rewrite E. reflexivity. Qed.

(** The retrieval reads the first fifty documents of
    [getAllObservations], in the order in which the store returns them,
    and nothing behind them. *)
Lemma retrieveRelevantInfo_reads_first_fifty {num} `{JSNumber num}
  (Number_toString : num -> string) (storage : IStorage num)
  (query : string) (log : list Event) :
  retrieveRelevantInfo Number_toString (first_observations 50 storage)
                       query log
  = retrieveRelevantInfo Number_toString storage query log.
Proof.
  unfold retrieveRelevantInfo. apply try_catch_ext.
  cbn [getAllKnowledge getAllSpecies getAllObservations first_observations].
  apply bind_ext. intros knowledgeEntries l1.
  apply bind_ext. intros results1 l2.
  apply bind_ext. intros species l3.
  apply bind_ext. intros results2 l4.
  unfold await_call. rewrite !bind_assoc.
  apply bind_ext. intros [] l5.
  rewrite bind_assoc.
  apply bind_ext. intros observations l6.
  rewrite bind_ret.
  rewrite !Array_slice_from_zero, firstn_firstn. reflexivity.
Qed.

(** C7, at a store of 51 observations.  The store returns them in the
    order of insertion, oldest first.  The fifty most recent ones
    include the leopard, seen last; the first fifty, which are what the
    retrieval scores, are the fifty oldest and leave it out.  So the
    query "leopard" retrieves nothing from this store, while on the
    fifty most recent observations it retrieves the sighting of the
    leopard. *)
Theorem retrieveRelevantInfo_scores_the_first_fifty_not_the_latest :
  map Observation.createdAt fifty_one_observations
    = map Z.of_nat (seq 1 51) /\
  map Observation.createdAt (firstn 50 fifty_one_observations)
    = map Z.of_nat (seq 1 50) /\
  map Observation.createdAt (most_recent 50 fifty_one_observations)
    = map Z.of_nat (rev (seq 2 50)) /\
  result (retrieveRelevantInfo print_coordinate
            (observations_only fifty_one_observations) "leopard") []
    = Returned [] /\
  result (retrieveRelevantInfo print_coordinate
            (observations_only (firstn 50 fifty_one_observations))
            "leopard") []
    = Returned [] /\
  result (retrieveRelevantInfo print_coordinate
            (observations_only (most_recent 50 fifty_one_observations))
            "leopard") []
    = Returned
        [RetrievalResult.mk
           "Observation of leopard at coordinates [73, 33]. "
           "User Observation: leopard"
           0x1.279a74590331dp-1%float].
Proof.
  split; [vm_compute; reflexivity |].
  split; [vm_compute; reflexivity |].
  split; [vm_compute; reflexivity |].
  split; [vm_compute; reflexivity |].
  split; [vm_compute; reflexivity |].
  vm_compute. reflexivity.
Qed.

(* ================================================================== *)
(** * Further properties of the embedding and of the retrieval *)
(* ================================================================== *)

(** X2.  A text without retained token (every token has at most two
    characters) has the all-zero vector of dimension 128 as embedding,
    on the ideal numbers and on the doubles. *)
Theorem createEmbedding_zero_vector :
  forall text : string,
    Forall (fun token => (String.length token <= 2)%nat) (tokenize text) ->
    createEmbedding (num := ideal) text = repeat (JNum (Real 0)) 128 /\
    createEmbedding (num := float) text = repeat (JNum 0%float) 128.
Proof.
  intros text Hno. split.
  - apply createEmbedding_no_token_ideal, Hno.
  - apply createEmbedding_no_token_float, Hno.
Qed.

Lemma createEmbedding_zero_vector_witness :
  createEmbedding (num := float) "a b" = repeat (JNum 0%float) 128.
Proof.
  apply (createEmbedding_zero_vector "a b").
  repeat constructor.
Defined.

(** X3.  Whatever the store, the retrieval depends on
    [getAllObservations] through its first fifty documents only, in the
    order in which the store returns them. *)
Theorem retrieveRelevantInfo_first_fifty_observations :
  forall {num} `{JSNumber num} (Number_toString : num -> string)
         (storage : IStorage num) (query : string) (log : list Event),
    retrieveRelevantInfo Number_toString (first_observations 50 storage)
                         query log
    = retrieveRelevantInfo Number_toString storage query log.
Proof.
  intros. apply retrieveRelevantInfo_reads_first_fifty.
Qed.

(** X4.  Whatever the store, [answerWithRAG] returns an answer (it
    never throws) that names at least one source and whose related
    observation and species identifiers are both the empty array. *)
Theorem answerWithRAG_always_cites :
  forall {num} `{JSNumber num} (Number_toString : num -> string)
         (storage : IStorage num) (query : string) (log : list Event),
  exists answer log',
    answerWithRAG Number_toString storage query log = (Returned answer, log') /\
    AnswerResult.sources answer <> [] /\
    AnswerResult.relatedObservationIds answer = Some [] /\
    AnswerResult.relatedSpeciesIds answer = Some [].
Proof.
  intros num Hnum Number_toString storage query log.
  destruct (retrieveRelevantInfo_returns Number_toString storage query
              (log ++ [Awaited "retrieveRelevantInfo" query]))
    as (local & log1 & Er).
  destruct (Nat.lt_ge_cases (List.length local) 2) as [Hlt | Hge].
  - destruct (answerWithRAG_with_fallback Number_toString storage query
                log log1 local Er Hlt) as (answerText & _ & Ea).
    eexists _, _. split; [exact Ea |]. cbn.
    repeat split. intros E. apply app_eq_nil in E. destruct E; discriminate.
  - destruct (answerWithRAG_without_fallback Number_toString storage query
                log log1 local Er Hge) as (answerText & _ & Ea).
    eexists _, _. split; [exact Ea |]. cbn.
    repeat split. destruct local; [simpl in Hge; lia | discriminate].
Qed.

(** X5.  On the doubles, for two documents above the threshold, the
    comparator [b.score - a.score] of the sort is positive exactly when
    [a] scores strictly less than [b]: the rounded difference of two
    such scores has the sign of the exact one. *)
Theorem by_score_descending_sign :
  forall a b : RetrievalResult.t float,
    PrimFloat.ltb 0x1.999999999999ap-3%float (RetrievalResult.score a) = true ->
    PrimFloat.ltb 0x1.999999999999ap-3%float (RetrievalResult.score b) = true ->
    num_gt (by_score_descending a b) num_zero
    = PrimFloat.ltb (RetrievalResult.score a) (RetrievalResult.score b).
Proof.
  intros a b Ha Hb. unfold by_score_descending.
  cbn [num_gt num_sub num_zero float_number].
  apply float_difference_sign; apply float_above_threshold_positive;
    assumption.
Qed.

Lemma by_score_descending_sign_witness :
  num_gt (by_score_descending
            (RetrievalResult.mk "a" "s" 0x1.3333333333333p-1%float)
            (RetrievalResult.mk "b" "s" 1%float)) num_zero
  = PrimFloat.ltb 0x1.3333333333333p-1%float 1%float.
Proof.
  apply (by_score_descending_sign
           (RetrievalResult.mk "a" "s" 0x1.3333333333333p-1%float)
           (RetrievalResult.mk "b" "s" 1%float));
    vm_compute; reflexivity.
Defined.

(* ================================================================== *)
(** * The composer on documents *)
(* ================================================================== *)

Section Substrings.
#[local] Open Scope string_scope.

Lemma startsWith_split (s p : string) :
  JSString.startsWith s p = true -> exists b, s = p ++ b.
Proof.
  revert s. induction p as [| c p IH]; intros s Hs.
  - exists s. reflexivity.
  - destruct s as [| c' s]; [discriminate |].
    cbn [JSString.startsWith] in Hs. apply andb_true_iff in Hs.
    destruct Hs as [Hc Hs]. apply Ascii.eqb_eq in Hc. subst c'.
    destruct (IH s Hs) as [b ->]. exists b. reflexivity.
Qed.

Lemma includes_split (s sub : string) :
  JSString.includes s sub = true -> exists a b, s = a ++ sub ++ b.
Proof.
  induction s as [| c s IH]; cbn [JSString.includes]; intros Hs.
  - rewrite orb_false_r in Hs. destruct (startsWith_split _ _ Hs) as [b ->].
    exists "", b. reflexivity.
  - apply orb_true_iff in Hs. destruct Hs as [Hs | Hs].
    + destruct (startsWith_split _ _ Hs) as [b ->]. exists "", b. reflexivity.
    + destruct (IH Hs) as (a & b & ->). exists (String c a), b. reflexivity.
Qed.

Lemma append_assoc_string (a b c : string) : (a ++ b) ++ c = a ++ b ++ c.
Proof. induction a as [| x a IH]; simpl; [| rewrite IH]; reflexivity. Qed.

Lemma includes_middle (a sub b : string) :
  JSString.includes (a ++ sub ++ b) sub = true.
Proof. apply includes_append_right, includes_prefix. Qed.

Lemma includes_append_left (a b sub : string) :
  JSString.includes a sub = true -> JSString.includes (a ++ b) sub = true.
Proof.
  intros Ha. destruct (includes_split _ _ Ha) as (x & y & ->).
  rewrite !append_assoc_string. apply includes_middle.
Qed.

Lemma includes_trans (s t u : string) :
  JSString.includes s t = true -> JSString.includes t u = true ->
  JSString.includes s u = true.
Proof.
  intros Hs Ht. destruct (includes_split _ _ Hs) as (a & b & ->).
  apply includes_append_right, includes_append_left. exact Ht.
Qed.

End Substrings.

Section Composer.
Context {num : Type} `{JSNumber num}.
#[local] Open Scope string_scope.

(** The list of additional documents only grows the response. *)
Lemma additional_information_appends
  (infos : list (RetrievalResult.t num)) (response : string) :
  exists tail,
    fold_left
      (fun response info => response ++ "- " ++ RetrievalResult.text info ++ nl)
      infos response
    = response ++ tail.
Proof.
  revert response. induction infos as [| info infos IH]; intros response.
  - exists "". cbn. clear. induction response; simpl; congruence.
  - cbn [fold_left]. destruct (IH (response ++ "- " ++ RetrievalResult.text info ++ nl))
      as [tail ->].
    eexists. rewrite append_assoc_string. reflexivity.
Qed.

(** X7.  On a non-empty array of documents the composer returns a text
    (it neither throws nor logs) that contains the text of the first,
    best ranked, document. *)
Theorem generateResponse_shows_top_document :
  forall (query : string) (top : RetrievalResult.t num)
         (others : list (RetrievalResult.t num)) (log : list Event),
  exists answerText,
    generateResponse query (top :: others) log = (Returned answerText, log) /\
    JSString.includes answerText (RetrievalResult.text top) = true.
Proof.
  intros query top others log. unfold generateResponse.
  cbn [List.length Nat.eqb]. unfold try_catch, bind, lift, first_text, ret.
  eexists. split; [reflexivity |].
  set (response := opening query _ _).
  assert (Htop : JSString.includes
            (if negb (JSString.includes response (RetrievalResult.text top))
             then response ++ RetrievalResult.text top ++ nl ++ nl
             else response) (RetrievalResult.text top) = true).
  { destruct (JSString.includes response (RetrievalResult.text top)) eqn:E;
      cbn [negb]; [exact E | apply includes_middle]. }
  destruct (1 <? S (List.length others))%nat; [| exact Htop].
  match goal with |- context [fold_left ?f ?l ?r] =>
    destruct (additional_information_appends l r) as [tail ->] end.
  rewrite append_assoc_string. apply includes_append_left. exact Htop.
Qed.

Lemma find_no_match {A} (f : A -> bool) (l more : list A) :
  Forall (fun x => f x = false) more -> find f (l ++ more) = find f l.
Proof.
  intros Hmore. induction l as [| x l IH]; cbn [app find].
  - induction Hmore as [| y more Hy _ IH]; cbn [find]; [| rewrite Hy];
      auto.
  - destruct (f x); [reflexivity | exact IH].
Qed.

Lemma filter_no_match {A} (f : A -> bool) (l more : list A) :
  Forall (fun x => f x = false) more -> filter f (l ++ more) = filter f l.
Proof.
  intros Hmore. rewrite filter_app.
  replace (filter f more) with (@nil A); [apply app_nil_r |].
  induction Hmore as [| y more Hy _ IH]; cbn [filter]; [| rewrite Hy]; auto.
Qed.

(** The opening reads the documents beyond a prefix only to find a
    species record or to list the observations. *)
Lemma opening_plain_suffix (query : string) (queryTerms : list string)
  (infos more : list (RetrievalResult.t num)) :
  Forall plain_source more ->
  opening query queryTerms (infos ++ more) = opening query queryTerms infos.
Proof.
  intros Hmore. unfold opening.
  rewrite find_no_match, filter_no_match; [reflexivity | |];
    (eapply Forall_impl; [| exact Hmore]); intros info [Hs Ho]; assumption.
Qed.

(** X8.  The composer shows three documents at most.  Documents beyond
    the third that are neither species records nor user observations (by
    their source label) leave the answer as it is: the answer on the
    whole array is the answer on its first three documents. *)
Theorem generateResponse_reads_three_documents :
  forall (query : string) (first second third : RetrievalResult.t num)
         (more : list (RetrievalResult.t num)) (log : list Event),
    Forall plain_source more ->
    generateResponse query (first :: second :: third :: more) log
    = generateResponse query [first; second; third] log.
Proof.
  intros query first second third more log Hmore.
  unfold generateResponse.
  cbn [List.length Nat.eqb]. unfold try_catch, bind, lift, first_text, ret.
  rewrite (opening_plain_suffix query _ [first; second; third] more Hmore
           : opening query _ (first :: second :: third :: more) = _).
  reflexivity.
Qed.

(** X9.  "found" is listed among the location words and among the
    sighting words, and the location test comes first: a query with
    the word "found" and without species word is answered as a location
    query, with the same text as the query "where", and the
    observations are not listed. *)
Theorem generateResponse_found_is_a_location_word :
  forall (query : string) (top : RetrievalResult.t num)
         (others : list (RetrievalResult.t num)) (log : list Event),
    In "found" (query_terms query) ->
    some_term_in species_words (query_terms query) = false ->
    exists answerText,
      generateResponse query (top :: others) log = (Returned answerText, log) /\
      JSString.startsWith answerText
        "Regarding the habitat and location in Islamabad region:" = true /\
      generateResponse "where" (top :: others) log = (Returned answerText, log).
Proof.
  intros query top others log Hfound Hspecies.
  assert (Hlocation : some_term_in location_words (query_terms query) = true).
  { unfold some_term_in. apply existsb_exists. exists "found".
    split; [exact Hfound | reflexivity]. }
  unfold generateResponse.
  cbn [List.length Nat.eqb]. unfold try_catch, bind, lift, first_text, ret.
  fold (query_terms query).
  assert (Eo : opening query (query_terms query) (top :: others)
               = "Regarding the habitat and location in Islamabad region:"
                 ++ nl ++ nl).
  { unfold opening. rewrite Hspecies, Hlocation. reflexivity. }
  rewrite Eo.
  change (opening "where" (JSString.split_ws (JSString.toLowerCase "where"))
            (top :: others))
    with ("Regarding the habitat and location in Islamabad region:"
          ++ nl ++ nl).
  eexists. split; [reflexivity |]. split; [| reflexivity].
  set (response := "Regarding the habitat and location in Islamabad region:"
                   ++ nl ++ nl).
  assert (Hstart : forall tail,
            JSString.startsWith (response ++ tail)
              "Regarding the habitat and location in Islamabad region:" = true).
  { intros tail. unfold response. rewrite append_assoc_string.
    apply startsWith_prefix. }
  assert (Hresponse : exists tail,
            (if negb (JSString.includes response (RetrievalResult.text top))
             then response ++ RetrievalResult.text top ++ nl ++ nl
             else response) = response ++ tail).
  { destruct (negb _); eexists; [reflexivity |].
    instantiate (1 := ""). clear. induction response; simpl; congruence. }
  destruct Hresponse as [tail1 ->].
  destruct (1 <? S (List.length others))%nat; [| apply Hstart].
  match goal with |- context [fold_left ?f ?l ?r] =>
    destruct (additional_information_appends l r) as [tail ->] end.
  rewrite !append_assoc_string. apply Hstart.
Qed.

End Composer.

Lemma generateResponse_reads_three_documents_witness :
  generateResponse (num := float) "leopards in the hills"
    [RetrievalResult.mk "one" "Internal Knowledge Base" 1%float;
     RetrievalResult.mk "two" "Internal Knowledge Base" 1%float;
     RetrievalResult.mk "three" "Internal Knowledge Base" 1%float;
     RetrievalResult.mk "four" "Internal Knowledge Base" 1%float] []
  = generateResponse "leopards in the hills"
      [RetrievalResult.mk "one" "Internal Knowledge Base" 1%float;
       RetrievalResult.mk "two" "Internal Knowledge Base" 1%float;
       RetrievalResult.mk "three" "Internal Knowledge Base" 1%float] [].
Proof.
  apply (generateResponse_reads_three_documents (num := float)).
  repeat constructor.
Defined.

Lemma generateResponse_found_is_a_location_word_witness :
  exists answerText,
    generateResponse (num := float) "Leopards found here"
      [RetrievalResult.mk "A leopard." "User Observation: leopard" 1%float] []
      = (Returned answerText, []) /\
    JSString.startsWith answerText
      "Regarding the habitat and location in Islamabad region:" = true /\
    generateResponse "where"
      [RetrievalResult.mk "A leopard." "User Observation: leopard" 1%float] []
      = (Returned answerText, []).
Proof.
  apply (generateResponse_found_is_a_location_word (num := float)).
  - vm_compute. tauto.
  - reflexivity.
Defined.

(* ================================================================== *)
(** * The engine over a database that fails *)
(* ================================================================== *)

Section FailingDatabase.
Context {num : Type} `{JSNumber num}.
Variable Number_toString : num -> string.

(** When the three reads fail, each reader answers with the empty
    array and the retrieval returns nothing. *)
Lemma retrieveRelevantInfo_reads_fail (db : DbHandle num) (query : string)
  (log : list Event) :
  reads_fail db ->
  exists log1,
    retrieveRelevantInfo Number_toString (MongoDBStorage db) query log
    = (Returned [], log1).
Proof.
  intros Hfail. destruct db as [d |].
  - destruct Hfail as ((e1 & E1) & (e2 & E2) & (e3 & E3)).
    unfold retrieveRelevantInfo, MongoDBStorage, MongoDBStorage_getAllKnowledge,
      MongoDBStorage_getAllSpecies, MongoDBStorage_getAllObservations.
    cbn [getAllKnowledge getAllSpecies getAllObservations getDb].
    unfold try_catch, bind, await_call, emit, console_error, lift, ret.
    rewrite E1, E2, E3. eexists. reflexivity.
  - eexists. reflexivity.
Qed.

(** X10.  When the database cannot be read (the handle is unset, or the
    driver rejects the three reads), [answerWithRAG] still answers
    every query: the failures are only logged by the store, and the
    answer is the one that the composer makes of the canned fallback
    document alone, whose label is the answer's only source. *)
Theorem answerWithRAG_unreadable_database :
  forall (db : DbHandle num) (query : string) (log : list Event),
    reads_fail db ->
    exists answerText log',
      answerWithRAG Number_toString (MongoDBStorage db) query log
      = (Returned
           (AnswerResult.mk answerText
              ["Internet Search Result (Note: Without internet access, this is general information)"]
              (Some []) (Some [])),
         log') /\
      result (generateResponse query
                [RetrievalResult.mk (internet_text query) internet_source
                                    num_0_6]) []
      = Returned answerText.
Proof.
  intros db query log Hfail.
  destruct (retrieveRelevantInfo_reads_fail db query
              (log ++ [Awaited "retrieveRelevantInfo" query]) Hfail)
    as (log1 & Er).
  destruct (answerWithRAG_with_fallback Number_toString (MongoDBStorage db)
              query log log1 [] Er) as (answerText & Eg & Ea);
    [cbn; lia |].
  exists answerText. eexists. split; [exact Ea |].
  cbn [app] in Eg.
  destruct (generateResponse_returns query
              [RetrievalResult.mk (internet_text query) internet_source
                                  num_0_6] []) as (text' & Eg').
  unfold result. rewrite Eg'. cbn [fst]. f_equal.
  unfold generateResponse in Eg, Eg'. cbn [List.length Nat.eqb] in Eg, Eg'.
  unfold try_catch, bind, lift, first_text, ret in Eg, Eg'.
  congruence.
Qed.

End FailingDatabase.

Lemma answerWithRAG_unreadable_database_witness :
  exists answerText log',
    answerWithRAG print_coordinate (MongoDBStorage None) "leopard" []
    = (Returned
         (AnswerResult.mk answerText
            ["Internet Search Result (Note: Without internet access, this is general information)"]
            (Some []) (Some [])),
       log') /\
    result (generateResponse "leopard"
              [RetrievalResult.mk (internet_text "leopard") internet_source
                                  num_0_6]) []
    = Returned answerText.
Proof.
  apply (answerWithRAG_unreadable_database print_coordinate None "leopard" []).
  exact I.
Defined.

(* ================================================================== *)
(** * Opening the database *)
(* ================================================================== *)

(** X11.  [connectToDatabase] assigns the handle as soon as the
    connection is accepted, before it creates the index.  A call that
    resolves leaves a handle that [getDb] returns; a call that is
    rejected by the creation of the index also does, although the
    caller saw a failure; a call whose connection is rejected leaves the
    handle as it was.  In each case the failure is logged and thrown
    again. *)
Theorem connectToDatabase_assigns_before_index :
  forall {num : Type} (client : MongoClient num) (db : DbHandle num)
         (log : list Event),
    match connectToDatabase client db log with
    | (outcome, db', log') =>
        (forall d, outcome = Returned d -> getDb db' = Returned d) /\
        (forall e,
           client_connect client = Returned tt ->
           observations_createIndex client = Thrown e ->
           outcome = Thrown e /\
           getDb db' = Returned (client_db client) /\
           In (ConsoleError "Error connecting to MongoDB:" e) log') /\
        (forall e,
           client_connect client = Thrown e ->
           outcome = Thrown e /\ db' = db /\
           In (ConsoleError "Error connecting to MongoDB:" e) log')
    end.
Proof.
  intros num client db log. unfold connectToDatabase.
  destruct (client_connect client) as [[] | e1];
    [destruct (observations_createIndex client) as [name | e2] |].
  - split; [| split].
    + intros d E. inversion E. reflexivity.
    + intros e _ E. discriminate.
    + intros e E. discriminate.
  - split; [| split].
    + intros d E. discriminate.
    + intros e _ E. inversion E; subst.
      split; [reflexivity |]. split; [reflexivity |].
      apply in_or_app. right. left. reflexivity.
    + intros e E. discriminate.
  - split; [| split].
    + intros d E. discriminate.
    + intros e E. discriminate.
    + intros e E. inversion E; subst.
      split; [reflexivity |]. split; [reflexivity |].
      apply in_or_app. right. left. reflexivity.
Qed.

(* ================================================================== *)
(** * Starting the server *)
(* ================================================================== *)


(* ================================================================== *)
(** * The points of an observation *)
(* ================================================================== *)

Ltac run_monad :=
  unfold try_catch, await_call, console_error;
  unfold bind, emit, lift, ret, throw; cbv beta.

(** [calculatePoints] returns, and one of three awards. *)
Lemma calculatePoints_returns (storage : IStorageOps float)
  (speciesName : string) (location : float * float) (log : list Event) :
  exists points log',
    calculatePoints storage speciesName location log
      = (Returned points, log') /\
    (points = 10%float \/ points = 25%float \/ points = 35%float).
Proof.
  unfold calculatePoints, try_catch.
  match goal with |- context [match ?body log with _ => _ end] =>
    assert (Hbody : forall points log',
              body log = (Returned points, log') ->
              points = 25%float \/ points = 35%float \/ points = 10%float);
    [| destruct (body log) as [[points | e] log1] eqn:Eb]
  end.
  - run_monad. intros points log'.
    destruct (getSpecies storage speciesName _) as [[[found |] | e] log1];
      [| intros E; inversion E; auto | discriminate].
    match goal with
    | |- context [getObservationsNearLocation storage ?a ?b ?c ?l] =>
        destruct (getObservationsNearLocation storage a b c l)
          as [[nearby | e] log2]
    end; [| discriminate].
    destruct (List.length _ =? 0)%nat; intros E; inversion E; auto.
  - exists points, log1. split; [reflexivity |].
    destruct (Hbody points log1 eq_refl) as [-> | [-> | ->]]; auto.
  - run_monad. eexists _, _. split; [reflexivity |]. auto.
Qed.

(** X13.  Whatever the store does, [calculatePoints] returns (it never
    throws) 10, 25 or 35 points; when the lookup of the species throws,
    it returns the 10 base points and logs the failure. *)
Theorem calculatePoints_awards_10_25_or_35 :
  forall (storage : IStorageOps float) (speciesName : string)
         (location : float * float) (log : list Event),
  exists points log',
    calculatePoints storage speciesName location log
      = (Returned points, log') /\
    (points = 10%float \/ points = 25%float \/ points = 35%float) /\
    (forall e log1,
       getSpecies storage speciesName
         (log ++ [Awaited "storage.getSpecies" speciesName])
         = (Thrown e, log1) ->
       points = 10%float /\
       log' = log1 ++ [ConsoleError "Error calculating points:" e]).
Proof.
  intros storage speciesName location log.
  unfold calculatePoints. run_monad.
  destruct (getSpecies storage speciesName _) as [[[found |] | e] log1] eqn:Es.
  - match goal with
    | |- context [getObservationsNearLocation storage ?a ?b ?c ?l] =>
        destruct (getObservationsNearLocation storage a b c l)
          as [[nearby | e] log2] eqn:En
    end.
    + destruct (List.length _ =? 0)%nat; eexists _, _;
        (split; [reflexivity |]); (split; [| intros e' l' E'; discriminate]).
      * right. left. reflexivity.
      * left. reflexivity.
    + eexists _, _. split; [reflexivity |].
      split; [left; reflexivity | intros e' l' E'; discriminate].
  - eexists _, _. split; [reflexivity |].
    split; [right; right; reflexivity | intros e' l' E'; discriminate].
  - eexists _, _. split; [reflexivity |].
    split; [left; reflexivity |].
    intros e' l' E'. inversion E'; subst. split; reflexivity.
Qed.

(** X14.  Over [MongoDBStorage] the [catch] of [calculatePoints] is
    never entered, since the lookups of the store swallow their
    failures.  When the lookup of the species fails (the handle is
    unset or the driver rejects the query), the store answers [null],
    which reads as a species never seen: the award is 35 points, the
    highest, and not the 10 points meant for an error. *)
Theorem calculatePoints_failed_lookup_awards_35 :
  forall (driver : Driver float) (now : Z) (db : DbHandle float)
         (speciesName : string) (location : float * float)
         (log : list Event),
  exists points new,
    calculatePoints (MongoDBStorageOps driver now db) speciesName location log
      = (Returned points, log ++ new) /\
    Forall (fun ev => ~ points_error_line ev) new /\
    (species_lookup_fails driver db speciesName ->
     points = 35%float /\
     exists e, In (ConsoleError "Error getting species:" e) new).
Proof.
  intros driver now db speciesName location log.
  assert (Hline : forall label e,
            label <> "Error calculating points:" ->
            ~ points_error_line (ConsoleError label e)).
  { intros label e Hl [e' E]. inversion E. contradiction. }
  assert (Hawait : forall fn arg, ~ points_error_line (Awaited fn arg)).
  { intros fn arg [e' E]. discriminate. }
  unfold calculatePoints, MongoDBStorageOps, MongoDBStorage_getSpecies,
    MongoDBStorage_getObservationsNearLocation, species_lookup_fails.
  cbn [getSpecies getObservationsNearLocation]. run_monad.
  destruct db as [d |]; cbn [getDb].
  - destruct (species_findOne_scientificName driver d speciesName)
      as [[found |] | e] eqn:Ef.
    + destruct (observations_find_near driver d (fst location) (snd location)
                  1000%float) as [nearby | e] eqn:En.
      * eexists _, _. rewrite <- !app_assoc. cbn [app].
        split; [reflexivity |]. split.
        -- repeat constructor; auto.
        -- intros [e E]. discriminate.
      * eexists _, _. rewrite <- !app_assoc. cbn [app].
        split; [reflexivity |]. split.
        -- repeat constructor; auto; apply Hline; discriminate.
        -- intros [e' E]. discriminate.
    + eexists _, _. rewrite <- !app_assoc. cbn [app].
      split; [reflexivity |]. split.
      * repeat constructor; auto.
      * intros [e E]. discriminate.
    + eexists _, _. rewrite <- !app_assoc. cbn [app].
      split; [reflexivity |]. split.
      * repeat constructor; auto; apply Hline; discriminate.
      * intros _. split; [reflexivity |]. exists e. right. right. left.
        reflexivity.
  - eexists _, _. rewrite <- !app_assoc. cbn [app].
    split; [reflexivity |]. split.
    + repeat constructor; auto; apply Hline; discriminate.
    + intros _. split; [reflexivity |]. eexists. right. left. reflexivity.
Qed.

Lemma calculatePoints_failed_lookup_awards_35_witness :
  result (calculatePoints (MongoDBStorageOps failing_driver 0 (Some empty_database))
            "Panthera pardus" (73%float, 33%float)) []
  = Returned 35%float.
Proof.
  destruct (calculatePoints_failed_lookup_awards_35 failing_driver 0
              (Some empty_database) "Panthera pardus" (73%float, 33%float) [])
    as (points & new & E & _ & Hfail).
  unfold result. rewrite E. cbn [fst]. f_equal.
  apply Hfail. eexists. reflexivity.
Defined.

(* ================================================================== *)
(** * The routes *)
(* ================================================================== *)

Section RoutesFacts.
Context {num : Type} `{JSNumber num}.
Variable Number_toString : num -> string.

(** The engine's answer always has the two arrays of related
    identifiers, both empty, and at least one source. *)
Lemma answerWithRAG_answer_shape (storage : IStorage num) (query : string)
  (log : list Event) :
  exists answerText sources log',
    answerWithRAG Number_toString storage query log
      = (Returned (AnswerResult.mk answerText sources (Some []) (Some [])),
         log') /\
    sources <> [].
Proof.
  destruct (retrieveRelevantInfo_returns Number_toString storage query
              (log ++ [Awaited "retrieveRelevantInfo" query]))
    as (local & log1 & Er).
  destruct (Nat.lt_ge_cases (List.length local) 2) as [Hlt | Hge].
  - destruct (answerWithRAG_with_fallback Number_toString storage query
                log log1 local Er Hlt) as (answerText & _ & Ea).
    eexists _, _, _. split; [exact Ea |].
    intros E. apply app_eq_nil in E. destruct E; discriminate.
  - destruct (answerWithRAG_without_fallback Number_toString storage query
                log log1 local Er Hge) as (answerText & _ & Ea).
    eexists _, _, _. split; [exact Ea |].
    destruct local; [simpl in Hge; lia | discriminate].
Qed.

(** X15.  The ask route rejects a request without [Authorization]
    header (401) and, behind the middleware, a request without question
    or with the empty question (400).  In both cases nothing is awaited
    and nothing is logged: neither the engine nor the store is
    called. *)
Theorem rag_ask_route_rejects_before_any_call :
  forall (storage : IStorage num) (storageOps : IStorageOps num)
         (authorization question : option string) (log : list Event),
    absent_or_empty authorization = true \/ absent_or_empty question = true ->
    exists status message,
      rag_ask_route Number_toString storage storageOps authorization question
                    log
        = (Returned (Http.respond status (Http.Message message)), log) /\
      (status = 401 /\ message = "Unauthorized" /\
       absent_or_empty authorization = true \/
       status = 400 /\ message = "Question is required" /\
       absent_or_empty authorization = false).
Proof.
  intros storage storageOps authorization question log Hreject.
  unfold rag_ask_route, isAuthenticated.
  destruct (absent_or_empty authorization) eqn:Ea.
  - exists 401, "Unauthorized". split; [reflexivity |]. left. auto.
  - destruct Hreject as [Hr | Hq]; [discriminate |].
    exists 400, "Question is required".
    unfold post_rag_ask, try_catch. rewrite Hq.
    split; [reflexivity |]. right. auto.
Qed.

(** The run of the handler of the ask route on a question. *)
Lemma post_rag_ask_run (storage : IStorage num) (storageOps : IStorageOps num)
  (authorization : option string) (question : string) (log : list Event) :
  question <> "" ->
  exists answer log1,
    answerWithRAG Number_toString storage question
        (log ++ [Awaited "answerWithRAG" question])
      = (Returned answer, log1) /\
    AnswerResult.sources answer <> [] /\
    post_rag_ask Number_toString storage storageOps authorization
                 (Some question) log
    = match createQuery storageOps
              (Query.mk authorization question
                 (AnswerResult.text answer) [] []
                 (AnswerResult.sources answer))
              (log1 ++ [Awaited "storage.createQuery" ""]) with
      | (Returned _, log2) =>
          (Returned
             (Http.respond 200
                (Http.AnswerBody question (AnswerResult.text answer)
                   (AnswerResult.sources answer))),
           log2)
      | (Thrown e, log2) =>
          (Returned
             (Http.respond 500
                (Http.Message "Error processing your question")),
           log2 ++ [ConsoleError "Error processing RAG query:" e])
      end.
Proof.
  intros Hquestion.
  destruct (answerWithRAG_answer_shape storage question
              (log ++ [Awaited "answerWithRAG" question]))
    as (answerText & sources & log1 & Ea & Hsources).
  eexists _, log1. split; [exact Ea |]. split; [exact Hsources |].
  cbn [AnswerResult.text AnswerResult.sources].
  unfold post_rag_ask, absent_or_empty.
  apply String.eqb_neq in Hquestion. rewrite Hquestion.
  run_monad. rewrite Ea.
  cbn [AnswerResult.text AnswerResult.sources
       AnswerResult.relatedObservationIds AnswerResult.relatedSpeciesIds].
  destruct (createQuery storageOps _ _) as [[stored | e] log2];
    reflexivity.
Qed.

(** X16.  For an authenticated request with a question, the ask route
    awaits the engine, which returns an answer with at least one source,
    and then the insertion of the query, the answer's text and its
    sources into the log of queries.  The answer is sent (200, with the
    question, the text and the sources) exactly when that insertion
    resolves; when it throws, the answer is dropped and the route sends
    500 with a fixed message. *)
Theorem rag_ask_route_answers_only_if_logged :
  forall (storage : IStorage num) (storageOps : IStorageOps num)
         (authorization question : string) (log : list Event),
    authorization <> "" -> question <> "" ->
    exists answer log1,
      answerWithRAG Number_toString storage question
          (log ++ [Awaited "answerWithRAG" question])
        = (Returned answer, log1) /\
      AnswerResult.sources answer <> [] /\
      match createQuery storageOps
              (Query.mk (Some authorization) question
                 (AnswerResult.text answer) [] []
                 (AnswerResult.sources answer))
              (log1 ++ [Awaited "storage.createQuery" ""]) with
      | (Returned _, log2) =>
          rag_ask_route Number_toString storage storageOps
            (Some authorization) (Some question) log
          = (Returned
               (Http.respond 200
                  (Http.AnswerBody question (AnswerResult.text answer)
                     (AnswerResult.sources answer))),
             log2)
      | (Thrown e, log2) =>
          rag_ask_route Number_toString storage storageOps
            (Some authorization) (Some question) log
          = (Returned
               (Http.respond 500
                  (Http.Message "Error processing your question")),
             log2 ++ [ConsoleError "Error processing RAG query:" e])
      end.
Proof.
  intros storage storageOps authorization question log Hauth Hquestion.
  destruct (post_rag_ask_run storage storageOps (Some authorization) question
              log Hquestion) as (answer & log1 & Ea & Hsources & Erun).
  exists answer, log1. split; [exact Ea |]. split; [exact Hsources |].
  unfold rag_ask_route, isAuthenticated, absent_or_empty.
  apply String.eqb_neq in Hauth. rewrite Hauth, Erun.
  destruct (createQuery storageOps _ _) as [[stored | e] log2];
    reflexivity.
Qed.

(** X17.  When the query cannot be stored (the handle of the database
    is unset, or the driver rejects the insertion), the ask route sends
    500 to every authenticated request with a question, whatever the
    engine answered: [createQuery] throws again what it caught. *)
Theorem rag_ask_route_fails_when_query_not_stored :
  forall (storage : IStorage num) (driver : Driver num) (now : Z)
         (db : DbHandle num) (authorization question : string)
         (log : list Event),
    authorization <> "" -> question <> "" ->
    insertion_fails driver db ->
    exists e log',
      rag_ask_route Number_toString storage (MongoDBStorageOps driver now db)
        (Some authorization) (Some question) log
      = (Returned
           (Http.respond 500 (Http.Message "Error processing your question")),
         log' ++ [ConsoleError "Error creating query:" e;
                  ConsoleError "Error processing RAG query:" e]).
Proof.
  intros storage driver now db authorization question log Hauth Hquestion
         Hfail.
  destruct (post_rag_ask_run storage (MongoDBStorageOps driver now db)
              (Some authorization) question log Hquestion)
    as (answer & log1 & _ & _ & Hrun).
  unfold rag_ask_route, isAuthenticated, absent_or_empty.
  apply String.eqb_neq in Hauth. rewrite Hauth, Hrun.
  unfold MongoDBStorageOps, MongoDBStorage_createQuery.
  cbn [createQuery]. run_monad.
  destruct db as [d |]; cbn [getDb].
  - destruct (Hfail (Query.mk (Some authorization) question
                       (AnswerResult.text answer) [] []
                       (AnswerResult.sources answer)) now) as [e ->].
    eexists _, _. rewrite <- app_assoc. reflexivity.
  - eexists _, _. rewrite <- app_assoc. reflexivity.
Qed.

(** X18.  Over [MongoDBStorage] the two reading routes, behind the
    middleware, never send 500, since the store swallows its failures.
    For an authenticated request whose reads fail because the handle of
    the database is unset, [GET /api/observations] sends 200 with the
    empty array and [GET /api/species/:name] sends 404 "Species not
    found". *)
Theorem reading_routes_hide_database_failures :
  forall (driver : Driver num) (now : Z) (db : DbHandle num)
         (authorization : option string) (name : string) (log : list Event),
  exists listed found log1 log2,
    observations_route (MongoDBStorage db) authorization log
      = (Returned listed, log1) /\
    species_route (MongoDBStorageOps driver now db) authorization name log
      = (Returned found, log2) /\
    Http.status listed <> 500 /\
    Http.status found <> 500 /\
    (absent_or_empty authorization = false -> db = None ->
     listed = Http.respond 200 (Http.ObservationsBody []) /\
     found = Http.respond 404 (Http.Message "Species not found")).
Proof.
  intros driver now db authorization name log.
  unfold observations_route, species_route, isAuthenticated.
  destruct (absent_or_empty authorization).
  { eexists _, _, _, _. split; [reflexivity |]. split; [reflexivity |].
    cbn. repeat split; discriminate. }
  unfold get_observations, MongoDBStorage, MongoDBStorage_getAllObservations,
    get_species_by_name, MongoDBStorageOps, MongoDBStorage_getSpecies,
    MongoDBStorage_getSpeciesByCommonName.
  cbn [getAllObservations getSpecies getSpeciesByCommonName]. run_monad.
  destruct db as [d |]; cbn [getDb].
  - destruct (observations_docs d) as [observations | e0];
      (destruct (species_findOne_scientificName driver d name)
         as [[found |] | e1];
       [| destruct (species_findOne_commonNames driver d name)
            as [[found |] | e2] ..]);
      eexists _, _, _, _; (split; [reflexivity |]);
      (split; [reflexivity |]); cbn;
      (split; [discriminate |]); (split; [discriminate |]);
      intros _ E; discriminate E.
  - eexists _, _, _, _. split; [reflexivity |]. split; [reflexivity |].
    cbn. split; [discriminate |]. split; [discriminate |].
    intros _ _. split; reflexivity.
Qed.

End RoutesFacts.

Lemma rag_ask_route_rejects_before_any_call_witness :
  exists status message,
    rag_ask_route print_coordinate empty_store
      (MongoDBStorageOps quiet_driver 0 (Some empty_database))
      (Some "user-1") (Some "") []
      = (Returned (Http.respond status (Http.Message message)), []) /\
    (status = 401 /\ message = "Unauthorized" /\
     absent_or_empty (Some "user-1") = true \/
     status = 400 /\ message = "Question is required" /\
     absent_or_empty (Some "user-1") = false).
Proof.
  apply (rag_ask_route_rejects_before_any_call print_coordinate empty_store
           (MongoDBStorageOps quiet_driver 0 (Some empty_database))
           (Some "user-1") (Some "") []).
  right. reflexivity.
Defined.

Lemma rag_ask_route_answers_only_if_logged_witness :
  exists answer log1,
    answerWithRAG print_coordinate empty_store "leopard"
        ([] ++ [Awaited "answerWithRAG" "leopard"])
      = (Returned answer, log1) /\
    AnswerResult.sources answer <> [] /\
    match createQuery (MongoDBStorageOps quiet_driver 0 (Some empty_database))
            (Query.mk (Some "user-1") "leopard"
               (AnswerResult.text answer) [] []
               (AnswerResult.sources answer))
            (log1 ++ [Awaited "storage.createQuery" ""]) with
    | (Returned _, log2) =>
        rag_ask_route print_coordinate empty_store
          (MongoDBStorageOps quiet_driver 0 (Some empty_database))
          (Some "user-1") (Some "leopard") []
        = (Returned
             (Http.respond 200
                (Http.AnswerBody "leopard" (AnswerResult.text answer)
                   (AnswerResult.sources answer))),
           log2)
    | (Thrown e, log2) =>
        rag_ask_route print_coordinate empty_store
          (MongoDBStorageOps quiet_driver 0 (Some empty_database))
          (Some "user-1") (Some "leopard") []
        = (Returned
             (Http.respond 500
                (Http.Message "Error processing your question")),
           log2 ++ [ConsoleError "Error processing RAG query:" e])
    end.
Proof.
  apply (rag_ask_route_answers_only_if_logged print_coordinate empty_store
           (MongoDBStorageOps quiet_driver 0 (Some empty_database))
           "user-1" "leopard" []); discriminate.
Defined.

Lemma rag_ask_route_fails_when_query_not_stored_witness :
  exists e log',
    rag_ask_route print_coordinate empty_store
      (MongoDBStorageOps failing_driver 0 (Some empty_database))
      (Some "user-1") (Some "leopard") []
    = (Returned
         (Http.respond 500 (Http.Message "Error processing your question")),
       log' ++ [ConsoleError "Error creating query:" e;
                ConsoleError "Error processing RAG query:" e]).
Proof.
  apply (rag_ask_route_fails_when_query_not_stored print_coordinate empty_store
           failing_driver 0 (Some empty_database) "user-1" "leopard" []);
    [discriminate | discriminate |].
  intros queryData now. eexists. reflexivity.
Defined.

(* ================================================================== *)
(** * The image classifier *)
(* ================================================================== *)

Section ClassMap.
#[local] Open Scope string_scope.

(** Lower-casing leaves no capital letter of [A-Z]. *)
Lemma lower_char_not_capital (c u : ascii) :
  JSString.between 65 90 (JSString.charCode u) = true ->
  Ascii.eqb u (JSString.lower_char c) = false.
Proof.
  intros Hu. apply Ascii.eqb_neq. intros ->. revert Hu.
  destruct c as [[] [] [] [] [] [] [] []]; vm_compute; discriminate.
Qed.

Lemma toLowerCase_excludes_capital (s sub : string) (u : ascii) :
  JSString.between 65 90 (JSString.charCode u) = true ->
  JSString.includes (JSString.toLowerCase s) (String u sub) = false.
Proof.
  intros Hu. induction s as [| c s IH].
  - reflexivity.
  - cbn [JSString.toLowerCase JSString.includes JSString.startsWith].
    rewrite (lower_char_not_capital c u Hu), IH. reflexivity.
Qed.

(** Walks down the keys of [classMap], in order: one goal per key that
    the class name includes and none of the keys before it, and a last
    goal in which it includes none. *)
Ltac walk_keys className keys :=
  lazymatch keys with
  | nil => idtac
  | cons ?key ?keys' =>
      destruct (JSString.includes className key) eqn:?;
      [| walk_keys className keys']
  end.

Ltac walk_classMap className :=
  let keys := eval cbv in (map fst ImageProcessor.classMap) in
  unfold ImageProcessor.matching_key, ImageProcessor.classMap,
    ImageProcessor.default_class;
  cbn [find fst];
  walk_keys className keys.

(** The keys that no lower-cased class name selects. *)
Lemma matching_key_never (className : string) :
  let lowered := JSString.toLowerCase className in
  forall key mapped,
    ImageProcessor.matching_key lowered = Some (key, mapped) ->
    key <> "Egyptian cat" /\ key <> "Persian cat" /\ key <> "mantis".
Proof.
  intros lowered key mapped.
  assert (HE : JSString.includes lowered "Egyptian cat" = false)
    by (apply toLowerCase_excludes_capital; reflexivity).
  assert (HP : JSString.includes lowered "Persian cat" = false)
    by (apply toLowerCase_excludes_capital; reflexivity).
  assert (Hm : JSString.includes lowered "mantis" = true ->
               JSString.includes lowered "ant" = true).
  { intros Hs. eapply includes_trans; [exact Hs | reflexivity]. }
  generalize dependent lowered. intros lowered HE HP Hm.
  walk_classMap lowered;
    try (intros E; inversion E; subst;
         repeat split; discriminate);
    try congruence.
  all: try (specialize (Hm eq_refl); congruence).
Qed.

(** X19.  No class name of MobileNet selects the entries 'Egyptian
    cat', 'Persian cat' and 'mantis' of [classMap]: the class name is
    lower-cased before the keys are tried, which the two capitalised
    keys never match, and every name that includes "mantis" includes
    "ant", a key that comes before. *)
Theorem classMap_entries_never_selected :
  forall className : string,
    let lowered := JSString.toLowerCase className in
    (forall mapped,
       ImageProcessor.matching_key lowered <> Some ("Egyptian cat", mapped)) /\
    (forall mapped,
       ImageProcessor.matching_key lowered <> Some ("Persian cat", mapped)) /\
    (forall mapped,
       ImageProcessor.matching_key lowered <> Some ("mantis", mapped)).
Proof.
  intros className lowered.
  repeat split; intros mapped E;
    destruct (matching_key_never className _ _ E) as (H1 & H2 & H3);
    congruence.
Qed.

(** The class of a name that includes "ant" is an animal of the map,
    and not the praying mantis. *)
Lemma map_class_ant (className : string) :
  JSString.includes className "ant" = true ->
  ImageProcessor.type (ImageProcessor.map_class className) = Species.animal /\
  ImageProcessor.name (ImageProcessor.map_class className)
    <> "Unidentified Plant" /\
  ImageProcessor.name (ImageProcessor.map_class className)
    <> "Praying Mantis".
Proof.
  intros Hant. unfold ImageProcessor.map_class.
  walk_classMap className;
    try (cbv iota beta; cbn [ImageProcessor.type ImageProcessor.name];
         split; [reflexivity | split; discriminate]).
  all: congruence.
Qed.

(** X20.  A class name that includes "plant" (it then includes "ant")
    is mapped to an animal: the first matching key of [classMap] is
    'ant' or a key before it, all of which are animals, and the keyword
    'plant' is never consulted. *)
Theorem map_class_plant_is_an_animal :
  forall className : string,
    JSString.includes (JSString.toLowerCase className) "plant" = true ->
    ImageProcessor.type
      (ImageProcessor.map_class (JSString.toLowerCase className))
      = Species.animal /\
    ImageProcessor.name
      (ImageProcessor.map_class (JSString.toLowerCase className))
      <> "Unidentified Plant".
Proof.
  intros className Hplant.
  destruct (map_class_ant (JSString.toLowerCase className)) as (Ht & Hn & _).
  - eapply includes_trans; [exact Hplant | reflexivity].
  - split; assumption.
Qed.

Lemma map_class_plant_is_an_animal_witness :
  ImageProcessor.type
    (ImageProcessor.map_class (JSString.toLowerCase "Pitcher Plant"))
    = Species.animal /\
  ImageProcessor.name
    (ImageProcessor.map_class (JSString.toLowerCase "Pitcher Plant"))
    <> "Unidentified Plant".
Proof.
  apply (map_class_plant_is_an_animal "Pitcher Plant"). reflexivity.
Defined.


Section IdentifyFacts.
Context {Model Buffer Tensor : Type}.
Variable runtime : ImageProcessor.Runtime Model Buffer Tensor.

(** [identifySpecies] returns: its [catch] answers every failure. *)
Lemma identifySpecies_returns (model : option Model) (imagePath : string)
  (log : list Event) :
  exists identification log',
    ImageProcessor.identifySpecies runtime model imagePath log
      = (Returned identification, log').
Proof.
  unfold ImageProcessor.identifySpecies, try_catch.
  match goal with |- context [match ?body log with _ => _ end] =>
    destruct (body log) as [[identification | e] log1]
  end; eexists _, _; reflexivity.
Qed.


End IdentifyFacts.

End ClassMap.

(* ================================================================== *)
(** * Registration and the lookup of one observation *)
(* ================================================================== *)

Section Lookups.
Context {num : Type}.
Variable driver : Driver num.

(** X22.  Over [MongoDBStorage], when the route of registration answers
    201, the driver has inserted the user with the password as it was
    received, beside the user name and the e-mail; the response carries
    the user name, the e-mail, the two dates and the id.  The lookup by
    e-mail that guards the insertion had found no user or had failed: a
    failure of the lookup, which the store answers with [null], does
    not stop the registration. *)
Theorem registration_inserts_password_as_received :
  forall (now : Z) (db : DbHandle num) (username email password : option string)
         (log : list Event) (body : Http.Body num),
    result (post_users_register (MongoDBStorageOps driver now db)
              username email password) log
      = Returned (Http.respond 201 body) ->
    exists d _id,
      db = Some d /\
      users_insertOne driver d (User.mk username email password) now
        = Returned _id /\
      body = Http.UserBody username email now (Some now) _id /\
      (users_findOne_email driver d email = Returned None \/
       exists e, users_findOne_email driver d email = Thrown e).
Proof.
  intros now db username email password log body.
  unfold result, post_users_register, MongoDBStorageOps,
    MongoDBStorage_getUserByEmail, MongoDBStorage_createUser.
  cbn [getUserByEmail createUser]. run_monad.
  destruct db as [d |]; cbn [getDb]; [| discriminate].
  destruct (users_findOne_email driver d email) as [[existing |] | e] eqn:Ef;
    [discriminate | |];
    (destruct (users_insertOne driver d (User.mk username email password) now)
       as [_id | e'] eqn:Ei; [| discriminate]);
    cbn; intros E; inversion E; subst; exists d, _id;
    (split; [reflexivity |]); (split; [exact Ei |]);
    (split; [reflexivity |]).
  - left. exact Ef.
  - right. exists e. exact Ef.
Qed.

(** X23.  Over [MongoDBStorage] the lookup of one observation, behind
    the middleware, never sends 500.  For an authenticated request it
    sends 200 or 404, and 404 "Observation not found" when the id of
    the request is no [ObjectId] or the handle of the database is
    unset, since the store swallows both failures. *)
Theorem observation_route_hides_failures :
  forall (now : Z) (db : DbHandle num) (authorization : option string)
         (id : string) (log : list Event),
  exists response log',
    observation_route (MongoDBStorageOps driver now db) authorization id log
      = (Returned response, log') /\
    Http.status response <> 500 /\
    (absent_or_empty authorization = false ->
     (Http.status response = 200 \/ Http.status response = 404) /\
     (db = None \/ (exists e, ObjectId_new driver id = Thrown e) ->
      response = Http.respond 404 (Http.Message "Observation not found"))).
Proof.
  intros now db authorization id log.
  unfold observation_route, isAuthenticated.
  destruct (absent_or_empty authorization).
  { eexists _, _. split; [reflexivity |]. cbn.
    split; [discriminate | intros E; discriminate E]. }
  unfold get_observation_by_id, MongoDBStorageOps, MongoDBStorage_getObservation.
  cbn [getObservation]. run_monad.
  destruct db as [d |]; cbn [getDb].
  - destruct (ObjectId_new driver id) as [_id | e1] eqn:Eid.
    + destruct (observations_findOne_id driver d _id) as [[found |] | e2];
        eexists _, _; (split; [reflexivity |]); cbn;
        (split; [discriminate |]); intros _;
        (split; [auto |]); intros [E | [e E]]; discriminate.
    + eexists _, _. split; [reflexivity |]. cbn.
      split; [discriminate |]. intros _. auto.
  - eexists _, _. split; [reflexivity |]. cbn.
    split; [discriminate |]. intros _. auto.
Qed.

End Lookups.

Lemma registration_inserts_password_as_received_witness :
  exists d _id,
    Some empty_database = Some d /\
    users_insertOne blind_driver d
      (User.mk (Some "amna") (Some "amna@example.org") (Some "margalla-2024"))
      1700000000000
      = Returned _id /\
    Http.UserBody (Some "amna") (Some "amna@example.org") 1700000000000
      (Some 1700000000000%Z) "65f0c0ffee0000000000000a"
      = Http.UserBody (num := float) (Some "amna") (Some "amna@example.org")
          1700000000000 (Some 1700000000000%Z) _id /\
    (users_findOne_email blind_driver d (Some "amna@example.org")
       = Returned None \/
     exists e,
       users_findOne_email blind_driver d (Some "amna@example.org")
         = Thrown e).
Proof.
  apply (registration_inserts_password_as_received blind_driver
           1700000000000 (Some empty_database)
           (Some "amna") (Some "amna@example.org") (Some "margalla-2024") []).
  reflexivity.
Defined.

(* ================================================================== *)
(** * The retrieval as a pipeline *)
(* ================================================================== *)

Section CaseAndPunctuation.

Lemma lower_char_idempotent (c : ascii) :
  JSString.lower_char (JSString.lower_char c) = JSString.lower_char c.
Proof. destruct c as [[] [] [] [] [] [] [] []]; reflexivity. Qed.

Lemma lower_char_class (c : ascii) :
  JSString.is_word_char (JSString.lower_char c) = JSString.is_word_char c /\
  JSString.is_space (JSString.lower_char c) = JSString.is_space c.
Proof. destruct c as [[] [] [] [] [] [] [] []]; split; reflexivity. Qed.

Lemma toLowerCase_idempotent (s : string) :
  JSString.toLowerCase (JSString.toLowerCase s) = JSString.toLowerCase s.
Proof.
  induction s as [| c s IH]; cbn [JSString.toLowerCase]; [reflexivity |].
  rewrite lower_char_idempotent, IH. reflexivity.
Qed.

Lemma strip_non_word_toLowerCase (s : string) :
  JSString.strip_non_word (JSString.toLowerCase s)
  = JSString.toLowerCase (JSString.strip_non_word s).
Proof.
  induction s as [| c s IH];
    cbn [JSString.toLowerCase JSString.strip_non_word]; [reflexivity |].
  destruct (lower_char_class c) as [-> ->].
  destruct (JSString.is_word_char c || JSString.is_space c);
    cbn [JSString.toLowerCase]; rewrite IH; reflexivity.
Qed.

Lemma strip_non_word_idempotent (s : string) :
  JSString.strip_non_word (JSString.strip_non_word s)
  = JSString.strip_non_word s.
Proof.
  induction s as [| c s IH]; cbn [JSString.strip_non_word]; [reflexivity |].
  destruct (JSString.is_word_char c || JSString.is_space c) eqn:E;
    cbn [JSString.strip_non_word]; [rewrite E, IH |]; auto.
Qed.

Lemma tokenize_toLowerCase (text : string) :
  tokenize (JSString.toLowerCase text) = tokenize text.
Proof. unfold tokenize. rewrite toLowerCase_idempotent. reflexivity. Qed.

Lemma tokenize_strip_non_word (text : string) :
  tokenize (JSString.strip_non_word text) = tokenize text.
Proof.
  unfold tokenize.
  rewrite <- strip_non_word_toLowerCase, strip_non_word_idempotent.
  reflexivity.
Qed.

End CaseAndPunctuation.

Section PipelineFacts.
Context {num : Type} `{JSNumber num}.
Variable Number_toString : num -> string.

(** The embedding reads the text through its tokens only. *)
Lemma createEmbedding_tokens (text text' : string) :
  tokenize text = tokenize text' ->
  createEmbedding (num := num) text = createEmbedding text'.
Proof.
  intros E. unfold createEmbedding, word_frequencies. rewrite E. reflexivity.
Qed.

(** X24.  For a query whose characters are Latin-1 (code units below
    256, the strings of this model), the retrieval does not depend on
    the case of the letters nor on the punctuation: the lower-cased
    query, and the query stripped of every character that is neither
    an unaccented letter, a digit, an underscore nor white space,
    retrieve what the query retrieves, with the same scores, whatever
    the store.  Nothing is stated of a query with a character beyond
    Latin-1, where lower-casing can turn a character that is stripped
    into a letter that is kept. *)
Theorem retrieveRelevantInfo_ignores_case_and_punctuation :
  forall (storage : IStorage num) (query : string) (log : list Event),
    retrieveRelevantInfo Number_toString storage (JSString.toLowerCase query)
                         log
      = retrieveRelevantInfo Number_toString storage query log /\
    retrieveRelevantInfo Number_toString storage
                         (JSString.strip_non_word query) log
      = retrieveRelevantInfo Number_toString storage query log.
Proof.
  intros storage query log. unfold retrieveRelevantInfo.
  rewrite (createEmbedding_tokens _ query (tokenize_toLowerCase query)).
  rewrite (createEmbedding_tokens _ query (tokenize_strip_non_word query)).
  split; reflexivity.
Qed.

(** A scoring loop appends the relevant documents of its candidates, in
    order, and neither throws nor logs. *)
Lemma scoring_loop_run {A} (query : string) (to_embed text source : A -> string)
  (l : list A) (results : list (RetrievalResult.t num)) (log : list Event) :
  for_of l
    (fun results x =>
       score_and_push (createEmbedding query) (to_embed x) (text x) (source x)
                      results)
    results log
  = (Returned
       (results
        ++ flat_map (relevant query)
             (map (fun x => mkCandidate (to_embed x) (text x) (source x)) l)),
     log).
Proof.
  revert results. induction l as [| x l IH]; intros results.
  - cbn. rewrite app_nil_r. reflexivity.
  - cbn [for_of map flat_map]. unfold bind. rewrite score_and_push_run.
    rewrite IH. unfold relevant at 2. cbn [embedded shown label].
    rewrite calculateSimilarity_embeddings.
    cbv zeta.
    destruct (num_gt _ num_0_2); rewrite <- ?app_assoc; reflexivity.
Qed.

(** A reader of [MongoDBStorage] returns the readable documents. *)
Lemma reader_run {A} (db : DbHandle num) (docs : Db num -> Outcome (list A))
  (collection label : string) (log : list Event) :
  exists log',
    try_catch
      (d <- lift (getDb db) ;;
       found <- await_call "find.toArray" collection (lift (docs d)) ;;
       ret found)
      (fun error => console_error label error ;;; ret []) log
    = (Returned (readable docs db), log').
Proof.
  unfold readable. run_monad. destruct db as [d |]; cbn [getDb].
  - destruct (docs d); eexists; reflexivity.
  - eexists. reflexivity.
Qed.

(** X25.  Over [MongoDBStorage], for a database whose documents have
    the types of the schema (the records of this model: the common
    names of a species are an array of strings, the location of an
    observation holds two coordinates), whether its collections can be
    read or not, the retrieval is a pipeline: the candidates are the
    knowledge entries, then the species, then the first fifty
    observations that can be read; each is scored against the query
    and kept when its similarity exceeds 0.2; the documents kept are
    sorted with the comparator of descending score and the first five
    are returned.  Nothing is stated of a database that holds a document
    of another shape, such as a species whose [commonNames] is not an
    array, on which building the text throws. *)
Theorem retrieveRelevantInfo_is_a_pipeline :
  forall (db : DbHandle num) (query : string) (log : list Event),
    result (retrieveRelevantInfo Number_toString (MongoDBStorage db) query) log
    = Returned
        (Array_slice
           (Array_sort by_score_descending
              (flat_map (relevant query) (candidates Number_toString db)))
           0 5).
Proof.
  intros db query log. unfold result, retrieveRelevantInfo, MongoDBStorage.
  cbn [getAllKnowledge getAllSpecies getAllObservations].
  unfold MongoDBStorage_getAllKnowledge, MongoDBStorage_getAllSpecies,
    MongoDBStorage_getAllObservations.
  unfold try_catch at 1. unfold bind at 1. unfold await_call at 1.
  unfold bind at 1. unfold emit at 1.
  destruct (reader_run db knowledge_docs "knowledge"
              "Error getting all knowledge:"
              (log ++ [Awaited "storage.getAllKnowledge" ""])) as [log1 ->].
  unfold bind at 1. rewrite scoring_loop_run.
  unfold bind at 1. unfold await_call at 1. unfold bind at 1.
  unfold emit at 1.
  destruct (reader_run db species_docs "species" "Error getting all species:"
              (log1 ++ [Awaited "storage.getAllSpecies" ""])) as [log2 ->].
  unfold bind at 1. rewrite scoring_loop_run.
  unfold bind at 1. unfold await_call at 1. unfold bind at 1.
  unfold emit at 1.
  destruct (reader_run db observations_docs "observations"
              "Error getting all observations:"
              (log2 ++ [Awaited "storage.getAllObservations" ""]))
    as [log3 ->].
  unfold bind at 1. rewrite scoring_loop_run.
  unfold ret. cbn [fst app]. unfold candidates.
  rewrite !flat_map_app. rewrite <- app_assoc.
  unfold Array_slice at 2. cbn [skipn Nat.sub].
  reflexivity.
Qed.

End PipelineFacts.

(* ================================================================== *)
(** * The similarity is symmetric *)
(* ================================================================== *)

(** The product of two binary floating-point numbers does not depend on
    their order: the signs are combined by exclusive or, the mantissas
    multiplied and the exponents added before the one rounding. *)
Lemma SFmul_comm (prec emax : Z) (x y : spec_float) :
  SFmul prec emax x y = SFmul prec emax y x.
Proof.
  destruct x as [sx | sx | | sx mx ex], y as [sy | sy | | sy my ey];
    cbn [SFmul]; try reflexivity;
    try (rewrite (xorb_comm sx sy); reflexivity).
  rewrite (xorb_comm sx sy), (Pos.mul_comm mx my), (Z.add_comm ex ey).
  reflexivity.
Qed.

Lemma float_mul_comm (x y : float) : PrimFloat.mul x y = PrimFloat.mul y x.
Proof. apply Prim2SF_inj. rewrite !mul_spec. apply SFmul_comm. Qed.

Lemma ideal_mul_comm (x y : ideal) :
  ideal_lift2 Rmult x y = ideal_lift2 Rmult y x.
Proof.
  destruct x as [| x], y as [| y]; cbn; try reflexivity.
  f_equal. apply Rmult_comm.
Qed.

Section Symmetry.
Context {num : Type} `{JSNumber num}.
Hypothesis num_mul_comm : forall x y : num, num_mul x y = num_mul y x.

(** With a product that commutes, the two orders of the arguments run
    the same loop on the same products. *)
Lemma calculateSimilarity_comm (a b : list (jsval num)) :
  calculateSimilarity a b = calculateSimilarity b a.
Proof.
  unfold calculateSimilarity. rewrite (Nat.eqb_sym (List.length b)).
  destruct (List.length a =? List.length b)%nat eqn:E; [| reflexivity].
  apply Nat.eqb_eq in E. rewrite <- E. cbn [negb]. f_equal.
  generalize (seq 0 (List.length a)) (@num_zero num _).
  intros l. induction l as [| i l IH]; intros acc; [reflexivity |].
  cbn [fold_left].
  replace (js_times (array_get b i) (array_get a i))
    with (js_times (array_get a i) (array_get b i))
    by (unfold js_times; apply num_mul_comm).
  apply IH.
Qed.

End Symmetry.

(** X26.  The similarity does not depend on the order of its two
    arguments, on the doubles as on the ideal numbers: for all arrays
    [a] and [b], of embeddings or not, [calculateSimilarity(a, b)] and
    [calculateSimilarity(b, a)] return the same number, or both throw
    the dimension error. *)
Theorem calculateSimilarity_symmetric :
  (forall a b : list (jsval float),
     calculateSimilarity a b = calculateSimilarity b a) /\
  (forall a b : list (jsval ideal),
     calculateSimilarity a b = calculateSimilarity b a).
Proof.
  split; intros a b.
  - apply calculateSimilarity_comm. exact float_mul_comm.
  - apply calculateSimilarity_comm. exact ideal_mul_comm.
Qed.

(* ================================================================== *)
(** * The route that records an observation *)
(* ================================================================== *)

Section ObservationRouteFacts.
Context {Model Buffer Tensor : Type}.
Variable runtime : ImageProcessor.Runtime Model Buffer Tensor.
Variable model : option Model.
Variable parseFloat : option string -> float.
Variable JSON_parse : string -> Outcome (list string).
Variable Number_toString : float -> string.
Variable driver : Driver float.
#[local] Open Scope string_scope.

(** X27.  Over [MongoDBStorage], when the route that records an
    observation answers 201, the request was authenticated and the
    driver has inserted an observation under the value of the
    [Authorization] header as user id; the points stored with it are
    10, 25 or 35, and they are the points that the message announces.
    When the request names the species, the observation bears that name
    with the default confidence 0.7. *)
Theorem post_observations_announces_the_stored_points :
  forall (now : Z) (db : DbHandle float) (authorization : option string)
         (file : option (string * string))
         (speciesName commonNames description latitude longitude
            : option string)
         (log : list Event) (body : Http.Body float),
    result (post_observations_route runtime model parseFloat JSON_parse
              Number_toString (MongoDBStorageOps driver now db)
              authorization file speciesName commonNames description
              latitude longitude) log
      = Returned (Http.respond 201 body) ->
    exists userId observationData _id d,
      authorization = Some userId /\ userId <> "" /\
      db = Some d /\
      observations_insertOne driver d observationData now = Returned _id /\
      body = Http.ObservationCreated
               (Inserted.mk observationData now (Some now) _id)
               ("Observation recorded successfully! You earned "
                ++ Number_toString
                     (ObservationData.pointsAwarded observationData)
                ++ " points.") /\
      ObservationData.userId observationData = userId /\
      (ObservationData.pointsAwarded observationData = 10%float \/
       ObservationData.pointsAwarded observationData = 25%float \/
       ObservationData.pointsAwarded observationData = 35%float) /\
      (forall name,
         speciesName = Some name -> name <> "" ->
         ObservationData.speciesName observationData = name /\
         ObservationData.identificationConfidence observationData
           = 0x1.6666666666666p-1%float).
Proof.
  intros now db authorization file speciesName commonNames description
         latitude longitude log body.
  unfold result, post_observations_route, isAuthenticated.
  destruct authorization as [userId |]; [| discriminate].
  cbn [absent_or_empty].
  destruct (String.eqb userId "") eqn:Eu; [discriminate |].
  apply String.eqb_neq in Eu.
  unfold post_observations.
  destruct file as [[file_path file_filename] |]; [| discriminate].
  unfold MongoDBStorageOps at 2 3 4 5.
  cbn [createObservation updateUserPoints getSpecies createSpecies].
  unfold MongoDBStorage_createObservation, MongoDBStorage_updateUserPoints,
    MongoDBStorage_getSpecies, MongoDBStorage_createSpecies.
  run_monad.
  assert (Hnamed : forall (identifiedSpecies : string) (confidence : float),
            absent_or_empty speciesName = false ->
            identifiedSpecies
              = match speciesName with Some name => name | None => "" end ->
            confidence = 0x1.6666666666666p-1%float ->
            forall name, speciesName = Some name -> name <> "" ->
                         identifiedSpecies = name /\
                         confidence = 0x1.6666666666666p-1%float).
  { intros identifiedSpecies confidence _ -> -> name -> _. auto. }
  assert (Hclassified : forall (identifiedSpecies : string) (confidence : float),
            absent_or_empty speciesName = true ->
            forall name, speciesName = Some name -> name <> "" ->
                         identifiedSpecies = name /\
                         confidence = 0x1.6666666666666p-1%float).
  { intros identifiedSpecies confidence Ha name -> Hn. cbn in Ha.
    apply String.eqb_eq in Ha. contradiction. }
  destruct (absent_or_empty speciesName) eqn:Es.
  - match goal with
    | |- context [ImageProcessor.identifySpecies runtime model ?p ?l] =>
        destruct (identifySpecies_returns runtime model p l)
          as (identification & log1 & Ei);
        rewrite Ei
    end.
    match goal with
    | |- context [calculatePoints ?s ?n ?loc ?l] =>
        destruct (calculatePoints_returns s n loc l)
          as (points & log2 & Ep & Hpoints);
        rewrite Ep
    end.
    destruct (parse_commonNames JSON_parse commonNames) as [names | e0];
      [| discriminate].
    destruct db as [d |]; cbn [getDb]; [| discriminate].
    match goal with
    | |- context [observations_insertOne driver d ?o now] =>
        destruct (observations_insertOne driver d o now) as [_id | e1] eqn:Eo
    end; [| discriminate].
    destruct (ObjectId_new driver userId) as [user_id | e2];
      [match goal with
       | |- context [users_findOneAndUpdate_points driver d ?u ?p now] =>
           destruct (users_findOneAndUpdate_points driver d u p now)
             as [updated | e3]
       end |];
      (match goal with
       | |- context [species_findOne_scientificName driver d ?n] =>
           destruct (species_findOne_scientificName driver d n)
             as [[existing |] | e4]
       end;
       [| match goal with
          | |- context [species_insertOne driver d ?sp now] =>
              destruct (species_insertOne driver d sp now) as [sid | e5]
          end ..]);
      try discriminate;
      intros E; inversion E; subst; clear E;
      eexists userId, _, _id, d;
      (split; [reflexivity |]); (split; [exact Eu |]);
      (split; [reflexivity |]); (split; [exact Eo |]);
      (split; [reflexivity |]); (split; [reflexivity |]);
      (split; [exact Hpoints |]);
      apply Hclassified; reflexivity.
  - match goal with
    | |- context [calculatePoints ?s ?n ?loc ?l] =>
        destruct (calculatePoints_returns s n loc l)
          as (points & log2 & Ep & Hpoints);
        rewrite Ep
    end.
    destruct (parse_commonNames JSON_parse commonNames) as [names | e0];
      [| discriminate].
    destruct db as [d |]; cbn [getDb]; [| discriminate].
    match goal with
    | |- context [observations_insertOne driver d ?o now] =>
        destruct (observations_insertOne driver d o now) as [_id | e1] eqn:Eo
    end; [| discriminate].
    destruct (ObjectId_new driver userId) as [user_id | e2];
      [match goal with
       | |- context [users_findOneAndUpdate_points driver d ?u ?p now] =>
           destruct (users_findOneAndUpdate_points driver d u p now)
             as [updated | e3]
       end |];
      (match goal with
       | |- context [species_findOne_scientificName driver d ?n] =>
           destruct (species_findOne_scientificName driver d n)
             as [[existing |] | e4]
       end;
       [| match goal with
          | |- context [species_insertOne driver d ?sp now] =>
              destruct (species_insertOne driver d sp now) as [sid | e5]
          end ..]);
      try discriminate;
      intros E; inversion E; subst; clear E;
      eexists userId, _, _id, d;
      (split; [reflexivity |]); (split; [exact Eu |]);
      (split; [reflexivity |]); (split; [exact Eo |]);
      (split; [reflexivity |]); (split; [reflexivity |]);
      (split; [exact Hpoints |]);
      apply Hnamed; reflexivity.
Qed.

(** X28.  Over [MongoDBStorage], what the route that records an
    observation answers does not depend on the crediting of the points:
    [updateUserPoints] swallows its failures and the route does not
    read what it returns, so that the response is the same whether the
    [Authorization] header is an [ObjectId] or not and whether the
    update of the user is accepted, rejected or finds no user. *)
Theorem post_observations_ignores_the_crediting :
  forall (new_id : string -> Outcome string)
         (update : Db float -> string -> float -> Z
                   -> Outcome (option (Inserted.t User.t)))
         (now : Z) (db : DbHandle float) (authorization : option string)
         (file : option (string * string))
         (speciesName commonNames description latitude longitude
            : option string)
         (log : list Event),
    result (post_observations_route runtime model parseFloat JSON_parse
              Number_toString
              (MongoDBStorageOps (with_update driver new_id update) now db)
              authorization file speciesName commonNames description
              latitude longitude) log
    = result (post_observations_route runtime model parseFloat JSON_parse
                Number_toString (MongoDBStorageOps driver now db)
                authorization file speciesName commonNames description
                latitude longitude) log.
Proof.
  intros new_id update now db authorization file speciesName commonNames
         description latitude longitude log.
  unfold result, post_observations_route, isAuthenticated.
  destruct (absent_or_empty authorization); [reflexivity |].
  unfold post_observations.
  destruct file as [[file_path file_filename] |]; [| reflexivity].
  unfold calculatePoints, MongoDBStorageOps.
  cbn [createObservation updateUserPoints getSpecies createSpecies
       getObservationsNearLocation].
  unfold MongoDBStorage_createObservation, MongoDBStorage_updateUserPoints,
    MongoDBStorage_getSpecies, MongoDBStorage_createSpecies,
    MongoDBStorage_getObservationsNearLocation.
  cbn [with_update ObjectId_new users_findOneAndUpdate_points
       observations_insertOne species_findOne_scientificName
       species_insertOne observations_find_near].
  run_monad.
  destruct db as [d |]; cbn [getDb];
    (destruct (absent_or_empty speciesName);
     [match goal with
      | |- context [ImageProcessor.identifySpecies runtime model ?p ?l] =>
          destruct (ImageProcessor.identifySpecies runtime model p l)
            as [[identification | e] log1]
      end; [| reflexivity] |]);
    cbv beta iota;
    repeat first
      [ match goal with
        | |- context [species_findOne_scientificName driver d ?n] =>
            destruct (species_findOne_scientificName driver d n)
              as [[existing |] | e1]; cbv beta iota
        end
      | match goal with
        | |- context [observations_find_near driver d ?a ?b ?c] =>
            destruct (observations_find_near driver d a b c)
              as [nearby | e2]; cbv beta iota
        end
      | match goal with
        | |- context [(List.length ?l =? 0)%nat] =>
            destruct (List.length l =? 0)%nat; cbv beta iota
        end
      | match goal with
        | |- context [parse_commonNames JSON_parse commonNames] =>
            destruct (parse_commonNames JSON_parse commonNames)
              as [names | e3]; cbv beta iota
        end
      | match goal with
        | |- context [observations_insertOne driver d ?o now] =>
            destruct (observations_insertOne driver d o now)
              as [_id | e4]; cbv beta iota
        end
      | match goal with
        | |- context [new_id ?u] =>
            destruct (new_id u) as [id1 | e5]; cbv beta iota
        end
      | match goal with
        | |- context [update d ?u ?p now] =>
            destruct (update d u p now) as [updated1 | e6]; cbv beta iota
        end
      | match goal with
        | |- context [ObjectId_new driver ?u] =>
            destruct (ObjectId_new driver u) as [id2 | e7]; cbv beta iota
        end
      | match goal with
        | |- context [users_findOneAndUpdate_points driver d ?u ?p now] =>
            destruct (users_findOneAndUpdate_points driver d u p now)
              as [updated2 | e8]; cbv beta iota
        end
      | match goal with
        | |- context [species_insertOne driver d ?sp now] =>
            destruct (species_insertOne driver d sp now)
              as [sid | e9]; cbv beta iota
        end ];
    reflexivity.
Qed.

End ObservationRouteFacts.

Lemma post_observations_announces_the_stored_points_witness :
  exists userId observationData _id d,
    Some "6630a1b2c3d4e5f601234567" = Some userId /\ userId <> "" /\
    Some empty_database = Some d /\
    observations_insertOne quiet_driver d observationData 1700000000000
      = Returned _id /\
    Http.ObservationCreated
      (Inserted.mk
         (ObservationData.mk "6630a1b2c3d4e5f601234567" "Panthera pardus" []
            (0x1.24310cb295e9ep+6%float, 0x1.0d79a6b50b0f2p+5%float)
            "/uploads/image-1700000000000-42.jpg" ""
            0x1.6666666666666p-1%float 35%float)
         1700000000000 (Some 1700000000000%Z) "65f0c0ffee0000000000000b")
      "Observation recorded successfully! You earned 35 points."
    = Http.ObservationCreated
        (Inserted.mk observationData 1700000000000 (Some 1700000000000%Z) _id)
        ("Observation recorded successfully! You earned "
         ++ print_points (ObservationData.pointsAwarded observationData)
         ++ " points.") /\
    ObservationData.userId observationData = userId /\
    (ObservationData.pointsAwarded observationData = 10%float \/
     ObservationData.pointsAwarded observationData = 25%float \/
     ObservationData.pointsAwarded observationData = 35%float) /\
    (forall name,
       Some "Panthera pardus" = Some name -> name <> "" ->
       ObservationData.speciesName observationData = name /\
       ObservationData.identificationConfidence observationData
         = 0x1.6666666666666p-1%float).
Proof.
  apply (post_observations_announces_the_stored_points no_network None
           islamabad no_names print_points quiet_driver 1700000000000
           (Some empty_database) (Some "6630a1b2c3d4e5f601234567")
           (Some ("/tmp/uploads/image-1700000000000-42.jpg",
                  "image-1700000000000-42.jpg"))
           (Some "Panthera pardus") None None (Some "33.6844")
           (Some "73.0479") []).
  vm_compute. reflexivity.
Defined.

(* ================================================================== *)
(** * Worked examples, on the doubles *)
(* ================================================================== *)

(** One species record and a question about it: the record is the one
    local document, so the fallback document follows it, and the answer
    opens with the record. *)
Example eagle_question_sources :
  exists answerText log,
    answerWithRAG print_coordinate one_species_store
      "What birds are found in Margalla Hills?" []
    = (Returned
         (AnswerResult.mk answerText
            ["Species Database: Aquila rapax";
             "Internet Search Result (Note: Without internet access, this is general information)"]
            (Some []) (Some [])),
       log) /\
    JSString.startsWith answerText
      "Based on our information: Aquila rapax (Tawny Eagle): A large bird of prey found in Margalla Hills."
    = true.
Proof. eexists _, _. split; vm_compute; reflexivity. Qed.

Example eagle_question_score :
  result (retrieveRelevantInfo print_coordinate one_species_store
            "What birds are found in Margalla Hills?") []
  = Returned
      [RetrievalResult.mk
         "Aquila rapax (Tawny Eagle): A large bird of prey found in Margalla Hills. Habitat: Margalla Hills. Type: animal."
         "Species Database: Aquila rapax"
         0x1.c82037e4ae6f1p-2%float].
Proof. vm_compute. reflexivity. Qed.

(** An empty store: nothing is retrieved and the fallback document is
    the only source. *)
Example leopard_question_on_empty_store :
  result (retrieveRelevantInfo print_coordinate empty_store
            "Are there leopards nearby?") []
    = Returned [] /\
  option_map AnswerResult.sources
    (match result (answerWithRAG print_coordinate empty_store
                     "Are there leopards nearby?") [] with
     | Returned answer => Some answer
     | Thrown _ => None
     end)
    = Some ["Internet Search Result (Note: Without internet access, this is general information)"].
Proof. split; vm_compute; reflexivity. Qed.

(** The class names 'mantis, mantid' and 'Egyptian cat' of MobileNet:
    the first is taken for an ant, the second for no known organism,
    although [classMap] has an entry for each. *)
Example mantis_and_egyptian_cat :
  ImageProcessor.map_class (JSString.toLowerCase "mantis, mantid")
    = ImageProcessor.mkClass Species.animal "Ant" /\
  ImageProcessor.map_class (JSString.toLowerCase "Egyptian cat")
    = ImageProcessor.mkClass Species.other "Unidentified Organism".
Proof. split; vm_compute; reflexivity. Qed.

(** A connection that is accepted by a server that refuses the index:
    the caller sees the failure, and the handle is set. *)
Example connection_without_index :
  connectToDatabase client_without_index None []
  = (Thrown (mkError "not authorized to create index"),
     Some empty_database,
     [Awaited "client.connect" ""; Awaited "createIndex" "observations";
      ConsoleError "Error connecting to MongoDB:"
        (mkError "not authorized to create index")]).
Proof. reflexivity. Qed.

(** A question put while the queries cannot be stored: the engine
    answers, the route sends 500. *)
Example question_not_stored :
  result (rag_ask_route print_coordinate empty_store
            (MongoDBStorageOps failing_driver 0 (Some empty_database))
            (Some "6630a1b2c3d4e5f601234567")
            (Some "Are there leopards nearby?")) []
  = Returned
      (Http.respond 500 (Http.Message "Error processing your question")).
Proof. vm_compute. reflexivity. Qed.
